(** * Crypto market overview dashboard (pyst4h.py): model and properties

    The script fetches five pages of market records from an HTTP API with a
    retry-forever loop, builds a pandas frame, normalises it, caches it for
    a day, and renders a formatted table with a CSV download.

    The development follows the script top to bottom:
    - [PyText]: decimal digits, upper-casing, the few string helpers needed;
    - [PyFloat]: binary64 values, literals, comparison, [format] with a
      [,.Nf] specification and [repr];
    - values, exceptions, frames and the effect monad of the script;
    - the fetch loop, the page aggregator, the cache decorator, the
      formatters, the export and the top-level script;
    - lines 100-134 once more with the frames on a heap, where a
      formatter could assign to the frame it formats;
    - the tables of the specification, the helpers of the statements and
      sample data;
    - the properties: the price formatter, the fetch loop, the
      aggregator and normalisation, dates, the cache, selection and
      export, the empty dataset, and further properties of the code. *)

From Stdlib Require Import ZArith List String Ascii Bool Lia.
From Stdlib Require Import Floats.SpecFloat.
Import ListNotations.

Local Open Scope string_scope.
Local Open Scope Z_scope.

(* ================================================================= *)
(** ** Text helpers *)

Module PyText.

Definition digit_char (n : Z) : ascii := ascii_of_nat (48 + Z.to_nat n).

(** The [d] least significant decimal digits of [n], most significant
    first, padded with zeros. *)
Fixpoint low_digits (d : nat) (n : Z) : string :=
  match d with
  | O => ""
  | S d' => low_digits d' (n / 10) ++ String (digit_char (n mod 10)) ""
  end.

Fixpoint count_digits (fuel : nat) (n : Z) : nat :=
  match fuel with
  | O => 1
  | S fuel' => if n <? 10 then 1%nat else S (count_digits fuel' (n / 10))
  end.

(** Decimal numeral of a non-negative integer, no padding: [str(n)]. *)
Definition nat_digits (n : Z) : string :=
  low_digits (count_digits (Z.to_nat (Z.log2 n)) n) n.

(** [str(z)] for a Python int. *)
Definition str_int (z : Z) : string :=
  if z <? 0 then "-" ++ nat_digits (- z) else nat_digits z.

(** Grouping of a digit list given least significant digit first. *)
Fixpoint group_rev (l : list ascii) : list ascii :=
  match l with
  | a :: b :: c :: ((_ :: _) as rest) =>
      a :: b :: c :: ","%char :: group_rev rest
  | _ => l
  end.

(** The [,] option of a format specification: a comma between groups
    of three digits, counted from the right. *)
Definition group_thousands (s : string) : string :=
  string_of_list_ascii
    (rev (group_rev (rev (list_ascii_of_string s)))).

Definition is_lower (c : ascii) : bool :=
  let n := nat_of_ascii c in (97 <=? n)%nat && (n <=? 122)%nat.

Definition upper_char (c : ascii) : ascii :=
  if is_lower c then ascii_of_nat (nat_of_ascii c - 32) else c.

(** [str.upper()] on the ASCII letters; the other bytes of the text are
    kept as they are. *)
Fixpoint upper (s : string) : string :=
  match s with
  | EmptyString => EmptyString
  | String c s' => String (upper_char c) (upper s')
  end.

Fixpoint has_lower (s : string) : bool :=
  match s with
  | EmptyString => false
  | String c s' => is_lower c || has_lower s'
  end.

Fixpoint mem_char (c : ascii) (s : string) : bool :=
  match s with
  | EmptyString => false
  | String c' s' => Ascii.eqb c c' || mem_char c s'
  end.

(** The text after the first ['.'] of [s], if there is one. *)
Fixpoint after_point (s : string) : option string :=
  match s with
  | EmptyString => None
  | String c s' => if Ascii.eqb c "."%char then Some s' else after_point s'
  end.

Fixpoint join (sep : string) (l : list string) : string :=
  match l with
  | [] => ""
  | [x] => x
  | x :: rest => x ++ sep ++ join sep rest
  end.

Definition mem_string (x : string) (l : list string) : bool :=
  existsb (String.eqb x) l.

End PyText.

(* ================================================================= *)
(** ** Floats *)

Module PyFloat.
Import PyText.

(** A Python float is an IEEE 754 binary64 value: the standard library's
    [spec_float], with mantissa [m] and exponent [e] standing for
    [m * 2^e]. *)
Definition float := spec_float.

Definition prec : Z := 53.
Definition emin : Z := -1074.
Definition emax_fin : Z := 971.

Definition round_half_even (num den : Z) : Z :=
  let q := num / den in
  let r := num mod den in
  if 2 * r <? den then q
  else if den <? 2 * r then q + 1
  else if Z.even q then q else q + 1.

(** The binary64 value nearest to the positive rational [num / den]
    (ties to even): how Python reads a decimal literal, and how
    [float(text)] reads a numeral. *)
Definition nearest_float (num den : Z) : float :=
  if (num <=? 0) || (den <=? 0) then S754_zero false
  else
    let e1 := Z.log2 num - Z.log2 den - (prec - 1) in
    let scaled e := if 0 <=? e then num / (den * 2 ^ e)
                    else (num * 2 ^ (- e)) / den in
    let e2 := if scaled e1 <? 2 ^ (prec - 1) then e1 - 1 else e1 in
    let e3 := Z.max e2 emin in
    let m := if 0 <=? e3 then round_half_even num (den * 2 ^ e3)
             else round_half_even (num * 2 ^ (- e3)) den in
    let '(m', e') := if m =? 2 ^ prec then (2 ^ (prec - 1), e3 + 1)
                     else (m, e3) in
    if m' =? 0 then S754_zero false
    else if emax_fin <? e' then S754_infinity false
    else S754_finite false (Z.to_pos m') e'.

(** The literal whose digits are [n] with [k] of them after the point:
    [lit 1 1] is [0.1], [lit 12345 3] is [12.345]. *)
Definition lit (n : Z) (k : nat) : float := nearest_float n (10 ^ Z.of_nat k).

Definition is_nan (f : float) : bool :=
  match f with S754_nan => true | _ => false end.

Definition is_finite (f : float) : bool :=
  match f with S754_zero _ | S754_finite _ _ _ => true | _ => false end.

(** [a > b] and [a <= b] on floats; both are false when either side is
    NaN. *)
Definition gt (a b : float) : bool := SFltb b a.
Definition le (a b : float) : bool := SFleb a b.

(** [|m * 2^e| * 10^d], rounded to an integer, ties to even. *)
Definition scaled_decimal (d : nat) (m : positive) (e : Z) : Z :=
  if 0 <=? e then Z.pos m * 2 ^ e * 10 ^ Z.of_nat d
  else round_half_even (Z.pos m * 10 ^ Z.of_nat d) (2 ^ (- e)).

Definition sign_text (s : bool) : string := if s then "-" else "".

Definition fixed_digits (thousands : bool) (d : nat) (n : Z) : string :=
  let p := 10 ^ Z.of_nat d in
  let ip := nat_digits (n / p) in
  (if thousands then group_thousands ip else ip)
    ++ match d with
       | O => ""
       | _ => "." ++ low_digits d (n mod p)
       end.

(** [format(f, ",.Nf")] when [thousands], [format(f, ".Nf")] otherwise:
    fixed notation with [d] digits after the point, correctly rounded
    from the exact binary value. *)
Definition format_f (thousands : bool) (d : nat) (f : float) : string :=
  match f with
  | S754_nan => "nan"
  | S754_infinity s => sign_text s ++ "inf"
  | S754_zero s => sign_text s ++ fixed_digits thousands d 0
  | S754_finite s m e =>
      sign_text s ++ fixed_digits thousands d (scaled_decimal d m e)
  end.

(** *** [repr]: the shortest numeral that reads back as the same float *)

Fixpoint zeros (n : nat) : string :=
  match n with O => "" | S n' => String "0"%char (zeros n') end.

Fixpoint strip_zeros_rev (l : list ascii) : list ascii :=
  match l with
  | c :: rest => if Ascii.eqb c "0"%char then strip_zeros_rev rest else l
  | [] => []
  end.

Definition strip_trailing_zeros (s : string) : string :=
  string_of_list_ascii (rev (strip_zeros_rev (rev (list_ascii_of_string s)))).

(** Smallest [j <= fuel] with [num * 10^j >= den]. *)
Fixpoint first_scale (fuel : nat) (j : Z) (num den : Z) : Z :=
  match fuel with
  | O => j
  | S fuel' => if den <=? num * 10 ^ j then j
               else first_scale fuel' (j + 1) num den
  end.

(** The decimal point position [p] of the positive rational [num / den]:
    [10^(p-1) <= num / den < 10^p]. *)
Definition decimal_point (num den : Z) : Z :=
  if den <=? num
  then Z.of_nat (count_digits (Z.to_nat (Z.log2 (num / den))) (num / den))
  else 1 - first_scale 400 0 num den.

(** The scale [s] at which [num / den] has [k] digits before the point:
    [num / den * 10^s] lies between [10^(k-1)] and [10^k]. *)
Definition digit_scale (k : Z) (num den : Z) : Z :=
  k - decimal_point num den.

(** [num / den * 10^s] as a fraction. *)
Definition scaled_fraction (s : Z) (num den : Z) : Z * Z :=
  if 0 <=? s then (num * 10 ^ s, den) else (num, den * 10 ^ (- s)).

(** Whether the numeral [n / 10^s] is read as the float [m * 2^e]. *)
Definition reads_back (n s : Z) (m : positive) (e : Z) : bool :=
  let f := if 0 <=? s then nearest_float n (10 ^ s)
           else nearest_float (n * 10 ^ (- s)) 1 in
  match f with
  | S754_finite _ m' e' => Pos.eqb m m' && (e =? e')
  | _ => false
  end.

(** The best numeral with [k] digits for the float [m * 2^e], if one is
    read back as that float: of the two [k]-digit numerals around the
    exact value, the one that is read back, and the nearer one when both
    are. *)
Definition with_digits (k : Z) (m : positive) (e : Z) : option (Z * Z) :=
  let num := if 0 <=? e then Z.pos m * 2 ^ e else Z.pos m in
  let den := if 0 <=? e then 1 else 2 ^ (- e) in
  let s := digit_scale k num den in
  let '(a, b) := scaled_fraction s num den in
  let below := a / b in
  if a mod b =? 0 then
    if reads_back below s m e then Some (below, s) else None
  else
    match reads_back below s m e, reads_back (below + 1) s m e with
    | true, true => Some (round_half_even a b, s)
    | true, false => Some (below, s)
    | false, true => Some (below + 1, s)
    | false, false => None
    end.

(** The digits of the shortest numeral that is read back as the float,
    and its scale: tried with [k], [k + 1], ... digits; 17 digits always
    suffice for a binary64 value, and with 17 the nearest numeral is
    taken. *)
Fixpoint shortest (fuel : nat) (k : Z) (m : positive) (e : Z) : Z * Z :=
  match fuel with
  | O =>
      let num := if 0 <=? e then Z.pos m * 2 ^ e else Z.pos m in
      let den := if 0 <=? e then 1 else 2 ^ (- e) in
      let s := digit_scale k num den in
      let '(a, b) := scaled_fraction s num den in
      (round_half_even a b, s)
  | S fuel' =>
      match with_digits k m e with
      | Some found => found
      | None => shortest fuel' (k + 1) m e
      end
  end.

Definition repr_finite (m : positive) (e : Z) : string :=
  let '(n, s) := shortest 16 1 m e in
  let all := nat_digits n in
  let ds := strip_trailing_zeros all in
  let decpt := Z.of_nat (String.length all) - s in
  let len := Z.of_nat (String.length ds) in
  if (decpt <=? -4) || (16 <? decpt) then
    let x := decpt - 1 in
    substring 0 1 ds
      ++ (if 1 <? len then "." ++ substring 1 (String.length ds - 1) ds
          else "")
      ++ "e" ++ (if x <? 0 then "-" else "+")
      ++ (if Z.abs x <? 10 then "0" else "") ++ nat_digits (Z.abs x)
  else if decpt <=? 0 then "0." ++ zeros (Z.to_nat (- decpt)) ++ ds
  else if len <=? decpt then ds ++ zeros (Z.to_nat (decpt - len)) ++ ".0"
  else substring 0 (Z.to_nat decpt) ds ++ "."
         ++ substring (Z.to_nat decpt) (Z.to_nat (len - decpt)) ds.

(** [repr(f)], which is also [str(f)]. *)
Definition repr (f : float) : string :=
  match f with
  | S754_nan => "nan"
  | S754_infinity s => sign_text s ++ "inf"
  | S754_zero s => sign_text s ++ "0.0"
  | S754_finite s m e => sign_text s ++ repr_finite m e
  end.

End PyFloat.

(* ================================================================= *)
(** ** Values, exceptions and frames *)

Import PyText.

Inductive exn : Type :=
| KeyError (key : string)
| TypeError
| ValueError
| AttributeError
| OverflowError.

Inductive result (A : Type) : Type :=
| Ok (a : A)
| Err (e : exn).
Arguments Ok {A} a.
Arguments Err {A} e.

Definition result_bind {A B} (r : result A) (k : A -> result B) : result B :=
  match r with
  | Ok a => k a
  | Err e => Err e
  end.

Fixpoint result_map {A B} (f : A -> result B) (l : list A) : result (list B) :=
  match l with
  | [] => Ok []
  | x :: rest =>
      result_bind (f x) (fun y =>
      result_bind (result_map f rest) (fun ys => Ok (y :: ys)))
  end.

(** A pandas [Timestamp]: the calendar date, and the text that [str]
    prints after it (time of day and zone). *)
Record timestamp : Type := mkTimestamp {
  ts_year : Z;
  ts_month : Z;
  ts_day : Z;
  ts_clock : string
}.

(** What a cell of the frame can hold.  A JSON number with a fraction or
    an exponent is read as a float, one without as an integer; [VObj] is
    a nested JSON array or object, kept with its [str] text. *)
Inductive value : Type :=
| VNone
| VNum (f : PyFloat.float)
| VInt (z : Z)
| VStr (s : string)
| VObj (text : string)
| VTime (t : timestamp)
| VNaT.

Definition NaN : value := VNum S754_nan.

(** A JSON object of the upstream answer, keys in document order. *)
Definition record : Type := list (string * value).

(** The parsed body of an answer: the upstream contract (section 6) is a
    JSON array of objects; [None] is a [null] body. *)
Definition body : Type := option (list record).

(** Truth value of a body, as [if coins:] takes it. *)
Definition truthy (coins : body) : bool :=
  match coins with
  | None => false
  | Some [] => false
  | Some (_ :: _) => true
  end.

(** [pd.isnull] / [pd.notnull] on a scalar. *)
Definition isnull (v : value) : bool :=
  match v with
  | VNone | VNaT => true
  | VNum f => PyFloat.is_nan f
  | _ => false
  end.

Definition notnull (v : value) : bool := negb (isnull v).

(** *** Frames *)

(** A [DataFrame]: the length of its index and its columns in order,
    each with one cell per index entry. *)
Record frame : Type := mkFrame {
  index_len : nat;
  columns : list (string * list value)
}.

Definition column_names (df : frame) : list string := map fst (columns df).

Fixpoint lookup {A} (k : string) (l : list (string * A)) : option A :=
  match l with
  | [] => None
  | (k', a) :: rest => if String.eqb k k' then Some a else lookup k rest
  end.

(** Keys of the records in order of first appearance. *)
Definition add_keys (seen : list string) (r : record) : list string :=
  fold_left (fun acc k => if mem_string k acc then acc else (acc ++ [k])%list)
            (map fst r) seen.

Definition all_keys (data : list record) : list string :=
  fold_left add_keys data [].

Definition is_float (v : value) : bool :=
  match v with VNum _ => true | _ => false end.

Definition is_int (v : value) : bool :=
  match v with VInt _ => true | _ => false end.

Definition is_none (v : value) : bool :=
  match v with VNone => true | _ => false end.

(** A number: a float or an integer. *)
Definition is_num (v : value) : bool :=
  match v with VNum _ | VInt _ => true | _ => false end.

Definition is_num_or_none (v : value) : bool :=
  match v with VNum _ | VInt _ | VNone => true | _ => false end.

(** [float(z)]: the nearest float of an integer. *)
Definition float_of_int (z : Z) : PyFloat.float :=
  match z with
  | Z0 => S754_zero false
  | Zpos _ => PyFloat.nearest_float z 1
  | Zneg p =>
      match PyFloat.nearest_float (Zpos p) 1 with
      | S754_finite _ m e => S754_finite true m e
      | S754_infinity _ => S754_infinity true
      | other => other
      end
  end.

(** A column is stored as float64 when it holds only numbers and [None]
    and cannot be an integer column: there is a float, or there are
    integers next to [None]. *)
Definition float_dtype (cells : list value) : bool :=
  forallb is_num_or_none cells
  && (existsb is_float cells || (existsb is_int cells && existsb is_none cells)).

(** A column is stored as int64 when it holds integers only. *)
Definition int_dtype (cells : list value) : bool :=
  forallb is_int cells && existsb is_int cells.

(** Type inference of the constructor: in a float64 column [None]
    becomes NaN and an integer the float of its value; any other column
    keeps its objects. *)
Definition infer_objects (cells : list value) : list value :=
  if float_dtype cells
  then map (fun v => match v with
                     | VNone => NaN
                     | VInt z => VNum (float_of_int z)
                     | _ => v
                     end) cells
  else cells.

(** [pd.DataFrame(data)] for a list of dicts: one row per dict, one
    column per key, NaN where a dict lacks the key. *)
Definition DataFrame (data : list record) : frame :=
  {| index_len := List.length data;
     columns :=
       map (fun c =>
              (c, infer_objects
                    (map (fun r => match lookup c r with
                                   | Some v => v
                                   | None => NaN
                                   end) data)))
           (all_keys data) |}.

(** [df[key]] *)
Definition getitem (df : frame) (key : string) : result (list value) :=
  match lookup key (columns df) with
  | Some cells => Ok cells
  | None => Err (KeyError key)
  end.

Fixpoint set_column (key : string) (cells : list value)
         (cols : list (string * list value)) : list (string * list value) :=
  match cols with
  | [] => []
  | (k, old) :: rest =>
      if String.eqb key k then (k, cells) :: rest
      else (k, old) :: set_column key cells rest
  end.

(** [df.loc[:, key] = cells] and [df[key] = cells] on an existing column. *)
Definition setitem (df : frame) (key : string) (cells : list value) : frame :=
  {| index_len := index_len df; columns := set_column key cells (columns df) |}.

(** [series.str.upper()]: the accessor exists on object columns only;
    cells that are not text become NaN. *)
Definition str_upper (cells : list value) : result (list value) :=
  if float_dtype cells || int_dtype cells then Err AttributeError
  else Ok (map (fun v => match v with
                         | VStr s => VStr (upper s)
                         | _ => NaN
                         end) cells).

(** [df.rename(columns={old: new}, inplace=True)] *)
Definition rename (old new : string) (df : frame) : frame :=
  {| index_len := index_len df;
     columns := map (fun '(k, cells) =>
                       (if String.eqb k old then new else k, cells))
                    (columns df) |}.

(** [df.empty] *)
Definition empty (df : frame) : bool :=
  Nat.eqb (index_len df) 0 || Nat.eqb (List.length (columns df)) 0.

(** [df[keys]] for a list of labels: the columns carrying each label, in
    the order of [keys]. *)
Definition getitems (df : frame) (keys : list string) : result frame :=
  result_bind
    (result_map
       (fun k =>
          match filter (fun c => String.eqb k (fst c)) (columns df) with
          | [] => Err (KeyError k)
          | found => Ok found
          end) keys)
    (fun cols => Ok {| index_len := index_len df; columns := List.concat cols |}).

(** The rows of a frame: for each index entry the cells of the columns. *)
Definition rows (df : frame) : list (list value) :=
  map (fun i => map (fun c => nth i (snd c) NaN) (columns df))
      (seq 0 (index_len df)).

(* ================================================================= *)
(** ** The outside world and the effects of the script *)

Inductive param : Type :=
| PStr (s : string)
| PInt (z : Z).

(** A call [requests.get(url, params=params, timeout=timeout)]. *)
Record request : Type := mkRequest {
  req_url : string;
  req_params : list (string * param);
  req_timeout : Z
}.

(** What one call of [requests.get] comes back with: an answer with its
    status code and decoded body, or a [RequestException] (time-out, DNS,
    refused connection). *)
Inductive attempt : Type :=
| Response (status_code : Z) (json : body)
| RequestException.

(** A table as the browser gets it: column labels and, per column, the
    display text of every cell. *)
Record table : Type := mkTable {
  labels : list string;
  cells_text : list (list string)
}.

(** What the Streamlit page shows, in order. *)
Inductive ui_event : Type :=
| Title (text : string)
| Spinner (text : string)
| Warning (text : string)
| SidebarSubheader (text : string)
| Multiselect (label : string) (options default : list string)
| LastUpdated (at_time : Z)
| Dataframe (t : table)
| DownloadButton (label data file_name mime : string)
| Error (text : string).

(** The state the script runs in: the clock (seconds), the requests sent
    so far, the page content, and the single entry of the data cache with
    the time it was stored. *)
Record world : Type := mkWorld {
  now : Z;
  sent : list request;
  shown : list ui_event;
  cache : option (frame * Z)
}.

(** What the program does not control: the upstream API, which answers
    the [n]-th request ever sent, and the date parser of pandas, which
    reads one cell of a column (the whole column is given too: pandas
    infers the date format from it). *)
Class Outside : Type := {
  upstream : nat -> request -> attempt;
  parse_datetime : list value -> value -> option timestamp
}.

(** A run either finishes with a value, raises, or is still looping when
    the fuel of the model runs out. *)
Inductive outcome (A : Type) : Type :=
| Done (a : A) (w : world)
| Raised (e : exn) (w : world)
| Looping (w : world).
Arguments Done {A} a w.
Arguments Raised {A} e w.
Arguments Looping {A} w.

Definition Run (A : Type) : Type := world -> outcome A.

Definition ret {A} (a : A) : Run A := fun w => Done a w.

Definition bind {A B} (c : Run A) (k : A -> Run B) : Run B :=
  fun w => match c w with
           | Done a w' => k a w'
           | Raised e w' => Raised e w'
           | Looping w' => Looping w'
           end.

Definition lift {A} (r : result A) : Run A :=
  fun w => match r with
           | Ok a => Done a w
           | Err e => Raised e w
           end.

Declare Scope run_scope.
Delimit Scope run_scope with run.
Notation "x <- c ;; k" := (bind c (fun x => k))
  (at level 100, c at next level, right associativity) : run_scope.
Notation "c ;; k" := (bind c (fun _ => k))
  (at level 100, right associativity) : run_scope.
Local Open Scope run_scope.

Definition show (e : ui_event) : Run unit :=
  fun w => Done tt {| now := now w; sent := sent w;
                      shown := (shown w ++ [e])%list; cache := cache w |}.

Definition st_title (text : string) : Run unit := show (Title text).
Definition st_warning (text : string) : Run unit := show (Warning text).
Definition st_error (text : string) : Run unit := show (Error text).

(** [time.sleep(seconds)] *)
Definition time_sleep (seconds : Z) : Run unit :=
  fun w => Done tt {| now := now w + seconds; sent := sent w;
                      shown := shown w; cache := cache w |}.

(** Time that passes between two runs of the script. *)
Definition elapse (seconds : Z) (w : world) : world :=
  {| now := now w + seconds; sent := sent w;
     shown := shown w; cache := cache w |}.

Section Script.

Context `{Outside}.

Definition requests_get (url : string) (params : list (string * param))
           (timeout : Z) : Run attempt :=
  fun w =>
    let r := {| req_url := url; req_params := params;
                req_timeout := timeout |} in
    Done (upstream (List.length (sent w)) r)
         {| now := now w; sent := (sent w ++ [r])%list;
            shown := shown w; cache := cache w |}.

(** *** The fetch loop (lines 10-20)

    [while True] has no exit but the [return]; [fuel] bounds the number
    of iterations the model follows. *)
Fixpoint fetch_data_continuously (fuel : nat) (url : string)
         (params : list (string * param)) : Run body :=
  match fuel with
  | O => fun w => Looping w
  | S fuel' =>
      response <- requests_get url params 10 ;;
      match response with
      | Response status_code json =>
          if status_code =? 200 then ret json
          else
            st_warning ("API error: Status " ++ str_int status_code
                          ++ ". Retrying...") ;;
            time_sleep 10 ;;
            fetch_data_continuously fuel' url params
      | RequestException =>
          st_warning "Connection issue. Retrying in 10 seconds..." ;;
          time_sleep 10 ;;
          fetch_data_continuously fuel' url params
      end
  end.

(** *** The aggregator (lines 23-41) *)

Definition markets_url : string :=
  "https://api.coingecko.com/api/v3/coins/markets".

Definition page_params (page : Z) : list (string * param) :=
  [("vs_currency", PStr "usd"); ("order", PStr "volume_desc");
   ("per_page", PInt 100); ("page", PInt page)].

(** [range(a, b)] *)
Definition range (a b : Z) : list Z :=
  map (fun i => a + Z.of_nat i) (seq 0 (Z.to_nat (b - a))).

(** [all_data.extend(coins)] *)
Definition extend (all_data : list record) (coins : body) : list record :=
  match coins with
  | Some l => (all_data ++ l)%list
  | None => all_data
  end.

Section Aggregator.

(** The fetcher the aggregator calls: the loop above in the script, a
    mock in a test. *)
Variable fetcher : string -> list (string * param) -> Run body.

(** The [for page in ...] loop, lines 25-35. *)
Fixpoint for_pages (pages : list Z) (all_data : list record)
  : Run (list record) :=
  match pages with
  | [] => ret all_data
  | page :: rest =>
      coins <- fetcher markets_url (page_params page) ;;
      for_pages rest
                (if truthy coins then extend all_data coins else all_data)
  end.

(** Lines 37-39: frame, upper-case symbols, renamed volume column. *)
Definition normalize (all_data : list record) : result frame :=
  let df := DataFrame all_data in
  result_bind (getitem df "symbol") (fun symbol =>
  result_bind (str_upper symbol) (fun upper_symbol =>
  let df := setitem df "symbol" upper_symbol in
  Ok (rename "total_volume" "Total Volume in USD" df))).

Definition get_top_500_pairs_by_volume_with : Run frame :=
  all_data <- for_pages (range 1 6) [] ;;
  lift (normalize all_data).

End Aggregator.

Definition get_top_500_pairs_by_volume (fuel : nat) : Run frame :=
  get_top_500_pairs_by_volume_with (fetch_data_continuously fuel).

(** *** The cache (lines 43-46) *)

(** Modelled from the spec: the decorator [st.cache_data(ttl=...)]
    belongs to Streamlit and is not part of the script; section 4.4
    says what it does.  On the first call, or when the age of the
    stored entry exceeds [ttl] seconds, the function runs and its
    result is stored with the current time; otherwise the stored
    dataset is returned.  A run that raises stores nothing. *)
Definition cache_data (ttl : Z) (f : Run frame) : Run frame :=
  fun w =>
    let refresh :=
      match f w with
      | Done df w' =>
          Done df {| now := now w'; sent := sent w'; shown := shown w';
                     cache := Some (df, now w') |}
      | other => other
      end in
    match cache w with
    | Some (df, stored_at) =>
        if ttl <? now w - stored_at then refresh else Done df w
    | None => refresh
    end.

Definition fetch_and_display_data (fuel : nat) : Run frame :=
  cache_data 86400 (get_top_500_pairs_by_volume fuel).

(** *** Dates (lines 78-80) *)

(** [pd.to_datetime(cells, errors='coerce')]: what does not parse
    becomes [NaT]. *)
Definition to_datetime (cells : list value) : list value :=
  map (fun v => match parse_datetime cells v with
                | Some t => VTime t
                | None => VNaT
                end) cells.

(** [t.strftime('%Y-%m-%d')] *)
Definition strftime_ymd (t : timestamp) : string :=
  low_digits 4 (ts_year t) ++ "-" ++ low_digits 2 (ts_month t)
    ++ "-" ++ low_digits 2 (ts_day t).

(** *** Formatting (lines 82-127) *)

(** [z > bound] for an integer and a float: the two numbers are
    compared by their exact values.  (The bounds of the script lie
    between 0 and 1, where going through the float of [z] first gives
    the same answer.) *)
Definition int_gt (z : Z) (bound : PyFloat.float) : bool :=
  match bound with
  | S754_nan => false
  | S754_infinity s => s
  | S754_zero _ => 0 <? z
  | S754_finite s m e =>
      let b := if s then Z.neg m else Z.pos m in
      if 0 <=? e then b * 2 ^ e <? z else b <? z * 2 ^ (- e)
  end.

(** [val > bound] for a float [bound]. *)
Definition py_gt (val : value) (bound : PyFloat.float) : result bool :=
  match val with
  | VNum f => Ok (PyFloat.gt f bound)
  | VInt z => Ok (int_gt z bound)
  | _ => Err TypeError
  end.

(** ['{:,.Nf}'.format(val)] followed by [suffix].  Only numbers accept
    the [f] presentation type, an integer being turned into a float
    first.  A timestamp takes the specification for a [strftime] format,
    which holds no directive and comes back as it is; no template of the
    script meets one, the two date columns have the lambda. *)
Definition str_format (decimals : nat) (suffix : string) (val : value)
  : result string :=
  match val with
  | VNum f => Ok (PyFloat.format_f true decimals f ++ suffix)
  | VInt z =>
      match float_of_int z with
      | S754_infinity _ => Err OverflowError
      | f => Ok (PyFloat.format_f true decimals f ++ suffix)
      end
  | VStr _ => Err ValueError
  | VTime _ =>
      Ok (",." ++ nat_digits (Z.of_nat decimals) ++ "f" ++ suffix)
  | _ => Err TypeError
  end.

(** Lines 83-97. *)
Definition price_format (val : value) : result string :=
  result_bind (py_gt val (PyFloat.lit 1 1)) (fun c1 =>
  if c1 then str_format 2 "" val else
  result_bind (py_gt val (PyFloat.lit 1 2)) (fun c2 =>
  if c2 then str_format 4 "" val else
  result_bind (py_gt val (PyFloat.lit 1 4)) (fun c3 =>
  if c3 then str_format 6 "" val else
  result_bind (py_gt val (PyFloat.lit 1 6)) (fun c4 =>
  if c4 then str_format 8 "" val else
  result_bind (py_gt val (PyFloat.lit 1 8)) (fun c5 =>
  if c5 then str_format 10 "" val else
  result_bind (py_gt val (PyFloat.lit 1 10)) (fun c6 =>
  if c6 then str_format 12 "" val else
  str_format 15 "" val)))))).

(** The lambda of lines 123-124. *)
Definition date_format (x : value) : result string :=
  if notnull x then
    match x with
    | VTime t => Ok (strftime_ymd t)
    | _ => Err AttributeError
    end
  else Ok "-".

Inductive formatter : Type :=
| Callable (f : value -> result string)
| Template (decimals : nat) (suffix : string).

(** The dictionary given to [Styler.format]. *)
Definition formatters : list (string * formatter) :=
  [("current_price", Callable price_format);
   ("high_24h", Callable price_format);
   ("low_24h", Callable price_format);
   ("ath", Callable price_format);
   ("atl", Callable price_format);
   ("market_cap", Template 2 "");
   ("fully_diluted_valuation", Template 2 "");
   ("Total Volume in USD", Template 2 "");
   ("price_change_24h", Template 2 "");
   ("price_change_percentage_24h", Template 2 "%");
   ("market_cap_change_24h", Template 2 "");
   ("market_cap_change_percentage_24h", Template 2 "%");
   ("ath_change_percentage", Template 2 "%");
   ("atl_change_percentage", Template 2 "%");
   ("circulating_supply", Template 2 "");
   ("total_supply", Template 2 "");
   ("max_supply", Template 2 "");
   ("ath_date", Callable date_format);
   ("atl_date", Callable date_format)].

(** [str(x)] of a cell. *)
Definition str_value (x : value) : string :=
  match x with
  | VNone => "None"
  | VNum f => PyFloat.repr f
  | VInt z => str_int z
  | VStr s => s
  | VObj text => text
  | VTime t => strftime_ymd t ++ ts_clock t
  | VNaT => "NaT"
  end.

(** Display of a cell whose column has no entry in the dictionary:
    floats with six decimals, anything else (an integer too) as [str]
    gives it. *)
Definition default_display (x : value) : string :=
  match x with
  | VNum f => PyFloat.format_f false 6 f
  | _ => str_value x
  end.

Definition display (fmt : option formatter) (x : value) : result string :=
  match fmt with
  | Some (Callable f) => f x
  | Some (Template decimals suffix) => str_format decimals suffix x
  | None => Ok (default_display x)
  end.

(** A [Styler]: it keeps the frame it was made from and, next to it,
    the display functions; the frame itself is not written to. *)
Record styler : Type := mkStyler {
  data : frame;
  display_funcs : list (string * formatter)
}.

(** [df.style.format(dict)] *)
Definition style_format (df : frame) (dict : list (string * formatter))
  : styler :=
  {| data := df; display_funcs := dict |}.

(** The display text of every cell, computed when the table is shown. *)
Definition render (s : styler) : result table :=
  result_bind
    (result_map
       (fun c => result_map (display (lookup (fst c) (display_funcs s)))
                            (snd c))
       (columns (data s)))
    (fun texts => Ok {| labels := column_names (data s);
                        cells_text := texts |}).

Definition st_dataframe (s : styler) : Run unit :=
  t <- lift (render s) ;;
  show (Dataframe t).

(** *** CSV export (line 133) *)

Definition dquote : string := String (ascii_of_nat 34) "".
Definition newline : string := String (ascii_of_nat 10) "".

Fixpoint double_quotes (s : string) : string :=
  match s with
  | EmptyString => EmptyString
  | String c s' =>
      if Ascii.eqb c (ascii_of_nat 34)
      then String c (String c (double_quotes s'))
      else String c (double_quotes s')
  end.

(** Minimal quoting of the [csv] module: a field is quoted when it
    holds the delimiter, a quote or a line break. *)
Definition csv_quote (s : string) : string :=
  if mem_char ","%char s || mem_char (ascii_of_nat 34) s
     || mem_char (ascii_of_nat 10) s || mem_char (ascii_of_nat 13) s
  then dquote ++ double_quotes s ++ dquote
  else s.

(** The text of a cell in the export: missing values are empty, floats
    are written with [repr], anything else (an integer too) with
    [str]. *)
Definition csv_field (x : value) : string :=
  if isnull x then ""
  else match x with
       | VNum f => PyFloat.repr f
       | _ => csv_quote (str_value x)
       end.

(** One line; a line made of a single empty field is written as a pair
    of quotes. *)
Definition csv_line (fields : list string) : string :=
  match fields with
  | [""] => dquote ++ dquote ++ newline
  | _ => join "," fields ++ newline
  end.

(** [df.to_csv(index=False)]: the header, then one line per row; the
    index is not written. *)
Definition to_csv (df : frame) : string :=
  String.concat ""
    (csv_line (map csv_quote (column_names df))
       :: map (fun r => csv_line (map csv_field r)) (rows df)).

(** *** The script, top to bottom *)

Definition st_spinner {A} (text : string) (block : Run A) : Run A :=
  show (Spinner text) ;; block.

Definition st_sidebar_subheader (text : string) : Run unit :=
  show (SidebarSubheader text).

(** [st.sidebar.multiselect(label, options, default=default)]: the
    widget shows the options and returns what the user has picked,
    which is [default] as long as the user has not touched it. *)
Definition st_sidebar_multiselect (label : string)
           (options default : list string) (picked : option (list string))
  : Run (list string) :=
  show (Multiselect label options default) ;;
  ret (match picked with
       | Some l => l
       | None => default
       end).

Definition st_markdown_last_updated : Run unit :=
  fun w => show (LastUpdated (now w)) w.

Definition st_download_button (label data file_name mime : string)
  : Run unit :=
  show (DownloadButton label data file_name mime).

Definition columns_to_display_all : list string :=
  ["symbol"; "current_price"; "market_cap"; "market_cap_rank";
   "fully_diluted_valuation"; "Total Volume in USD"; "high_24h";
   "low_24h"; "price_change_24h"; "price_change_percentage_24h";
   "market_cap_change_24h"; "market_cap_change_percentage_24h";
   "circulating_supply"; "total_supply"; "max_supply"; "ath";
   "ath_change_percentage"; "ath_date"; "atl"; "atl_change_percentage";
   "atl_date"].

(** Lines 53-69. *)
Definition columns_to_display (pairs_df : frame) : list string :=
  filter (fun col => mem_string col (column_names pairs_df))
         columns_to_display_all.

Definition default_columns (pairs_df : frame) : list string :=
  filter (fun col => mem_string col (columns_to_display pairs_df))
         ["symbol"; "current_price"; "market_cap"].

(** Lines 78-80. *)
Definition convert_dates (pairs_df : frame) : result frame :=
  result_bind (getitem pairs_df "ath_date") (fun ath_date =>
  let pairs_df := setitem pairs_df "ath_date" (to_datetime ath_date) in
  result_bind (getitem pairs_df "atl_date") (fun atl_date =>
  Ok (setitem pairs_df "atl_date" (to_datetime atl_date)))).

(** Lines 100-137. *)
Definition present (pairs_df : frame) (selected_columns : list string)
  : Run unit :=
  if negb (empty pairs_df) then
    pairs_df <- match selected_columns with
                | [] => ret pairs_df
                | _ :: _ => lift (getitems pairs_df selected_columns)
                end ;;
    let styled_df := style_format pairs_df formatters in
    st_dataframe styled_df ;;
    let csv := to_csv pairs_df in
    st_download_button "Download data as CSV" csv "crypto_data.csv"
                       "text/csv"
  else st_error "No data available to display.".

(** One run of the script; [picked] is the state of the column
    selector. *)
Definition script (fuel : nat) (picked : option (list string)) : Run unit :=
  st_title "Crypto Market Overview" ;;
  pairs_df <- st_spinner "Fetching data..." (fetch_and_display_data fuel) ;;
  st_sidebar_subheader "Select columns to display" ;;
  selected_columns <-
    st_sidebar_multiselect "Choose columns:" (columns_to_display pairs_df)
                           (default_columns pairs_df) picked ;;
  st_markdown_last_updated ;;
  pairs_df <- lift (convert_dates pairs_df) ;;
  present pairs_df selected_columns.

End Script.

(* ================================================================= *)
(** ** The specification's tables and the helpers of the statements *)

(** Number of characters after the decimal point of a numeral. *)
Definition decimal_places (s : string) : option nat :=
  option_map String.length (after_point s).

(** The magnitude table of section 4.5 of the specification, row by row
    as written there: the bound the value is strictly above, the bound it
    is at most, and the number of decimals. *)
Definition precision_table
  : list (option PyFloat.float * option PyFloat.float * nat) :=
  [(Some (PyFloat.lit 1 1), None, 2%nat);
   (Some (PyFloat.lit 1 2), Some (PyFloat.lit 1 1), 4%nat);
   (Some (PyFloat.lit 1 4), Some (PyFloat.lit 1 2), 6%nat);
   (Some (PyFloat.lit 1 6), Some (PyFloat.lit 1 4), 8%nat);
   (Some (PyFloat.lit 1 8), Some (PyFloat.lit 1 6), 10%nat);
   (Some (PyFloat.lit 1 10), Some (PyFloat.lit 1 8), 12%nat);
   (None, Some (PyFloat.lit 1 10), 15%nat)].

Definition row_decimals (row : option PyFloat.float * option PyFloat.float * nat)
  : nat := snd row.

(** Whether a value meets the condition of a row. *)
Definition in_row (v : PyFloat.float)
           (row : option PyFloat.float * option PyFloat.float * nat) : bool :=
  match fst (fst row) with
  | Some low => PyFloat.gt v low
  | None => true
  end
  && match snd (fst row) with
     | Some high => PyFloat.le v high
     | None => true
     end.

(** *** Helpers for the statements about the fetch loop *)

(** An attempt that makes the loop go round again. *)
Definition failed (a : attempt) : bool :=
  match a with
  | Response status_code _ => negb (status_code =? 200)
  | RequestException => true
  end.

(** The warning the loop shows for a failed attempt. *)
Definition warning_text (a : attempt) : string :=
  match a with
  | Response status_code _ =>
      "API error: Status " ++ str_int status_code ++ ". Retrying..."
  | RequestException => "Connection issue. Retrying in 10 seconds..."
  end.

(** The request a call of the loop sends, again and again. *)
Definition get_request (url : string) (params : list (string * param))
  : request :=
  {| req_url := url; req_params := params; req_timeout := 10 |}.

Definition with_sent (r : request) (w : world) : world :=
  {| now := now w; sent := (sent w ++ [r])%list;
     shown := shown w; cache := cache w |}.

(** The world after [k] failed attempts of the request [r], started in
    [w]: [k] requests sent, a warning for each, ten seconds slept after
    each. *)
Definition after_failures `{Outside} (r : request) (k : nat) (w : world)
  : world :=
  {| now := now w + 10 * Z.of_nat k;
     sent := (sent w ++ repeat r k)%list;
     shown := (shown w
               ++ map (fun i => Warning
                                  (warning_text
                                     (upstream (List.length (sent w) + i) r)))
                      (seq 0 k))%list;
     cache := cache w |}.

(** *** Helpers for the statements about the aggregator *)

(** The records a page contributes. *)
Definition items (coins : body) : list record :=
  match coins with
  | Some l => l
  | None => []
  end.

(** The symbol cell of a record after normalisation: upper-cased text, or
    NaN where the record has no text under that key. *)
Definition symbol_cell (r : record) : value :=
  match lookup "symbol" r with
  | Some (VStr s) => VStr (upper s)
  | _ => NaN
  end.

Definition renamed (old new k : string) : string :=
  if String.eqb k old then new else k.

(** *** Helpers for the statements about the cache and the script *)

Definition with_cache (entry : frame * Z) (w : world) : world :=
  {| now := now w; sent := sent w; shown := shown w; cache := Some entry |}.

Definition with_shown (events : list ui_event) (w : world) : world :=
  {| now := now w; sent := sent w;
     shown := (shown w ++ events)%list; cache := cache w |}.

(** The request the fetch loop sends for a page. *)
Definition page_request (page : Z) : request :=
  {| req_url := "https://api.coingecko.com/api/v3/coins/markets";
     req_params := [("vs_currency", PStr "usd"); ("order", PStr "volume_desc");
                    ("per_page", PInt 100); ("page", PInt page)];
     req_timeout := 10 |}.

(** What [pd.to_datetime(..., errors='coerce')] leaves in a cell. *)
Definition coerced `{Outside} (cells : list value) (v : value) : value :=
  match parse_datetime cells v with
  | Some t => VTime t
  | None => VNaT
  end.

(** The upstream answers every request with status 200 and a body that
    holds no record. *)
Definition serves_nothing `{Outside} : Prop :=
  forall n r, exists b, upstream n r = Response 200 b /\ truthy b = false.

(** The cells of the column labelled [k], empty when there is none. *)
Definition column_of (df : frame) (k : string) : list value :=
  match lookup k (columns df) with
  | Some cells => cells
  | None => []
  end.

(** *** Sample data for the examples *)

Module Sample.

Definition coin (symbol : string) (price : value) (ath_date : string)
  : record :=
  [("symbol", VStr symbol);
   ("current_price", price);
   ("total_volume", VNum (PyFloat.lit 5 0));
   ("price_change_percentage_24h", VNum (PyFloat.lit 12345 3));
   ("ath_date", VStr ath_date);
   ("atl_date", VNone)].

Definition btc : record :=
  coin "btc" (VNum (PyFloat.lit 12345 1)) "2021-11-10T14:24:11.849Z".

Definition eth : record := coin "eth" VNone "not a date".

(** A page of a hundred records. *)
Definition full_page : body := Some (repeat btc 100).

(** A parser that knows one date. *)
Definition parse_one (cells : list value) (v : value) : option timestamp :=
  match v with
  | VStr s =>
      if String.eqb s "2021-11-10T14:24:11.849Z"
      then Some {| ts_year := 2021; ts_month := 11; ts_day := 10;
                   ts_clock := " 14:24:11.849000+00:00" |}
      else None
  | _ => None
  end.

(** An upstream that answers 404, then fails to connect, then answers
    200 with two records, whatever the request. *)
Definition flaky : Outside :=
  {| upstream := fun n _ =>
                   match n with
                   | O => Response 404 None
                   | S O => RequestException
                   | _ => Response 200 (Some [btc; eth])
                   end;
     parse_datetime := parse_one |}.

(** An upstream that answers every request with a full page. *)
Definition steady : Outside :=
  {| upstream := fun _ _ => Response 200 full_page;
     parse_datetime := parse_one |}.

(** An upstream that answers every request with two records. *)
Definition small : Outside :=
  {| upstream := fun _ _ => Response 200 (Some [btc; eth]);
     parse_datetime := parse_one |}.

(** An upstream that has no record to give. *)
Definition drained : Outside :=
  {| upstream := fun _ _ => Response 200 (Some []);
     parse_datetime := parse_one |}.

(** A world at time zero: nothing sent, nothing shown, nothing cached. *)
Definition start : world :=
  {| now := 0; sent := []; shown := []; cache := None |}.

(** A frame with one price and one percentage. *)
Definition prices : frame :=
  {| index_len := 1;
     columns := [("current_price", [VNum (PyFloat.lit 12345 1)]);
                 ("price_change_percentage_24h",
                  [VNum (PyFloat.lit 12345 3)])] |}.

(** The world after the first [n] pages were fetched at the first
    attempt. *)
Definition after_pages (n : nat) : world :=
  {| now := 0; sent := map page_request (firstn n [1; 2; 3; 4; 5]);
     shown := []; cache := None |}.

(** A frame with the two date columns. *)
Definition dated : frame :=
  {| index_len := 2;
     columns := [("ath_date", [VStr "2021-11-10T14:24:11.849Z";
                               VStr "not a date"]);
                 ("atl_date", [VNone; VNone])] |}.

(** The frame the aggregator makes of ten records, five times [btc]
    and [eth]. *)
Definition normalized : frame :=
  {| index_len := 10;
     columns :=
       [("symbol", List.concat (repeat [VStr "BTC"; VStr "ETH"] 5));
        ("current_price",
         List.concat (repeat [VNum (PyFloat.lit 12345 1); NaN] 5));
        ("Total Volume in USD", repeat (VNum (PyFloat.lit 5 0)) 10);
        ("price_change_percentage_24h",
         repeat (VNum (PyFloat.lit 12345 3)) 10);
        ("ath_date",
         List.concat (repeat [VStr "2021-11-10T14:24:11.849Z";
                              VStr "not a date"] 5));
        ("atl_date", repeat VNone 10)] |}.

(** A record as the upstream sends it when price, rank and volume have
    no fraction. *)
Definition whole : record :=
  [("symbol", VStr "btc");
   ("current_price", VInt 43250);
   ("market_cap_rank", VInt 1);
   ("total_volume", VInt 5);
   ("price_change_percentage_24h", VNum (PyFloat.lit 12345 3))].

(** A selection of four of its columns. *)
Definition ranked : list string :=
  ["symbol"; "market_cap_rank"; "current_price";
   "price_change_percentage_24h"].

(** The frame [prices] with the texts of the table in the place of the
    numbers. *)
Definition shown_prices : frame :=
  {| index_len := 1;
     columns := [("current_price", [VStr "1,234.50"]);
                 ("price_change_percentage_24h", [VStr "12.35%"])] |}.

End Sample.

(** *** Helpers for the further properties *)

(** Every column of the frame has one cell per index entry. *)
Definition well_formed (df : frame) : Prop :=
  forall k cells, In (k, cells) (columns df) ->
                  List.length cells = index_len df.

(** A record has the key [k]. *)
Definition has_key (k : string) (r : record) : Prop := In k (map fst r).

(** The world an outcome ends in. *)
Definition world_of {A} (o : outcome A) : world :=
  match o with
  | Done _ w => w
  | Raised _ w => w
  | Looping w => w
  end.

Definition is_warning (e : ui_event) : bool :=
  match e with
  | Warning _ => true
  | _ => false
  end.

Definition is_error (e : ui_event) : bool :=
  match e with
  | Error _ => true
  | _ => false
  end.

(** From [w] to [w'] the page got warnings and nothing else. *)
Definition only_warned (w w' : world) : Prop :=
  exists l, shown w' = (shown w ++ l)%list /\ forallb is_warning l = true.

(** What the run from [w] to [w'] has cost: so many requests sent, all
    for one of the five pages of the markets endpoint, so many warnings
    shown and nothing else, ten seconds on the clock per warning, and the
    cache as it was. *)
Definition billed (w w' : world) (requests warnings : nat) : Prop :=
  exists reqs warns,
    sent w' = (sent w ++ reqs)%list
    /\ shown w' = (shown w ++ warns)%list
    /\ List.length reqs = requests
    /\ List.length warns = warnings
    /\ Forall (fun r => exists page,
                          In page [1; 2; 3; 4; 5] /\ r = page_request page)
              reqs
    /\ forallb is_warning warns = true
    /\ now w' = now w + 10 * Z.of_nat warnings
    /\ cache w' = cache w.

(** *** The frame as a shared object (lines 100-134)

    In the script the variable [pairs_df] and the styler made from it
    name one and the same frame object, and the callables given to the
    styler run in the process of the script, where they could assign to
    it.  This second reading of lines 100-134 keeps the frames on a heap
    and threads the heap through every call of a formatter. *)

Definition heap : Type := list frame.
Definition ref : Type := nat.

Definition no_frame : frame := {| index_len := 0; columns := [] |}.

(** The frame an address names. *)
Definition deref (h : heap) (a : ref) : frame := nth a h no_frame.

(** A new object at the end of the heap. *)
Definition alloc (df : frame) (h : heap) : ref * heap :=
  (List.length h, (h ++ [df])%list).

(** Assignment to the object at an address. *)
Fixpoint overwrite (a : ref) (df : frame) (h : heap) : heap :=
  match h, a with
  | [], _ => []
  | _ :: rest, O => df :: rest
  | x :: rest, S a' => x :: overwrite a' df rest
  end.

(** A callable as the styler sees it: called on a cell, it gives a text
    or raises, and leaves the heap as it likes. *)
Definition callable : Type := value -> heap -> result string * heap.

(** A function of the script whose body assigns to nothing. *)
Definition writes_nothing (f : value -> result string) : callable :=
  fun x h => (f x, h).

Inductive shared_formatter : Type :=
| Calls (f : callable)
| Fills (decimals : nat) (suffix : string).

Definition share (fmt : formatter) : shared_formatter :=
  match fmt with
  | Callable f => Calls (writes_nothing f)
  | Template decimals suffix => Fills decimals suffix
  end.

(** The dictionary of lines 105-124 again: [price_format] and the two
    lambdas have no assignment in their bodies. *)
Definition shared_formatters : list (string * shared_formatter) :=
  map (fun entry => (fst entry, share (snd entry))) formatters.

(** A styler holds the address of its frame, not a copy. *)
Record shared_styler : Type := mkSharedStyler {
  data_ref : ref;
  shared_funcs : list (string * shared_formatter)
}.

Definition display_shared (fmt : option shared_formatter) (x : value)
  : heap -> result string * heap :=
  match fmt with
  | Some (Calls f) => f x
  | Some (Fills decimals suffix) => fun h => (str_format decimals suffix x, h)
  | None => fun h => (Ok (default_display x), h)
  end.

Fixpoint render_cells (fmt : option shared_formatter) (cells : list value)
         (h : heap) : result (list string) * heap :=
  match cells with
  | [] => (Ok [], h)
  | x :: rest =>
      match display_shared fmt x h with
      | (Ok text, h1) =>
          match render_cells fmt rest h1 with
          | (Ok texts, h2) => (Ok (text :: texts), h2)
          | (Err e, h2) => (Err e, h2)
          end
      | (Err e, h1) => (Err e, h1)
      end
  end.

Fixpoint render_columns (dict : list (string * shared_formatter))
         (cols : list (string * list value)) (h : heap)
  : result (list (list string)) * heap :=
  match cols with
  | [] => (Ok [], h)
  | c :: rest =>
      match render_cells (lookup (fst c) dict) (snd c) h with
      | (Ok texts, h1) =>
          match render_columns dict rest h1 with
          | (Ok more, h2) => (Ok (texts :: more), h2)
          | (Err e, h2) => (Err e, h2)
          end
      | (Err e, h1) => (Err e, h1)
      end
  end.

(** Rendering reads the frame through the address of the styler and
    calls the formatters cell by cell. *)
Definition render_shared (s : shared_styler) (h : heap)
  : result table * heap :=
  let df := deref h (data_ref s) in
  match render_columns (shared_funcs s) (columns df) h with
  | (Ok texts, h') =>
      (Ok {| labels := column_names df; cells_text := texts |}, h')
  | (Err e, h') => (Err e, h')
  end.

(** A result that carries the heap, as a step of the script. *)
Definition lift_heap {A} (r : result A * heap) : Run (A * heap) :=
  fun w => match r with
           | (Ok a, h) => Done (a, h) w
           | (Err e, _) => Raised e w
           end.

Definition st_dataframe_shared (s : shared_styler) (h : heap) : Run heap :=
  bind (lift_heap (render_shared s h)) (fun th =>
  bind (show (Dataframe (fst th))) (fun _ =>
  ret (snd th))).

(** Lines 100-137 on the heap, for a dictionary [dict] of formatters;
    the result is the address [pairs_df] ends with, and the heap at the
    end.  Line 103 makes a new frame, line 133 reads the frame
    [pairs_df] names when the styler has been rendered. *)
Definition present_shared (dict : list (string * shared_formatter))
           (pairs_df : ref) (selected_columns : list string) (h : heap)
  : Run (ref * heap) :=
  if negb (empty (deref h pairs_df)) then
    bind (match selected_columns with
          | [] => ret (pairs_df, h)
          | _ :: _ =>
              lift (result_bind
                      (getitems (deref h pairs_df) selected_columns)
                      (fun df => Ok (alloc df h)))
          end) (fun ah =>
    let pairs_df := fst ah in
    let h := snd ah in
    let styled_df := {| data_ref := pairs_df; shared_funcs := dict |} in
    bind (st_dataframe_shared styled_df h) (fun h =>
    let csv := to_csv (deref h pairs_df) in
    bind (st_download_button "Download data as CSV" csv "crypto_data.csv"
                             "text/csv") (fun _ =>
    ret (pairs_df, h))))
  else
    bind (st_error "No data available to display.") (fun _ =>
    ret (pairs_df, h)).

(** A dictionary none of whose callables assigns to a frame. *)
Definition quiet (dict : list (string * shared_formatter)) : Prop :=
  forall k f, In (k, Calls f) dict ->
              forall x h, snd (f x h) = h.

(** The frame line 103 selects from [df]. *)
Definition selected_frame (df : frame) (selected_columns : list string)
  : result frame :=
  match selected_columns with
  | [] => Ok df
  | _ :: _ => getitems df selected_columns
  end.

(** A formatter that does assign: besides giving its text it puts the
    frame [df] in the place of the first frame of the heap. *)
Definition writing (df : frame) : shared_formatter :=
  Calls (fun x h => (str_format 2 "" x, overwrite 0%nat df h)).

(** Whether every character of a text meets [p]. *)
Fixpoint all_chars (p : ascii -> bool) (s : string) : bool :=
  match s with
  | EmptyString => true
  | String c s' => p c && all_chars p s'
  end.

(** The characters of the numerals [repr] and [str] write for a number
    that is not NaN: digits, the point, the exponent mark, the signs and
    the letters of [inf]. *)
Definition number_char (c : ascii) : bool :=
  mem_char c "0123456789.e+-inf".

(* ================================================================= *)
(** ** Properties *)

(** *** Facts about text *)

Section TextFacts.

#[local] Arguments digit_char : simpl never.

Lemma length_append (a b : string) :
  String.length (a ++ b) = (String.length a + String.length b)%nat.
Proof. induction a as [|c a IH]; simpl; [reflexivity | now rewrite IH]. Qed.

Lemma append_assoc (a b c : string) : a ++ b ++ c = (a ++ b) ++ c.
Proof.
  induction a as [|x a IH]; cbn [append]; [reflexivity | now rewrite IH].
Qed.

Lemma mem_char_append (c : ascii) (a b : string) :
  mem_char c (a ++ b) = mem_char c a || mem_char c b.
Proof.
  induction a as [|x a IH]; simpl; [reflexivity|].
  now rewrite IH, orb_assoc.
Qed.

Lemma mem_char_of_list (c : ascii) (l : list ascii) :
  mem_char c (string_of_list_ascii l) = existsb (Ascii.eqb c) l.
Proof. induction l as [|x l IH]; simpl; [reflexivity | now rewrite IH]. Qed.

Lemma mem_char_to_list (c : ascii) (s : string) :
  existsb (Ascii.eqb c) (list_ascii_of_string s) = mem_char c s.
Proof. induction s as [|x s IH]; simpl; [reflexivity | now rewrite IH]. Qed.

Lemma existsb_rev {A} (f : A -> bool) (l : list A) :
  existsb f (rev l) = existsb f l.
Proof.
  induction l as [|x l IH]; simpl; [reflexivity|].
  rewrite existsb_app, IH. simpl. rewrite orb_false_r. apply orb_comm.
Qed.

(** Grouping adds commas and nothing else. *)
Lemma existsb_group_rev (c : ascii) (l : list ascii) :
  Ascii.eqb c ","%char = false ->
  existsb (Ascii.eqb c) (group_rev l) = existsb (Ascii.eqb c) l.
Proof.
  intros Hc.
  assert (G : forall n l, (List.length l <= n)%nat ->
              existsb (Ascii.eqb c) (group_rev l) = existsb (Ascii.eqb c) l).
  { clear l. induction n as [|n IH]; intros l Hl.
    - destruct l; [reflexivity | simpl in Hl; lia].
    - destruct l as [|x1 [|x2 [|x3 [|x4 l]]]]; try reflexivity.
      change (group_rev (x1 :: x2 :: x3 :: x4 :: l))
        with (x1 :: x2 :: x3 :: ","%char :: group_rev (x4 :: l)).
      cbn [existsb]. rewrite Hc, (IH (x4 :: l)).
      + reflexivity.
      + simpl in *; lia. }
  now apply (G (List.length l)).
Qed.

Lemma mem_char_group_thousands (c : ascii) (s : string) :
  Ascii.eqb c ","%char = false ->
  mem_char c (group_thousands s) = mem_char c s.
Proof.
  intros Hc. unfold group_thousands.
  rewrite mem_char_of_list, existsb_rev, existsb_group_rev by assumption.
  now rewrite existsb_rev, mem_char_to_list.
Qed.

Lemma digit_char_not_point (n : Z) :
  0 <= n < 10 -> Ascii.eqb "."%char (digit_char n) = false.
Proof.
  intros Hn. unfold digit_char.
  assert (E : exists k, (k < 10)%nat /\ Z.to_nat n = k)
    by (exists (Z.to_nat n); split; [lia | reflexivity]).
  destruct E as [k [Hk ->]].
  do 10 (destruct k as [|k]; [reflexivity|]). lia.
Qed.

Lemma mem_char_low_digits (d : nat) (n : Z) :
  mem_char "."%char (low_digits d n) = false.
Proof.
  revert n. induction d as [|d IH]; intros n; simpl; [reflexivity|].
  rewrite mem_char_append, IH. cbn [mem_char orb].
  rewrite digit_char_not_point; [reflexivity|].
  apply Z.mod_pos_bound. lia.
Qed.

Lemma length_low_digits (d : nat) (n : Z) :
  String.length (low_digits d n) = d.
Proof.
  revert n. induction d as [|d IH]; intros n; simpl; [reflexivity|].
  rewrite length_append, IH. cbn [String.length]. lia.
Qed.

Lemma after_point_append (a b : string) :
  mem_char "."%char a = false ->
  after_point (a ++ "." ++ b) = Some b.
Proof.
  induction a as [|x a IH]; intros Ha; [reflexivity|].
  cbn [append after_point mem_char] in *.
  apply orb_false_iff in Ha. destruct Ha as [Hx Ha].
  rewrite Ascii.eqb_sym in Hx. rewrite Hx. now apply IH.
Qed.

Lemma upper_char_not_lower (c : ascii) : is_lower (upper_char c) = false.
Proof. destruct c as [[] [] [] [] [] [] [] []]; reflexivity. Qed.

Lemma has_lower_upper (s : string) : has_lower (upper s) = false.
Proof.
  induction s as [|c s IH]; simpl; [reflexivity|].
  now rewrite upper_char_not_lower, IH.
Qed.

End TextFacts.

(** *** Facts about floats *)

Section FloatFacts.
Import PyFloat.

Lemma SFcompare_antisym (a b : float) :
  SFcompare b a = option_map CompOpp (SFcompare a b).
Proof.
  destruct a as [sa|sa| |sa ma ea], b as [sb|sb| |sb mb eb]; simpl;
    try reflexivity;
    try (destruct sa; reflexivity); try (destruct sb; reflexivity);
    try (destruct sa, sb; reflexivity).
  f_equal.
  assert (A : Pos.compare_cont Eq mb ma
              = CompOpp (Pos.compare_cont Eq ma mb))
    by (rewrite Pos.compare_cont_antisym; reflexivity).
  destruct sa, sb; try reflexivity;
    rewrite (Z.compare_antisym ea eb), A;
    destruct (ea ?= eb); simpl; try reflexivity;
    destruct (Pos.compare_cont Eq ma mb); reflexivity.
Qed.

(** Away from NaN, [a <= b] is the negation of [a > b]. *)
Lemma le_not_gt (a b : float) :
  is_nan a = false -> is_nan b = false -> le a b = negb (gt a b).
Proof.
  intros Ha Hb. unfold le, gt, SFleb, SFltb.
  rewrite (SFcompare_antisym a b).
  destruct (SFcompare a b) as [[]|] eqn:E; try reflexivity.
  destruct a, b; simpl in *; discriminate.
Qed.

(** A value above a positive bound is above every positive bound with a
    smaller exponent. *)
Lemma gt_chain (m1 m2 : positive) (e1 e2 : Z) (f : float) :
  e2 < e1 ->
  gt f (S754_finite false m1 e1) = true ->
  gt f (S754_finite false m2 e2) = true.
Proof.
  intros He. unfold gt, SFltb.
  destruct f as [s|s| |s m e]; simpl; try discriminate.
  - destruct s; simpl; auto.
  - destruct s; simpl; [discriminate|].
    destruct (e1 ?= e) eqn:E1; intros Hgt.
    + apply Z.compare_eq in E1. subst e.
      assert (E2 : (e2 ?= e1) = Lt) by (apply Z.compare_lt_iff; lia).
      now rewrite E2.
    + rewrite Z.compare_lt_iff in E1.
      assert (E2 : (e2 ?= e) = Lt) by (apply Z.compare_lt_iff; lia).
      now rewrite E2.
    + discriminate.
Qed.

Lemma mem_char_sign (s : bool) : mem_char "."%char (sign_text s) = false.
Proof. destruct s; reflexivity. Qed.

(** A finite float written with [d > 0] decimals shows exactly [d]
    digits after the point. *)
Lemma decimal_places_format_f (thousands : bool) (d : nat) (f : float) :
  is_finite f = true -> d <> O ->
  decimal_places (format_f thousands d f) = Some d.
Proof.
  intros Hf Hd. destruct d as [|d]; [contradiction|].
  assert (G : forall s n,
             decimal_places (sign_text s ++ fixed_digits thousands (S d) n)
             = Some (S d)).
  { intros s n. unfold decimal_places, fixed_digits.
    set (ip := if thousands then _ else _).
    assert (Hip : mem_char "."%char ip = false).
    { subst ip. destruct thousands.
      - rewrite mem_char_group_thousands by reflexivity.
        apply mem_char_low_digits.
      - apply mem_char_low_digits. }
    replace (sign_text s ++ ip ++ "." ++ low_digits (S d) (n mod 10 ^ Z.of_nat (S d)))
      with ((sign_text s ++ ip) ++ "." ++ low_digits (S d) (n mod 10 ^ Z.of_nat (S d))).
    - rewrite after_point_append.
      + cbn [option_map]. now rewrite length_low_digits.
      + now rewrite mem_char_append, mem_char_sign, Hip.
    - symmetry. apply append_assoc. }
  destruct f; try discriminate; simpl; apply G.
Qed.

End FloatFacts.

(** *** The price formatter *)

Section PriceFormat.
Import PyFloat.

Lemma append_empty_r (s : string) : s ++ "" = s.
Proof.
  induction s as [|c s IH]; cbn [append]; [reflexivity | now rewrite IH].
Qed.

(** The chain of comparisons of [price_format], read as one choice of
    the number of decimals. *)
Lemma price_format_cases (f : float) :
  price_format (VNum f)
  = Ok (format_f true
          (if gt f (lit 1 1) then 2
           else if gt f (lit 1 2) then 4
           else if gt f (lit 1 4) then 6
           else if gt f (lit 1 6) then 8
           else if gt f (lit 1 8) then 10
           else if gt f (lit 1 10) then 12
           else 15)%nat f).
Proof.
  unfold price_format, py_gt, str_format. cbn [result_bind].
  repeat match goal with
         | |- context [gt f ?t] => destruct (gt f t)
         end;
    now rewrite append_empty_r.
Qed.

(** The six bounds as binary64 values. *)
Lemma bounds_values :
  lit 1 1 = S754_finite false 7205759403792794 (-56)
  /\ lit 1 2 = S754_finite false 5764607523034235 (-59)
  /\ lit 1 4 = S754_finite false 7378697629483821 (-66)
  /\ lit 1 6 = S754_finite false 4722366482869645 (-72)
  /\ lit 1 8 = S754_finite false 6044629098073146 (-79)
  /\ lit 1 10 = S754_finite false 7737125245533627 (-86).
Proof. vm_compute. repeat split. Qed.

(** Above one bound means above all the smaller ones. *)
Lemma bounds_chain (f : float) :
  (gt f (lit 1 1) = true -> gt f (lit 1 2) = true)
  /\ (gt f (lit 1 2) = true -> gt f (lit 1 4) = true)
  /\ (gt f (lit 1 4) = true -> gt f (lit 1 6) = true)
  /\ (gt f (lit 1 6) = true -> gt f (lit 1 8) = true)
  /\ (gt f (lit 1 8) = true -> gt f (lit 1 10) = true).
Proof.
  destruct bounds_values as (-> & -> & -> & -> & -> & ->).
  repeat split; apply gt_chain; lia.
Qed.

Lemma bounds_le (f : float) :
  is_nan f = false ->
  le f (lit 1 1) = negb (gt f (lit 1 1))
  /\ le f (lit 1 2) = negb (gt f (lit 1 2))
  /\ le f (lit 1 4) = negb (gt f (lit 1 4))
  /\ le f (lit 1 6) = negb (gt f (lit 1 6))
  /\ le f (lit 1 8) = negb (gt f (lit 1 8))
  /\ le f (lit 1 10) = negb (gt f (lit 1 10)).
Proof.
  intros Hf. destruct bounds_values as (-> & -> & -> & -> & -> & ->).
  repeat split; now apply le_not_gt.
Qed.

(** C1.  For every float that is not NaN, exactly the rows of the
    magnitude table of section 4.5 decide the number of decimals of
    [price_format]: some row applies; whichever row applies, the result
    is the value written with that row's decimals and thousands
    separators, and for a finite value exactly that many digits follow
    the point.  Each bound itself is written with the precision of the
    row below it: 0.1 with 4 decimals, 0.01 with 6, down to 1e-10 with
    15. *)
Theorem price_format_follows_table :
  (forall f : float,
      is_nan f = false ->
      (exists row, In row precision_table /\ in_row f row = true)
      /\ (forall row,
             In row precision_table -> in_row f row = true ->
             price_format (VNum f)
             = Ok (format_f true (row_decimals row) f)
             /\ (is_finite f = true ->
                 decimal_places (format_f true (row_decimals row) f)
                 = Some (row_decimals row))))
  /\ price_format (VNum (lit 1 1)) = Ok "0.1000"
  /\ price_format (VNum (lit 1 2)) = Ok "0.010000"
  /\ price_format (VNum (lit 1 4)) = Ok "0.00010000"
  /\ price_format (VNum (lit 1 6)) = Ok "0.0000010000"
  /\ price_format (VNum (lit 1 8)) = Ok "0.000000010000"
  /\ price_format (VNum (lit 1 10)) = Ok "0.000000000100000".
Proof.
  split; [| vm_compute; repeat split].
  intros f Hf.
  destruct (bounds_chain f) as (C1 & C2 & C3 & C4 & C5).
  destruct (bounds_le f Hf) as (L1 & L2 & L3 & L4 & L5 & L6).
  split.
  - assert (P : forall n row,
               nth_error precision_table n = Some row ->
               in_row f row = true ->
               exists row, In row precision_table /\ in_row f row = true).
    { intros n row Hn Hr. exists row. split; [|exact Hr].
      eapply nth_error_In; exact Hn. }
    destruct (gt f (lit 1 1)) eqn:G1.
    { apply (P 0%nat _ eq_refl). unfold in_row; cbn [fst snd].
      now rewrite G1. }
    destruct (gt f (lit 1 2)) eqn:G2.
    { apply (P 1%nat _ eq_refl). unfold in_row; cbn [fst snd].
      now rewrite G2, L1. }
    destruct (gt f (lit 1 4)) eqn:G3.
    { apply (P 2%nat _ eq_refl). unfold in_row; cbn [fst snd].
      now rewrite G3, L2. }
    destruct (gt f (lit 1 6)) eqn:G4.
    { apply (P 3%nat _ eq_refl). unfold in_row; cbn [fst snd].
      now rewrite G4, L3. }
    destruct (gt f (lit 1 8)) eqn:G5.
    { apply (P 4%nat _ eq_refl). unfold in_row; cbn [fst snd].
      now rewrite G5, L4. }
    destruct (gt f (lit 1 10)) eqn:G6.
    { apply (P 5%nat _ eq_refl). unfold in_row; cbn [fst snd].
      now rewrite G6, L5. }
    apply (P 6%nat _ eq_refl). unfold in_row; cbn [fst snd].
    now rewrite L6.
  - intros row Hrow Hin.
    assert (D : (if gt f (lit 1 1) then 2
                 else if gt f (lit 1 2) then 4
                 else if gt f (lit 1 4) then 6
                 else if gt f (lit 1 6) then 8
                 else if gt f (lit 1 8) then 10
                 else if gt f (lit 1 10) then 12
                 else 15)%nat = row_decimals row
                /\ row_decimals row <> O).
    { unfold precision_table in Hrow. cbn [In] in Hrow.
      revert Hin. unfold in_row.
      destruct Hrow as [<-|[<-|[<-|[<-|[<-|[<-|[<-|[]]]]]]]];
        cbn [fst snd row_decimals];
        rewrite ?L1, ?L2, ?L3, ?L4, ?L5, ?L6;
        clear L1 L2 L3 L4 L5 L6;
        set (g1 := gt f (lit 1 1)) in *;
        set (g2 := gt f (lit 1 2)) in *;
        set (g3 := gt f (lit 1 4)) in *;
        set (g4 := gt f (lit 1 6)) in *;
        set (g5 := gt f (lit 1 8)) in *;
        set (g6 := gt f (lit 1 10)) in *;
        clearbody g1 g2 g3 g4 g5 g6;
        intros Hin; (split; [|discriminate]); revert Hin;
        destruct g1, g2, g3, g4, g5, g6; cbn [andb negb];
        intros Hin; try reflexivity; try discriminate Hin;
        try (discriminate (C1 eq_refl)); try (discriminate (C2 eq_refl));
        try (discriminate (C3 eq_refl)); try (discriminate (C4 eq_refl));
        try (discriminate (C5 eq_refl)). }
    destruct D as [D Hd].
    rewrite price_format_cases, D.
    split; [reflexivity|].
    intros Hfin. now apply decimal_places_format_f.
Qed.

(** The first part of the statement at the value 0.05, which the second
    row holds. *)
Lemma price_format_follows_table_witness :
  is_nan (lit 5 2) = false
  /\ (exists row, In row precision_table /\ in_row (lit 5 2) row = true)
  /\ price_format (VNum (lit 5 2)) = Ok "0.0500".
Proof.
  split; [reflexivity|].
  destruct (proj1 price_format_follows_table (lit 5 2) eq_refl)
    as [Hex Hrows].
  split; [exact Hex|].
  destruct (Hrows (Some (lit 1 2), Some (lit 1 1), 4%nat)) as [E _].
  - right; left; reflexivity.
  - vm_compute; reflexivity.
  - rewrite E. vm_compute. reflexivity.
Defined.

(** C9.  On NaN every comparison of [price_format] is false, nothing
    is raised, the last branch (15 decimals) writes the value, and the
    text is "nan": not the "-" of a missing date, and not a zero. *)
Theorem price_format_nan :
  (forall bound, py_gt NaN bound = Ok false)
  /\ price_format NaN = str_format 15 "" NaN
  /\ price_format NaN = Ok "nan"
  /\ display (lookup "current_price" formatters) NaN = Ok "nan"
  /\ date_format NaN = Ok "-"
  /\ price_format NaN <> Ok "-"
  /\ price_format NaN <> price_format (VNum (S754_zero false)).
Proof.
  split; [intros bound; unfold py_gt, NaN, gt, SFltb; destruct bound; reflexivity|].
  repeat split; try reflexivity; vm_compute; discriminate.
Qed.

End PriceFormat.

(** *** The fetch loop *)

Section FetchLoop.
Context `{Outside}.

Variable url : string.
Variable params : list (string * param).

Local Abbreviation r := (get_request url params).

Lemma after_failures_0 (w : world) : after_failures r 0 w = w.
Proof.
  destruct w as [t s u c]. unfold after_failures. cbn.
  now rewrite Z.add_0_r, !app_nil_r.
Qed.

Lemma after_failures_S (k : nat) (w : world) :
  after_failures r k (after_failures r 1 w) = after_failures r (S k) w.
Proof.
  destruct w as [t s u c]. unfold after_failures.
  cbn [now sent shown cache repeat seq map].
  f_equal.
  - lia.
  - now rewrite <- app_assoc.
  - rewrite <- app_assoc. f_equal. cbn [app]. f_equal.
    rewrite <- seq_shift, map_map. apply map_ext. intros i.
    rewrite length_app. cbn [List.length].
    do 3 f_equal. lia.
Qed.

(** One turn of the loop on a failed attempt. *)
Lemma fetch_turn (fuel : nat) (w : world) :
  failed (upstream (List.length (sent w)) r) = true ->
  fetch_data_continuously (S fuel) url params w
  = fetch_data_continuously fuel url params (after_failures r 1 w).
Proof.
  intros Hf. cbn [fetch_data_continuously].
  unfold bind at 1. unfold requests_get. fold (get_request url params).
  assert (W : after_failures r 1 w
              = {| now := now w + 10;
                   sent := (sent w ++ [r])%list;
                   shown := (shown w
                             ++ [Warning (warning_text
                                   (upstream (List.length (sent w)) r))])%list;
                   cache := cache w |}).
  { unfold after_failures. cbn [repeat seq map]. now rewrite Nat.add_0_r. }
  rewrite W.
  destruct (upstream (List.length (sent w)) r) as [status_code json|].
  - cbn [failed] in Hf. apply negb_true_iff in Hf. rewrite Hf.
    reflexivity.
  - reflexivity.
Qed.

Lemma fetch_turns (k : nat) :
  forall (fuel : nat) (w : world),
    (forall i, (i < k)%nat ->
               failed (upstream (List.length (sent w) + i) r) = true) ->
    fetch_data_continuously (k + fuel) url params w
    = fetch_data_continuously fuel url params (after_failures r k w).
Proof.
  induction k as [|k IH]; intros fuel w Hk.
  - now rewrite after_failures_0.
  - cbn [Nat.add]. rewrite fetch_turn.
    + rewrite IH.
      * now rewrite after_failures_S.
      * intros i Hi. cbn [after_failures sent repeat].
        rewrite length_app. cbn [List.length].
        replace (List.length (sent w) + 1 + i)%nat
          with (List.length (sent w) + S i)%nat by lia.
        apply Hk. lia.
    + specialize (Hk 0%nat). rewrite Nat.add_0_r in Hk. apply Hk. lia.
Qed.

Lemma fetch_never_raises (fuel : nat) :
  forall (w : world) (e : exn) (w' : world),
    fetch_data_continuously fuel url params w <> Raised e w'.
Proof.
  induction fuel as [|fuel IH]; intros w e w'.
  - discriminate.
  - destruct (failed (upstream (List.length (sent w)) r)) eqn:Hf.
    + rewrite fetch_turn by exact Hf. apply IH.
    + cbn [fetch_data_continuously]. unfold bind at 1, requests_get.
      fold (get_request url params).
      destruct (upstream (List.length (sent w)) r) as [status_code json|];
        [|discriminate].
      cbn [failed] in Hf. apply negb_false_iff in Hf. rewrite Hf.
      discriminate.
Qed.

(** C3.  Whatever the upstream answers: if the first [k] attempts fail
    (a status other than 200, or a connection failure) and the next
    one has status 200, the loop returns the body of that answer, having
    sent [k + 1] requests, shown one warning and slept ten seconds per
    failure, for every [k]: there is no bound on the retries.  If no
    attempt ever has status 200 the loop is still turning after any
    number of turns, and in no case does it raise. *)
Theorem fetch_retries_until_200 (w : world) :
  (forall (k : nat) (json : body),
      (forall i, (i < k)%nat ->
                 failed (upstream (List.length (sent w) + i) r) = true) ->
      upstream (List.length (sent w) + k) r = Response 200 json ->
      forall fuel, (k < fuel)%nat ->
        fetch_data_continuously fuel url params w
        = Done json (with_sent r (after_failures r k w)))
  /\ ((forall i, failed (upstream (List.length (sent w) + i) r) = true) ->
      forall fuel,
        fetch_data_continuously fuel url params w
        = Looping (after_failures r fuel w))
  /\ (forall fuel e w',
        fetch_data_continuously fuel url params w <> Raised e w').
Proof.
  split; [|split].
  - intros k json Hfail Hok fuel Hfuel.
    replace fuel with (k + S (fuel - k - 1))%nat by lia.
    rewrite fetch_turns by exact Hfail.
    cbn [fetch_data_continuously]. unfold bind at 1, requests_get.
    fold (get_request url params).
    assert (L : List.length (sent (after_failures r k w))
                = (List.length (sent w) + k)%nat).
    { cbn [after_failures sent]. now rewrite length_app, repeat_length. }
    rewrite L, Hok. reflexivity.
  - intros Hfail fuel.
    replace fuel with (fuel + 0)%nat at 1 by lia.
    rewrite fetch_turns by (intros i _; apply Hfail).
    reflexivity.
  - intros fuel. apply fetch_never_raises.
Qed.

End FetchLoop.

(** *** Facts about frames *)

Section FrameFacts.

Lemma lookup_map_key {A} (F : string -> A) (k : string) (names : list string) :
  lookup k (map (fun c => (c, F c)) names)
  = if mem_string k names then Some (F k) else None.
Proof.
  induction names as [|n names IH]; [reflexivity|].
  cbn [map lookup mem_string existsb].
  destruct (String.eqb k n) eqn:E.
  - apply String.eqb_eq in E. now subst.
  - exact IH.
Qed.

Lemma mem_string_In (k : string) (l : list string) :
  mem_string k l = true <-> In k l.
Proof.
  unfold mem_string. rewrite existsb_exists. split.
  - intros [x [Hx E]]. apply String.eqb_eq in E. now subst.
  - intros Hk. exists k. split; [exact Hk | apply String.eqb_refl].
Qed.

Lemma column_names_DataFrame (data : list record) :
  column_names (DataFrame data) = all_keys data.
Proof.
  unfold column_names, DataFrame. cbn [columns].
  rewrite map_map. cbn [fst]. apply map_id.
Qed.

Lemma names_set_column (k : string) (cells : list value)
      (cols : list (string * list value)) :
  map fst (set_column k cells cols) = map fst cols.
Proof.
  induction cols as [|[k' old] cols IH]; [reflexivity|].
  cbn [set_column]. destruct (String.eqb k k'); cbn [map fst]; [reflexivity|].
  now rewrite IH.
Qed.

Lemma lookup_set_column_same (k : string) (cells : list value)
      (cols : list (string * list value)) :
  lookup k cols <> None ->
  lookup k (set_column k cells cols) = Some cells.
Proof.
  induction cols as [|[k' old] cols IH]; [intros Hn; now contradiction Hn|].
  cbn [set_column lookup]. destruct (String.eqb k k') eqn:E.
  - intros _. cbn [lookup]. now rewrite E.
  - intros Hn. cbn [lookup]. rewrite E. now apply IH.
Qed.

Lemma lookup_set_column_other (k k0 : string) (cells : list value)
      (cols : list (string * list value)) :
  k <> k0 ->
  lookup k (set_column k0 cells cols) = lookup k cols.
Proof.
  intros Hk. induction cols as [|[k' old] cols IH]; [reflexivity|].
  cbn [set_column lookup]. destruct (String.eqb k0 k') eqn:E.
  - apply String.eqb_eq in E. subst k'. cbn [lookup].
    apply String.eqb_neq in Hk. now rewrite Hk.
  - cbn [lookup]. now rewrite IH.
Qed.

Lemma names_rename (old new : string) (df : frame) :
  column_names (rename old new df)
  = map (renamed old new) (column_names df).
Proof.
  unfold column_names, rename. cbn [columns]. rewrite !map_map.
  apply map_ext. now intros [k cells].
Qed.

Lemma lookup_rename_other (old new k : string) (df : frame) :
  k <> old -> k <> new ->
  lookup k (columns (rename old new df)) = lookup k (columns df).
Proof.
  intros Ho Hn. unfold rename. cbn [columns].
  induction (columns df) as [|[k' cells] cols IH]; [reflexivity|].
  cbn [map lookup]. destruct (String.eqb k' old) eqn:E.
  - apply String.eqb_eq in E. subst k'.
    apply String.eqb_neq in Ho, Hn. now rewrite Ho, Hn.
  - now rewrite IH.
Qed.

Lemma lookup_rename_new (old new : string) (df : frame) :
  ~ In new (column_names df) ->
  lookup new (columns (rename old new df)) = lookup old (columns df).
Proof.
  unfold rename, column_names. cbn [columns].
  induction (columns df) as [|[k' cells] cols IH]; [reflexivity|].
  cbn [map lookup fst In]. intros Hn.
  assert (Hk : new <> k') by (intros ->; apply Hn; now left).
  assert (Hr : ~ In new (map fst cols)) by (intros Hi; apply Hn; now right).
  rewrite (String.eqb_sym old k').
  destruct (String.eqb k' old) eqn:E.
  - now rewrite String.eqb_refl.
  - apply String.eqb_neq in Hk. rewrite Hk. now apply IH.
Qed.

Lemma float_dtype_infer (cells : list value) :
  float_dtype (infer_objects cells) = float_dtype cells.
Proof.
  unfold infer_objects. destruct (float_dtype cells) eqn:E; [|exact E].
  unfold float_dtype in *. apply andb_true_iff in E. destruct E as [Ha He].
  rewrite forallb_forall in Ha.
  assert (Hx : exists x, In x cells).
  { apply orb_true_iff in He. destruct He as [He | He].
    - apply existsb_exists in He. destruct He as [x [Hx _]]. now exists x.
    - apply andb_true_iff in He. destruct He as [He _].
      apply existsb_exists in He. destruct He as [x [Hx _]]. now exists x. }
  apply andb_true_iff. split.
  - apply forallb_forall. intros v Hv.
    apply in_map_iff in Hv. destruct Hv as [x [<- Hi]].
    specialize (Ha x Hi). now destruct x.
  - apply orb_true_iff. left. apply existsb_exists.
    destruct Hx as [x Hi]. eexists. split.
    + apply in_map_iff. exists x. split; [reflexivity | exact Hi].
    + specialize (Ha x Hi). now destruct x.
Qed.

Lemma int_dtype_infer (cells : list value) :
  int_dtype (infer_objects cells) = int_dtype cells.
Proof.
  unfold infer_objects. destruct (float_dtype cells) eqn:E; [|reflexivity].
  unfold float_dtype, int_dtype in *.
  apply andb_true_iff in E. destruct E as [_ He].
  destruct (forallb is_int cells) eqn:Hall.
  - exfalso. rewrite forallb_forall in Hall.
    apply orb_true_iff in He. destruct He as [He | He].
    + apply existsb_exists in He. destruct He as [x [Hx Hf]].
      specialize (Hall x Hx). now destruct x.
    + apply andb_true_iff in He. destruct He as [_ He].
      apply existsb_exists in He. destruct He as [x [Hx Hf]].
      specialize (Hall x Hx). now destruct x.
  - cbn [andb]. apply andb_false_iff. right.
    apply not_true_iff_false. intros Hex.
    apply existsb_exists in Hex. destruct Hex as [v [Hv Hi]].
    apply in_map_iff in Hv. destruct Hv as [x [<- _]].
    now destruct x.
Qed.

(** What [normalize] returns when it returns: the frame of the records
    with the symbol column upper-cased and the volume column renamed. *)
Lemma normalize_Ok (data : list record) (df : frame) :
  normalize data = Ok df ->
  In "symbol" (all_keys data)
  /\ df = rename "total_volume" "Total Volume in USD"
                 (setitem (DataFrame data) "symbol" (map symbol_cell data)).
Proof.
  unfold normalize, getitem.
  cbn [DataFrame columns]. rewrite lookup_map_key.
  destruct (mem_string "symbol" (all_keys data)) eqn:Hs;
    cbn [result_bind]; [|discriminate].
  unfold str_upper. rewrite float_dtype_infer, int_dtype_infer.
  destruct (float_dtype _) eqn:Hf; cbn [orb result_bind]; [discriminate|].
  destruct (int_dtype _) eqn:Hi; cbn [result_bind]; [discriminate|].
  unfold infer_objects. rewrite Hf. rewrite map_map.
  intros E. injection E as <-. split.
  - now apply mem_string_In.
  - do 2 f_equal. apply map_ext. intros r. unfold symbol_cell.
    destruct (lookup "symbol" r) as [[]|]; reflexivity.
Qed.

Lemma normalize_index_len (data : list record) (df : frame) :
  normalize data = Ok df -> index_len df = List.length data.
Proof. intros Hn. apply normalize_Ok in Hn. destruct Hn as [_ ->]. reflexivity. Qed.

Lemma symbol_cell_upper (r : record) :
  symbol_cell r = NaN
  \/ exists s, symbol_cell r = VStr s /\ has_lower s = false.
Proof.
  unfold symbol_cell. destruct (lookup "symbol" r) as [[]|]; auto.
  right. eexists. split; [reflexivity | apply has_lower_upper].
Qed.

End FrameFacts.

(** *** The aggregator *)

Section AggregatorFacts.

Variable fetcher : string -> list (string * param) -> Run body.

Lemma extend_items (all_data : list record) (coins : body) :
  (if truthy coins then extend all_data coins else all_data)
  = (all_data ++ items coins)%list.
Proof.
  destruct coins as [[|r l]|]; cbn [truthy extend items];
    now rewrite ?app_nil_r.
Qed.

(** One turn of the page loop. *)
Lemma for_pages_cons (page : Z) (rest : list Z) (all_data : list record)
      (w w1 : world) (coins : body) :
  fetcher markets_url (page_params page) w = Done coins w1 ->
  for_pages fetcher (page :: rest) all_data w
  = for_pages fetcher rest (all_data ++ items coins)%list w1.
Proof.
  intros Hf. cbn [for_pages]. unfold bind. rewrite Hf.
  now rewrite extend_items.
Qed.

Lemma get_top_500_Done (w : world) (df : frame) (w' : world) :
  get_top_500_pairs_by_volume_with fetcher w = Done df w' ->
  exists all_data,
    for_pages fetcher (range 1 6) [] w = Done all_data w'
    /\ normalize all_data = Ok df.
Proof.
  unfold get_top_500_pairs_by_volume_with, bind, lift.
  destruct (for_pages fetcher (range 1 6) [] w) as [all_data w1|e w1|w1];
    try discriminate.
  destruct (normalize all_data) as [df1|e] eqn:N; try discriminate.
  intros E. injection E as -> ->. now exists all_data.
Qed.

(** C2.  The aggregator calls the fetcher for page 1, then 2, 3, 4 and
    5, each call starting in the world the previous one left, each with
    [per_page] 100 and [order] [volume_desc]; what it collects is the
    records of page 1 followed by those of page 2 and so on, a page with
    a null or empty body adding nothing and stopping nothing.  The frame
    has one row per collected record: 500 for five pages of 100, and 400
    when one page of the five is empty. *)
Theorem aggregator_concatenates_pages
        (w0 w1 w2 w3 w4 w5 : world) (c1 c2 c3 c4 c5 : body) :
  fetcher markets_url (page_params 1) w0 = Done c1 w1 ->
  fetcher markets_url (page_params 2) w1 = Done c2 w2 ->
  fetcher markets_url (page_params 3) w2 = Done c3 w3 ->
  fetcher markets_url (page_params 4) w3 = Done c4 w4 ->
  fetcher markets_url (page_params 5) w4 = Done c5 w5 ->
  let all_data :=
    (items c1 ++ items c2 ++ items c3 ++ items c4 ++ items c5)%list in
  for_pages fetcher (range 1 6) [] w0 = Done all_data w5
  /\ get_top_500_pairs_by_volume_with fetcher w0
     = lift (normalize all_data) w5
  /\ (forall df w',
         get_top_500_pairs_by_volume_with fetcher w0 = Done df w' ->
         w' = w5 /\ index_len df = List.length all_data)
  /\ (forall page,
         lookup "per_page" (page_params page) = Some (PInt 100)
         /\ lookup "order" (page_params page) = Some (PStr "volume_desc")
         /\ lookup "page" (page_params page) = Some (PInt page))
  /\ (forall c, (c = None \/ c = Some []) -> items c = [])
  /\ (List.length (items c1) = 100%nat -> List.length (items c2) = 100%nat ->
      List.length (items c3) = 100%nat -> List.length (items c4) = 100%nat ->
      List.length (items c5) = 100%nat ->
      List.length all_data = 500%nat)
  /\ (List.length (items c1) = 100%nat -> List.length (items c2) = 100%nat ->
      (c3 = None \/ c3 = Some []) -> List.length (items c4) = 100%nat ->
      List.length (items c5) = 100%nat ->
      List.length all_data = 400%nat).
Proof.
  intros H1 H2 H3 H4 H5 all_data.
  assert (L : for_pages fetcher (range 1 6) [] w0 = Done all_data w5).
  { change (range 1 6) with [1; 2; 3; 4; 5].
    rewrite (for_pages_cons _ _ _ _ _ _ H1), (for_pages_cons _ _ _ _ _ _ H2),
      (for_pages_cons _ _ _ _ _ _ H3), (for_pages_cons _ _ _ _ _ _ H4),
      (for_pages_cons _ _ _ _ _ _ H5).
    cbn [for_pages ret app]. subst all_data.
    now rewrite <- !app_assoc. }
  assert (G : get_top_500_pairs_by_volume_with fetcher w0
              = lift (normalize all_data) w5).
  { unfold get_top_500_pairs_by_volume_with, bind. now rewrite L. }
  assert (E : forall c, (c = None \/ c = Some []) -> items c = [])
    by (intros c [-> | ->]; reflexivity).
  repeat split; try assumption; try reflexivity.
  - rewrite G in H. unfold lift in H.
    destruct (normalize all_data); [now injection H | discriminate].
  - rewrite G in H. unfold lift in H.
    destruct (normalize all_data) as [df1|e] eqn:N; [|discriminate].
    injection H as -> ->. now apply normalize_index_len.
  - intros. subst all_data. rewrite !length_app. lia.
  - intros L1 L2 E3 L4 L5. subst all_data.
    rewrite (E _ E3), !length_app. cbn [List.length]. lia.
Qed.

(** C6.  Every frame the aggregator returns has, under [symbol], the
    upper-cased symbol of each record in order (so no cell holds a
    lower-case letter); no column is called [total_volume] any more, and
    when the records have that key its cells stand under the label
    [Total Volume in USD], which is also the label the column selector
    offers and the formatter dictionary knows.  The symbol "btc" becomes
    "BTC". *)
Theorem normalized_symbol_and_volume (w : world) (df : frame) (w' : world) :
  get_top_500_pairs_by_volume_with fetcher w = Done df w' ->
  exists all_data,
    for_pages fetcher (range 1 6) [] w = Done all_data w'
    /\ getitem df "symbol" = Ok (map symbol_cell all_data)
    /\ (forall v, In v (map symbol_cell all_data) ->
                  v = NaN \/ exists s, v = VStr s /\ has_lower s = false)
    /\ (forall r s, lookup "symbol" r = Some (VStr s) ->
                    symbol_cell r = VStr (upper s))
    /\ ~ In "total_volume" (column_names df)
    /\ (In "total_volume" (all_keys all_data) ->
        In "Total Volume in USD" (column_names df)
        /\ In "Total Volume in USD" (columns_to_display df)
        /\ (~ In "Total Volume in USD" (all_keys all_data) ->
            getitem df "Total Volume in USD"
            = getitem (DataFrame all_data) "total_volume"))
    /\ lookup "Total Volume in USD" formatters = Some (Template 2 "")
    /\ upper "btc" = "BTC".
Proof.
  intros Hg. apply get_top_500_Done in Hg.
  destruct Hg as [all_data [Hp Hn]]. exists all_data.
  apply normalize_Ok in Hn. destruct Hn as [Hsym ->].
  set (df0 := setitem (DataFrame all_data) "symbol"
                      (map symbol_cell all_data)).
  assert (N0 : column_names df0 = all_keys all_data).
  { unfold df0, column_names, setitem. cbn [columns].
    rewrite names_set_column. apply column_names_DataFrame. }
  assert (NR : column_names (rename "total_volume" "Total Volume in USD" df0)
               = map (renamed "total_volume" "Total Volume in USD")
                     (all_keys all_data))
    by now rewrite names_rename, N0.
  split; [exact Hp|]. split; [|split; [|split; [|split; [|split]]]].
  - unfold getitem. rewrite lookup_rename_other by discriminate.
    unfold df0, setitem. cbn [columns].
    rewrite lookup_set_column_same; [reflexivity|].
    cbn [DataFrame columns]. rewrite lookup_map_key.
    apply mem_string_In in Hsym. now rewrite Hsym.
  - intros v Hv. apply in_map_iff in Hv. destruct Hv as [r [<- _]].
    apply symbol_cell_upper.
  - intros r s Hr. unfold symbol_cell. now rewrite Hr.
  - rewrite NR. intros Hi. apply in_map_iff in Hi.
    destruct Hi as [k [Hk _]]. unfold renamed in Hk.
    destruct (String.eqb k "total_volume") eqn:E; [discriminate|].
    subst k. discriminate.
  - intros Hv.
    assert (Hin : In "Total Volume in USD"
                     (column_names (rename "total_volume"
                                           "Total Volume in USD" df0))).
    { rewrite NR. apply in_map_iff. exists "total_volume".
      split; [reflexivity | exact Hv]. }
    split; [exact Hin|]. split.
    + unfold columns_to_display. apply filter_In. split.
      * unfold columns_to_display_all. cbn [In]. tauto.
      * now apply mem_string_In.
    + intros Hnew. unfold getitem.
      rewrite lookup_rename_new by now rewrite N0.
      unfold df0, setitem. cbn [columns].
      rewrite lookup_set_column_other by discriminate.
      cbn [DataFrame columns]. rewrite lookup_map_key.
      apply mem_string_In in Hv. now rewrite Hv.
  - split; reflexivity.
Qed.

End AggregatorFacts.

(** *** Dates *)

Section Dates.
Context `{Outside}.

Lemma date_format_coerced (cells : list value) (v : value) :
  date_format (coerced cells v)
  = Ok (match parse_datetime cells v with
        | Some t => strftime_ymd t
        | None => "-"
        end).
Proof. unfold coerced. now destruct (parse_datetime cells v). Qed.

(** C5.  On a frame that has both date columns the conversion of lines
    79-80 does not raise; each cell of the two columns becomes the
    timestamp the parser reads from it, or the missing marker [NaT]
    where the parser reads none; the date formatter writes the marker as
    "-", a timestamp as year-month-day, and raises on no converted
    cell. *)
Theorem dates_coerced_not_raised (df : frame) (ath atl : list value) :
  getitem df "ath_date" = Ok ath ->
  getitem df "atl_date" = Ok atl ->
  exists df',
    convert_dates df = Ok df'
    /\ getitem df' "ath_date" = Ok (map (coerced ath) ath)
    /\ getitem df' "atl_date" = Ok (map (coerced atl) atl)
    /\ (forall cells v, parse_datetime cells v = None ->
                        coerced cells v = VNaT)
    /\ (forall cells v t, parse_datetime cells v = Some t ->
                          coerced cells v = VTime t)
    /\ date_format VNaT = Ok "-"
    /\ display (lookup "ath_date" formatters) VNaT = Ok "-"
    /\ display (lookup "atl_date" formatters) VNaT = Ok "-"
    /\ (forall cells v,
           date_format (coerced cells v)
           = Ok (match parse_datetime cells v with
                 | Some t => strftime_ymd t
                 | None => "-"
                 end)).
Proof.
  unfold getitem. intros Hath Hatl.
  destruct (lookup "ath_date" (columns df)) as [ath'|] eqn:E1;
    [|discriminate].
  destruct (lookup "atl_date" (columns df)) as [atl'|] eqn:E2;
    [|discriminate].
  injection Hath as ->. injection Hatl as ->.
  eexists. split; [|split; [|split]].
  - unfold convert_dates, getitem. rewrite E1. cbn [result_bind].
    unfold setitem at 1. cbn [columns].
    rewrite lookup_set_column_other by discriminate.
    rewrite E2. cbn [result_bind]. reflexivity.
  - unfold setitem. cbn [columns].
    rewrite lookup_set_column_other by discriminate.
    rewrite lookup_set_column_same by (rewrite E1; discriminate).
    reflexivity.
  - unfold setitem. cbn [columns].
    rewrite lookup_set_column_same; [reflexivity|].
    rewrite lookup_set_column_other by discriminate.
    rewrite E2. discriminate.
  - repeat split; try reflexivity.
    + intros cells v Hp. unfold coerced. now rewrite Hp.
    + intros cells v t Hp. unfold coerced. now rewrite Hp.
    + apply date_format_coerced.
Qed.

End Dates.

(** *** The cache *)

Section Cache.
Context `{Outside}.

Lemma cache_data_miss (ttl : Z) (f : Run frame) (w : world) :
  cache w = None ->
  cache_data ttl f w
  = match f w with
    | Done df w' => Done df (with_cache (df, now w') w')
    | other => other
    end.
Proof. unfold cache_data. now intros ->. Qed.

Lemma cache_data_stale (ttl : Z) (f : Run frame) (w : world)
      (df : frame) (stored_at : Z) :
  cache w = Some (df, stored_at) -> ttl < now w - stored_at ->
  cache_data ttl f w
  = match f w with
    | Done df w' => Done df (with_cache (df, now w') w')
    | other => other
    end.
Proof.
  unfold cache_data. intros -> Hage.
  apply Z.ltb_lt in Hage. now rewrite Hage.
Qed.

Lemma cache_data_fresh (ttl : Z) (f : Run frame) (w : world)
      (df : frame) (stored_at : Z) :
  cache w = Some (df, stored_at) -> now w - stored_at <= ttl ->
  cache_data ttl f w = Done df w.
Proof.
  unfold cache_data. intros -> Hage.
  assert (E : (ttl <? now w - stored_at) = false) by (apply Z.ltb_ge; lia).
  now rewrite E.
Qed.

(** A call of the fetch loop that returns has sent a request. *)
Lemma fetch_sends (fuel : nat) (url : string)
      (params : list (string * param)) :
  forall (w : world) (json : body) (w' : world),
    fetch_data_continuously fuel url params w = Done json w' ->
    (List.length (sent w) < List.length (sent w'))%nat.
Proof.
  induction fuel as [|fuel IH]; intros w json w'; [discriminate|].
  set (r := {| req_url := url; req_params := params; req_timeout := 10 |}).
  destruct (failed (upstream (List.length (sent w)) r)) eqn:Hf.
  - rewrite fetch_turn by exact Hf. intros Hd. apply IH in Hd.
    cbn [after_failures sent repeat] in Hd.
    rewrite length_app in Hd. cbn [List.length] in Hd. lia.
  - cbn [fetch_data_continuously]. unfold bind at 1, requests_get.
    fold r.
    destruct (upstream (List.length (sent w)) r) as [status_code js|];
      [|discriminate].
    cbn [failed] in Hf. apply negb_false_iff in Hf. rewrite Hf.
    unfold ret. intros E. injection E as _ <-. cbn [sent].
    rewrite length_app. cbn [List.length]. lia.
Qed.

Lemma for_pages_sends (fuel : nat) (pages : list Z) :
  forall (all_data : list record) (w : world) (data : list record)
         (w' : world),
    for_pages (fetch_data_continuously fuel) pages all_data w
    = Done data w' ->
    (List.length (sent w) + List.length pages <= List.length (sent w'))%nat.
Proof.
  induction pages as [|page rest IH]; intros all_data w data w'.
  - cbn [for_pages]. unfold ret. intros E. injection E as _ <-.
    cbn [List.length]. lia.
  - cbn [for_pages]. unfold bind at 1.
    destruct (fetch_data_continuously fuel markets_url (page_params page) w)
      as [coins w1|e w1|w1] eqn:Hf; try discriminate.
    intros Hr. apply IH in Hr. apply fetch_sends in Hf.
    cbn [List.length]. lia.
Qed.

(** A cycle of the aggregator sends at least five requests. *)
Lemma cycle_sends (fuel : nat) (w : world) (df : frame) (w' : world) :
  get_top_500_pairs_by_volume fuel w = Done df w' ->
  (List.length (sent w) + 5 <= List.length (sent w'))%nat.
Proof.
  intros Hg. apply get_top_500_Done in Hg.
  destruct Hg as [data [Hp _]]. apply for_pages_sends in Hp.
  exact Hp.
Qed.

(** C7.  Starting without a stored entry, a call of the cached
    accessor that returns has run one cycle of the aggregator and stored
    its result with the time at that moment.  A second call at most
    86400 seconds later returns the stored dataset and leaves the world
    as it is (no request is sent); a call more than 86400 seconds later
    runs the aggregator again, which sends at least five more requests,
    and stores the new result with the new time. *)
Theorem cached_accessor_one_cycle_per_day
        (fuel : nat) (w : world) (df : frame) (w1 : world) :
  cache w = None ->
  fetch_and_display_data fuel w = Done df w1 ->
  (exists w1',
      get_top_500_pairs_by_volume fuel w = Done df w1'
      /\ w1 = with_cache (df, now w1') w1'
      /\ (List.length (sent w) + 5 <= List.length (sent w1))%nat)
  /\ (forall d, 0 <= d <= 86400 ->
        fetch_and_display_data fuel (elapse d w1) = Done df (elapse d w1))
  /\ (forall d, 86400 < d ->
        fetch_and_display_data fuel (elapse d w1)
        = match get_top_500_pairs_by_volume fuel (elapse d w1) with
          | Done df2 w2 => Done df2 (with_cache (df2, now w2) w2)
          | other => other
          end)
  /\ (forall d df2 w2, 86400 < d ->
        fetch_and_display_data fuel (elapse d w1) = Done df2 w2 ->
        (List.length (sent w1) + 5 <= List.length (sent w2))%nat
        /\ cache w2 = Some (df2, now w2)).
Proof.
  intros Hc Hd. unfold fetch_and_display_data in *.
  rewrite cache_data_miss in Hd by exact Hc.
  destruct (get_top_500_pairs_by_volume fuel w) as [df1 w1'|e w1'|w1'] eqn:G;
    try discriminate.
  injection Hd as -> <-.
  assert (C1 : cache (with_cache (df, now w1') w1') = Some (df, now w1'))
    by reflexivity.
  split; [|split; [|split]].
  - exists w1'. repeat split. apply cycle_sends in G. exact G.
  - intros d Hd. apply cache_data_fresh with (stored_at := now w1').
    + reflexivity.
    + cbn [elapse now with_cache]. lia.
  - intros d Hd. apply cache_data_stale with (df := df) (stored_at := now w1').
    + reflexivity.
    + cbn [elapse now with_cache]. lia.
  - intros d df2 w2 Hd.
    rewrite (cache_data_stale 86400 _ _ df (now w1'));
      [|reflexivity | cbn [elapse now with_cache]; lia].
    destruct (get_top_500_pairs_by_volume fuel
                (elapse d (with_cache (df, now w1') w1')))
      as [df3 w3|e w3|w3] eqn:G2; try discriminate.
    intros E. injection E as -> <-. split; [|reflexivity].
    apply cycle_sends in G2. exact G2.
Qed.

End Cache.

(** *** Running the script *)

Section ScriptFacts.
Context `{Outside}.

Lemma bind_Done {A B} (c : Run A) (k : A -> Run B) (w w1 : world) (a : A) :
  c w = Done a w1 -> bind c k w = k a w1.
Proof. unfold bind. now intros ->. Qed.

Lemma bind_Raised {A B} (c : Run A) (k : A -> Run B) (w w1 : world)
      (e : exn) :
  c w = Raised e w1 -> bind c k w = Raised e w1.
Proof. unfold bind. now intros ->. Qed.

Lemma show_eq (e : ui_event) (w : world) :
  show e w = Done tt (with_shown [e] w).
Proof. reflexivity. Qed.

Lemma with_shown_twice (a b : list ui_event) (w : world) :
  with_shown b (with_shown a w) = with_shown (a ++ b) w.
Proof. unfold with_shown. cbn. now rewrite app_assoc. Qed.

(** What lines 100-137 do, case by case. *)
Lemma present_eq (df : frame) (selected_columns : list string) (w : world) :
  present df selected_columns w
  = if empty df
    then Done tt (with_shown [Error "No data available to display."] w)
    else
      match (match selected_columns with
             | [] => Ok df
             | _ :: _ => getitems df selected_columns
             end) with
      | Err e => Raised e w
      | Ok pairs_df =>
          match render (style_format pairs_df formatters) with
          | Err e => Raised e w
          | Ok t =>
              Done tt
                (with_shown
                   [Dataframe t;
                    DownloadButton "Download data as CSV" (to_csv pairs_df)
                                   "crypto_data.csv" "text/csv"] w)
          end
      end.
Proof.
  unfold present. destruct (empty df); cbn [negb]; [reflexivity|].
  assert (G : forall pairs_df,
             bind (st_dataframe (style_format pairs_df formatters))
                  (fun _ => st_download_button
                              "Download data as CSV" (to_csv pairs_df)
                              "crypto_data.csv" "text/csv") w
             = match render (style_format pairs_df formatters) with
               | Err e => Raised e w
               | Ok t =>
                   Done tt
                     (with_shown
                        [Dataframe t;
                         DownloadButton "Download data as CSV"
                                        (to_csv pairs_df)
                                        "crypto_data.csv" "text/csv"] w)
               end).
  { intros pairs_df. unfold st_dataframe, st_download_button, bind, lift.
    destruct (render (style_format pairs_df formatters)); [|reflexivity].
    rewrite !show_eq. now rewrite with_shown_twice. }
  destruct selected_columns as [|c rest].
  - unfold bind at 1, ret. apply G.
  - unfold bind at 1, lift.
    destruct (getitems df (c :: rest)); [apply G | reflexivity].
Qed.

(** The frames [normalize] returns are never empty. *)
Lemma normalize_not_empty (data : list record) (df : frame) :
  normalize data = Ok df -> empty df = false.
Proof.
  intros Hn. apply normalize_Ok in Hn. destruct Hn as [Hs ->].
  unfold empty, rename, setitem. cbn [index_len columns].
  rewrite length_map.
  assert (L : List.length (set_column "symbol" (map symbol_cell data)
                                      (columns (DataFrame data)))
              = List.length (all_keys data)).
  { rewrite <- (length_map fst), names_set_column.
    change (map fst (columns (DataFrame data)))
      with (column_names (DataFrame data)).
    now rewrite column_names_DataFrame. }
  rewrite L.
  destruct data as [|r data]; [contradiction Hs|].
  destruct (all_keys (r :: data)); [contradiction Hs | reflexivity].
Qed.

Lemma convert_dates_not_empty (df df' : frame) :
  convert_dates df = Ok df' -> empty df' = empty df.
Proof.
  unfold convert_dates, getitem.
  destruct (lookup "ath_date" (columns df)); [|discriminate].
  cbn [result_bind].
  destruct (lookup "atl_date" _); [|discriminate].
  cbn [result_bind]. intros E. injection E as <-.
  unfold empty, setitem. cbn [index_len columns].
  rewrite <- !(length_map fst (set_column _ _ _)), !names_set_column.
  now rewrite length_map.
Qed.

Lemma fetch_nothing (fuel : nat) (page : Z) (w : world) :
  serves_nothing ->
  exists b,
    fetch_data_continuously (S fuel) markets_url (page_params page) w
    = Done b (with_sent (page_request page) w)
    /\ items b = [].
Proof.
  intros Hs.
  destruct (Hs (List.length (sent w)) (page_request page)) as [b [Hb Ht]].
  exists b. split.
  - cbn [fetch_data_continuously]. unfold bind at 1, requests_get.
    change {| req_url := markets_url; req_params := page_params page;
              req_timeout := 10 |} with (page_request page).
    rewrite Hb. reflexivity.
  - destruct b as [[|]|]; [reflexivity | discriminate | reflexivity].
Qed.

Lemma aggregator_nothing (fuel : nat) (w : world) :
  serves_nothing ->
  get_top_500_pairs_by_volume (S fuel) w
  = Raised (KeyError "symbol")
           {| now := now w;
              sent := (sent w ++ map page_request [1; 2; 3; 4; 5])%list;
              shown := shown w; cache := cache w |}.
Proof.
  intros Hs. unfold get_top_500_pairs_by_volume.
  destruct (fetch_nothing fuel 1 w Hs) as [b1 [F1 I1]].
  destruct (fetch_nothing fuel 2 (with_sent (page_request 1) w) Hs)
    as [b2 [F2 I2]].
  destruct (fetch_nothing fuel 3 (with_sent (page_request 2)
              (with_sent (page_request 1) w)) Hs) as [b3 [F3 I3]].
  destruct (fetch_nothing fuel 4 (with_sent (page_request 3)
              (with_sent (page_request 2) (with_sent (page_request 1) w))) Hs)
    as [b4 [F4 I4]].
  destruct (fetch_nothing fuel 5 (with_sent (page_request 4)
              (with_sent (page_request 3) (with_sent (page_request 2)
                 (with_sent (page_request 1) w)))) Hs) as [b5 [F5 I5]].
  unfold get_top_500_pairs_by_volume_with, bind.
  change (range 1 6) with [1; 2; 3; 4; 5].
  rewrite (for_pages_cons _ _ _ _ _ _ _ F1), (for_pages_cons _ _ _ _ _ _ _ F2),
    (for_pages_cons _ _ _ _ _ _ _ F3), (for_pages_cons _ _ _ _ _ _ _ F4),
    (for_pages_cons _ _ _ _ _ _ _ F5).
  rewrite I1, I2, I3, I4, I5. cbn [app for_pages ret lift].
  change (normalize []) with (@Err frame (KeyError "symbol")).
  cbn iota. f_equal. unfold with_sent. cbn [now sent shown cache map].
  f_equal. now rewrite <- !app_assoc.
Qed.

End ScriptFacts.

(** *** The text of a number *)

Section NumberText.
Import PyFloat.

#[local] Arguments digit_char : simpl never.

Lemma all_chars_append (p : ascii -> bool) (a b : string) :
  all_chars p (a ++ b) = all_chars p a && all_chars p b.
Proof.
  induction a as [|x a IH]; cbn [append all_chars]; [reflexivity|].
  now rewrite IH, andb_assoc.
Qed.

Lemma all_chars_of_list (p : ascii -> bool) (l : list ascii) :
  all_chars p (string_of_list_ascii l) = forallb p l.
Proof.
  induction l as [|x l IH]; cbn [string_of_list_ascii all_chars forallb];
    [reflexivity | now rewrite IH].
Qed.

Lemma all_chars_to_list (p : ascii -> bool) (s : string) :
  forallb p (list_ascii_of_string s) = all_chars p s.
Proof.
  induction s as [|x s IH]; cbn [list_ascii_of_string all_chars forallb];
    [reflexivity | now rewrite IH].
Qed.

Lemma forallb_rev_true {A} (p : A -> bool) (l : list A) :
  forallb p l = true -> forallb p (rev l) = true.
Proof.
  rewrite !forallb_forall. intros Hl x Hx. apply Hl. now apply in_rev.
Qed.

Lemma forallb_strip_zeros (p : ascii -> bool) (l : list ascii) :
  forallb p l = true -> forallb p (strip_zeros_rev l) = true.
Proof.
  induction l as [|x l IH]; [reflexivity|].
  intros Hl. cbn [strip_zeros_rev].
  destruct (Ascii.eqb x "0"); [|exact Hl].
  apply IH. cbn [forallb] in Hl. now apply andb_true_iff in Hl.
Qed.

Lemma all_chars_strip (p : ascii -> bool) (s : string) :
  all_chars p s = true -> all_chars p (strip_trailing_zeros s) = true.
Proof.
  intros Hs. unfold strip_trailing_zeros. rewrite all_chars_of_list.
  apply forallb_rev_true, forallb_strip_zeros, forallb_rev_true.
  now rewrite all_chars_to_list.
Qed.

Lemma all_chars_substring (p : ascii -> bool) (s : string) (n m : nat) :
  all_chars p s = true -> all_chars p (substring n m s) = true.
Proof.
  revert n m. induction s as [|x s IH]; intros n m Hs.
  - destruct n, m; reflexivity.
  - cbn [all_chars] in Hs. apply andb_true_iff in Hs. destruct Hs as [Hx Hs].
    destruct n as [|n].
    + destruct m as [|m]; [reflexivity|].
      cbn [substring all_chars]. now rewrite Hx, IH.
    + cbn [substring]. now apply IH.
Qed.

(** A character that fails [p] is not in a text all of whose characters
    meet [p]. *)
Lemma all_chars_mem (p : ascii -> bool) (s : string) (c : ascii) :
  all_chars p s = true -> p c = false -> mem_char c s = false.
Proof.
  intros Hs Hc. induction s as [|x s IH]; [reflexivity|].
  cbn [all_chars] in Hs. apply andb_true_iff in Hs. destruct Hs as [Hx Hs].
  cbn [mem_char]. rewrite (IH Hs), orb_false_r.
  destruct (Ascii.eqb c x) eqn:E; [|reflexivity].
  apply Ascii.eqb_eq in E. subst x. congruence.
Qed.

Lemma number_char_digit (n : Z) :
  0 <= n < 10 -> number_char (digit_char n) = true.
Proof.
  intros Hn. unfold digit_char.
  assert (E : exists k, (k < 10)%nat /\ Z.to_nat n = k)
    by (exists (Z.to_nat n); split; [lia | reflexivity]).
  destruct E as [k [Hk ->]].
  do 10 (destruct k as [|k]; [reflexivity|]). lia.
Qed.

Lemma number_chars_low_digits (d : nat) (n : Z) :
  all_chars number_char (low_digits d n) = true.
Proof.
  revert n. induction d as [|d IH]; intros n; cbn [low_digits];
    [reflexivity|].
  rewrite all_chars_append, IH. cbn [all_chars andb].
  rewrite number_char_digit; [reflexivity|].
  apply Z.mod_pos_bound. lia.
Qed.

Lemma number_chars_nat_digits (n : Z) :
  all_chars number_char (nat_digits n) = true.
Proof. apply number_chars_low_digits. Qed.

(** [str] of an integer is a sign and digits. *)
Lemma number_chars_str_int (z : Z) :
  all_chars number_char (str_int z) = true.
Proof.
  unfold str_int. destruct (z <? 0).
  - rewrite all_chars_append, number_chars_nat_digits. reflexivity.
  - apply number_chars_nat_digits.
Qed.

Lemma number_chars_zeros (n : nat) :
  all_chars number_char (zeros n) = true.
Proof.
  induction n as [|n IH]; cbn [zeros all_chars]; [reflexivity|].
  now rewrite IH.
Qed.

Lemma number_chars_repr_finite (m : positive) (e : Z) :
  all_chars number_char (repr_finite m e) = true.
Proof.
  unfold repr_finite. destruct (shortest 16 1 m e) as [n s].
  cbv zeta.
  pose proof (number_chars_nat_digits n) as Hn.
  pose proof (all_chars_strip _ _ Hn) as Hd.
  set (ds := strip_trailing_zeros (nat_digits n)) in *.
  set (decpt := Z.of_nat (String.length (nat_digits n)) - s).
  repeat match goal with
         | |- context [if ?b then _ else _] => destruct b
         end;
    rewrite ?all_chars_append, ?number_chars_zeros,
      ?number_chars_nat_digits, ?Hd, ?all_chars_substring by exact Hd;
    reflexivity.
Qed.

(** [repr] of a float that is not NaN is made of digits, the point, the
    exponent mark, the signs and the letters of [inf]. *)
Lemma number_chars_repr (f : float) :
  is_nan f = false -> all_chars number_char (repr f) = true.
Proof.
  destruct f as [s|s| |s m e]; intros Hf; try discriminate;
    cbn [repr]; rewrite all_chars_append.
  - destruct s; reflexivity.
  - destruct s; reflexivity.
  - rewrite number_chars_repr_finite. destruct s; reflexivity.
Qed.

Lemma mem_char_last (c : ascii) (s : string) :
  mem_char c (s ++ String c "") = true.
Proof.
  rewrite mem_char_append. cbn [mem_char].
  rewrite Ascii.eqb_refl. cbn [orb]. apply orb_true_r.
Qed.

End NumberText.

(** *** The frame as a shared object *)

Section SharedFrame.

Lemma lookup_In {A} (k : string) (l : list (string * A)) (a : A) :
  lookup k l = Some a -> In (k, a) l.
Proof.
  induction l as [|[k' a'] l IH]; [discriminate|].
  cbn [lookup]. destruct (String.eqb k k') eqn:E.
  - apply String.eqb_eq in E. subst k'. intros Ha. injection Ha as ->.
    now left.
  - intros Ha. right. now apply IH.
Qed.

Lemma lookup_map {A B} (g : A -> B) (k : string) (l : list (string * A)) :
  lookup k (map (fun entry => (fst entry, g (snd entry))) l)
  = option_map g (lookup k l).
Proof.
  induction l as [|[k' a'] l IH]; [reflexivity|].
  cbn [map lookup fst snd]. now destruct (String.eqb k k').
Qed.

(** Cells rendered with a formatter that writes nothing leave the heap
    as it was. *)
Lemma render_cells_quiet (fmt : option shared_formatter)
      (cells : list value) (h : heap) :
  (forall f, fmt = Some (Calls f) -> forall x h, snd (f x h) = h) ->
  snd (render_cells fmt cells h) = h.
Proof.
  intros Hq. induction cells as [|x cells IH]; [reflexivity|].
  cbn [render_cells].
  assert (D : snd (display_shared fmt x h) = h).
  { destruct fmt as [[f|d s]|]; cbn [display_shared snd];
      [now apply Hq | reflexivity | reflexivity]. }
  destruct (display_shared fmt x h) as [[text|e] h1]; cbn [snd] in D;
    subst h1; [|reflexivity].
  destruct (render_cells fmt cells h) as [[texts|e] h2]; cbn [snd] in *;
    exact IH.
Qed.

Lemma render_columns_quiet (dict : list (string * shared_formatter))
      (cols : list (string * list value)) (h : heap) :
  quiet dict -> snd (render_columns dict cols h) = h.
Proof.
  intros Hq. induction cols as [|c cols IH]; [reflexivity|].
  cbn [render_columns].
  pose proof (render_cells_quiet (lookup (fst c) dict) (snd c) h) as D.
  destruct (render_cells (lookup (fst c) dict) (snd c) h) as [[texts|e] h1];
    cbn [snd] in D; rewrite D; try reflexivity;
    try (intros f Hf; apply (Hq (fst c)); now apply lookup_In).
  destruct (render_columns dict cols h) as [[more|e] h2]; cbn [snd] in *;
    exact IH.
Qed.

(** Rendering with a quiet dictionary reads the frame and changes no
    object. *)
Lemma render_shared_quiet (dict : list (string * shared_formatter))
      (a : ref) (h : heap) :
  quiet dict ->
  snd (render_shared {| data_ref := a; shared_funcs := dict |} h) = h.
Proof.
  intros Hq. unfold render_shared. cbn [data_ref shared_funcs].
  pose proof (render_columns_quiet dict (columns (deref h a)) h Hq) as D.
  destruct (render_columns dict (columns (deref h a)) h) as [[texts|e] h1];
    exact D.
Qed.

Lemma deref_alloc (df : frame) (h : heap) :
  deref (snd (alloc df h)) (fst (alloc df h)) = df.
Proof.
  unfold deref, alloc. cbn [fst snd].
  rewrite app_nth2 by lia. now rewrite Nat.sub_diag.
Qed.

Lemma deref_alloc_old (df : frame) (h : heap) (b : ref) :
  (b < List.length h)%nat -> deref (snd (alloc df h)) b = deref h b.
Proof.
  intros Hb. unfold deref, alloc. cbn [snd]. now apply app_nth1.
Qed.

(** Lines 100-137 on the heap, case by case. *)
Lemma present_shared_eq (dict : list (string * shared_formatter))
      (a : ref) (selected : list string) (h : heap) (w : world) :
  present_shared dict a selected h w
  = if empty (deref h a)
    then Done (a, h) (with_shown [Error "No data available to display."] w)
    else
      match (match selected with
             | [] => Ok (a, h)
             | _ :: _ =>
                 result_bind (getitems (deref h a) selected)
                             (fun df => Ok (alloc df h))
             end) with
      | Err e => Raised e w
      | Ok (a1, h1) =>
          match render_shared {| data_ref := a1; shared_funcs := dict |} h1
          with
          | (Err e, _) => Raised e w
          | (Ok t, h2) =>
              Done (a1, h2)
                (with_shown
                   [Dataframe t;
                    DownloadButton "Download data as CSV"
                                   (to_csv (deref h2 a1))
                                   "crypto_data.csv" "text/csv"] w)
          end
      end.
Proof.
  unfold present_shared. destruct (empty (deref h a)); cbn [negb];
    [reflexivity|].
  assert (G : forall a1 h1,
             bind (st_dataframe_shared
                     {| data_ref := a1; shared_funcs := dict |} h1)
                  (fun h2 =>
                     bind (st_download_button "Download data as CSV"
                             (to_csv (deref h2 a1)) "crypto_data.csv"
                             "text/csv")
                          (fun _ => ret (a1, h2))) w
             = match render_shared
                       {| data_ref := a1; shared_funcs := dict |} h1 with
               | (Err e, _) => Raised e w
               | (Ok t, h2) =>
                   Done (a1, h2)
                     (with_shown
                        [Dataframe t;
                         DownloadButton "Download data as CSV"
                                        (to_csv (deref h2 a1))
                                        "crypto_data.csv" "text/csv"] w)
               end).
  { intros a1 h1. unfold bind at 1. unfold st_dataframe_shared.
    unfold bind at 1. unfold lift_heap.
    destruct (render_shared _ h1) as [[t|e] h2]; [|reflexivity].
    unfold bind, show, st_download_button, show, ret, with_shown.
    cbn [fst snd now sent shown cache]. now rewrite <- app_assoc. }
  destruct selected as [|k rest].
  - unfold bind at 1. unfold ret at 1. cbn [fst snd]. apply G.
  - unfold bind at 1. unfold lift.
    destruct (getitems (deref h a) (k :: rest)) as [df|e];
      cbn [result_bind]; [|reflexivity].
    cbv zeta. apply (G (fst (alloc df h)) (snd (alloc df h))).
Qed.

(** The frame effect of lines 100-134 for a quiet dictionary: no object
    of the heap is changed, and what is exported is the frame line 103
    selected, as it was before the table was rendered. *)
Lemma present_shared_quiet (dict : list (string * shared_formatter))
      (a : ref) (selected : list string) (h : heap) (w : world)
      (a' : ref) (h' : heap) (w' : world) :
  quiet dict ->
  present_shared dict a selected h w = Done (a', h') w' ->
  (forall b, (b < List.length h)%nat -> deref h' b = deref h b)
  /\ (empty (deref h a) = false ->
      selected_frame (deref h a) selected = Ok (deref h' a')
      /\ exists t,
           w' = with_shown
                  [Dataframe t;
                   DownloadButton "Download data as CSV"
                                  (to_csv (deref h' a'))
                                  "crypto_data.csv" "text/csv"] w).
Proof.
  intros Hq. rewrite present_shared_eq.
  destruct (empty (deref h a)).
  - intros E. injection E as <- <- <-. split; [reflexivity | discriminate].
  - assert (G : forall a1 h1,
               match render_shared
                       {| data_ref := a1; shared_funcs := dict |} h1 with
               | (Err e, _) => Raised e w
               | (Ok t, h2) =>
                   Done (a1, h2)
                     (with_shown
                        [Dataframe t;
                         DownloadButton "Download data as CSV"
                                        (to_csv (deref h2 a1))
                                        "crypto_data.csv" "text/csv"] w)
               end = Done (a', h') w' ->
               a' = a1 /\ h' = h1
               /\ exists t,
                    w' = with_shown
                           [Dataframe t;
                            DownloadButton "Download data as CSV"
                                           (to_csv (deref h1 a1))
                                           "crypto_data.csv" "text/csv"] w).
    { intros a1 h1.
      pose proof (render_shared_quiet dict a1 h1 Hq) as D.
      destruct (render_shared _ h1) as [[t|e] h2]; [|discriminate].
      cbn [snd] in D. subst h2. intros E. injection E as <- <- <-.
      split; [reflexivity|]. split; [reflexivity|]. now exists t. }
    destruct selected as [|k rest].
    + intros E. apply G in E. destruct E as (-> & -> & t & ->).
      split; [reflexivity|]. intros _. split; [reflexivity|]. now exists t.
    + unfold selected_frame.
      destruct (getitems (deref h a) (k :: rest)) as [df|e];
        cbn [result_bind]; [|discriminate].
      intros E. apply (G (fst (alloc df h)) (snd (alloc df h))) in E.
      destruct E as (-> & -> & t & ->). split.
      * intros b Hb. now apply deref_alloc_old.
      * intros _. rewrite deref_alloc. split; [reflexivity|]. now exists t.
Qed.

(** The formatters of the script are quiet. *)
Lemma quiet_shared_formatters : quiet shared_formatters.
Proof.
  intros k f Hin x h. unfold shared_formatters in Hin.
  apply in_map_iff in Hin. destruct Hin as [[k' fmt] [E _]].
  cbn [fst snd] in E. injection E as _ E.
  destruct fmt as [g|d s]; [|discriminate].
  cbn [share] in E. injection E as <-. reflexivity.
Qed.

Lemma display_share (fmt : option formatter) (x : value) (h : heap) :
  display_shared (option_map share fmt) x h = (display fmt x, h).
Proof. destruct fmt as [[f|d s]|]; reflexivity. Qed.

Lemma render_cells_share (fmt : option formatter) (cells : list value)
      (h : heap) :
  render_cells (option_map share fmt) cells h
  = (result_map (display fmt) cells, h).
Proof.
  induction cells as [|x cells IH]; [reflexivity|].
  cbn [render_cells result_map]. rewrite display_share.
  destruct (display fmt x) as [text|e]; cbn [result_bind]; [|reflexivity].
  rewrite IH. now destruct (result_map (display fmt) cells).
Qed.

Lemma render_columns_share (cols : list (string * list value)) (h : heap) :
  render_columns shared_formatters cols h
  = (result_map
       (fun c => result_map (display (lookup (fst c) formatters)) (snd c))
       cols, h).
Proof.
  induction cols as [|c cols IH]; [reflexivity|].
  cbn [render_columns result_map]. unfold shared_formatters at 1.
  rewrite lookup_map, render_cells_share.
  destruct (result_map (display (lookup (fst c) formatters)) (snd c));
    cbn [result_bind]; [|reflexivity].
  rewrite IH. now destruct (result_map _ cols).
Qed.

(** With the formatters of the script the table rendered through the
    address is the table of the frame the address names. *)
Lemma render_shared_share (a : ref) (h : heap) :
  render_shared {| data_ref := a; shared_funcs := shared_formatters |} h
  = (render (style_format (deref h a) formatters), h).
Proof.
  unfold render_shared, render. cbn [data_ref shared_funcs data display_funcs
    style_format].
  rewrite render_columns_share.
  now destruct (result_map _ (columns (deref h a))).
Qed.

(** Lines 100-137 read on values are lines 100-137 read on the heap. *)
Lemma present_shared_refines (a : ref) (selected : list string) (h : heap)
      (w : world) :
  present (deref h a) selected w
  = match present_shared shared_formatters a selected h w with
    | Done _ w' => Done tt w'
    | Raised e w' => Raised e w'
    | Looping w' => Looping w'
    end.
Proof.
  rewrite present_eq, present_shared_eq.
  destruct (empty (deref h a)); [reflexivity|].
  destruct selected as [|k rest].
  - rewrite render_shared_share.
    now destruct (render (style_format (deref h a) formatters)).
  - destruct (getitems (deref h a) (k :: rest)) as [df|e];
      cbn [result_bind]; [|reflexivity].
    destruct (alloc df h) as [a1 h1] eqn:A.
    rewrite render_shared_share.
    assert (D : deref h1 a1 = df).
    { pose proof (deref_alloc df h) as D. now rewrite A in D. }
    rewrite D.
    now destruct (render (style_format df formatters)).
Qed.

End SharedFrame.

(** *** Selection, display and export *)

Section ExportFacts.

Lemma concat_empty_cons (x : string) (l : list string) :
  String.concat "" (x :: l) = x ++ String.concat "" l.
Proof.
  destruct l as [|y l]; cbn [String.concat].
  - now rewrite append_empty_r.
  - reflexivity.
Qed.

Lemma result_map_Ok {A B} (f : A -> result B) (g : A -> B) (l : list A) :
  (forall x, In x l -> f x = Ok (g x)) ->
  result_map f l = Ok (map g l).
Proof.
  induction l as [|x l IH]; intros Hf; [reflexivity|].
  cbn [result_map map]. rewrite (Hf x) by now left.
  cbn [result_bind]. rewrite IH by (intros y Hy; apply Hf; now right).
  reflexivity.
Qed.

Lemma result_map_length {A B} (f : A -> result B) (l : list A)
      (out : list B) :
  result_map f l = Ok out -> List.length out = List.length l.
Proof.
  revert out. induction l as [|x l IH]; intros out.
  - intros E. now injection E as <-.
  - cbn [result_map]. destruct (f x); [|discriminate]. cbn [result_bind].
    destruct (result_map f l) as [ys|]; [|discriminate].
    cbn [result_bind].
    intros E. injection E as <-. cbn [List.length].
    now rewrite (IH ys eq_refl).
Qed.

(** The table that is shown carries the labels of the frame. *)
Lemma render_labels (s : styler) (t : table) :
  render s = Ok t ->
  labels t = column_names (data s)
  /\ List.length (cells_text t) = List.length (columns (data s)).
Proof.
  unfold render. destruct (result_map _ (columns (data s))) eqn:E;
    [|discriminate].
  cbn [result_bind]. intros Ht. injection Ht as <-. cbn [labels cells_text].
  split; [reflexivity|]. now apply result_map_length in E.
Qed.

Lemma filter_absent (k : string) (cols : list (string * list value)) :
  ~ In k (map fst cols) ->
  filter (fun c => String.eqb k (fst c)) cols = [].
Proof.
  induction cols as [|[k' c'] cols IH]; [reflexivity|].
  cbn [map fst In filter]. intros Hn.
  destruct (String.eqb k k') eqn:E.
  - apply String.eqb_eq in E. subst. exfalso. apply Hn. now left.
  - apply IH. intros Hi. apply Hn. now right.
Qed.

Lemma filter_unique (k : string) (cols : list (string * list value)) :
  NoDup (map fst cols) -> In k (map fst cols) ->
  filter (fun c => String.eqb k (fst c)) cols = [(k, column_of
    {| index_len := 0; columns := cols |} k)].
Proof.
  unfold column_of. cbn [columns].
  induction cols as [|[k' c'] cols IH]; [intros _ []|].
  cbn [map fst In filter lookup]. intros Hnd Hin.
  inversion Hnd as [|x l Hx Hl]; subst.
  destruct (String.eqb k k') eqn:E.
  - apply String.eqb_eq in E. subst k'.
    now rewrite filter_absent.
  - destruct Hin as [Hk | Hin].
    + subst k'. now rewrite String.eqb_refl in E.
    + now apply IH.
Qed.

(** Selecting labels that the frame has, once each, gives the columns
    under these labels in the order of the selection. *)
Lemma getitems_selected (df : frame) (selected : list string) :
  NoDup (column_names df) -> incl selected (column_names df) ->
  getitems df selected
  = Ok {| index_len := index_len df;
          columns := map (fun k => (k, column_of df k)) selected |}.
Proof.
  intros Hnd Hincl. unfold getitems.
  rewrite (result_map_Ok _ (fun k => [(k, column_of df k)])).
  - cbn [result_bind]. do 2 f_equal.
    induction selected as [|k rest IH]; [reflexivity|].
    cbn [map List.concat app]. f_equal. apply IH.
    intros x Hx. apply Hincl. now right.
  - intros k Hk. rewrite filter_unique; [reflexivity | exact Hnd |].
    now apply Hincl.
Qed.

Lemma rows_width (df : frame) (r : list value) :
  In r (rows df) -> List.length r = List.length (column_names df).
Proof.
  unfold rows, column_names. intros Hr. apply in_map_iff in Hr.
  destruct Hr as [i [<- _]]. now rewrite !length_map.
Qed.

Lemma csv_quote_number (s : string) :
  all_chars number_char s = true -> csv_quote s = s.
Proof.
  intros Hs. unfold csv_quote.
  rewrite !(all_chars_mem number_char s) by (exact Hs || reflexivity).
  reflexivity.
Qed.

(** C8.  Formatting for display does not change the data set, and the
    export made after styling holds the raw values.

    Frame effect.  With the frames on a heap, the styler holding the
    address of its frame and every formatter free to assign, lines
    100-134 run with a dictionary whose callables assign to nothing
    leave every object of the heap as it was, and the text of the
    download is [to_csv] of the frame line 103 selected, read after the
    table was rendered.  The dictionary of the script is such a
    dictionary, and with it the run on the heap is the run of [present].
    A formatter that does assign changes the export: the property rests
    on the formatters, not on the styler.

    Export.  The text is a header line of the labels of the (selected)
    frame and one line per row with as many fields as labels, so there is
    no index column.  A float that is not NaN is written by [repr], an
    integer by [str]; either text is made of digits, point, exponent
    mark, signs and the letters of [inf], so it has no thousands
    separator and no percent sign, while the text shown for a percentage
    column ends with a percent sign.

    Examples.  A price of 1234.5 and a percentage of 12.345 are exported
    as 1234.5 and 12.345 and shown as 1,234.50 and 12.35%; a record with
    the integers 43250 and 1 for price and rank is exported with 43250
    and 1 and shown with 43,250.00 and 1. *)
Theorem csv_export_keeps_raw_values :
  (forall dict a selected h w a' h' w',
      quiet dict ->
      present_shared dict a selected h w = Done (a', h') w' ->
      (forall b, (b < List.length h)%nat -> deref h' b = deref h b)
      /\ (empty (deref h a) = false ->
          selected_frame (deref h a) selected = Ok (deref h' a')
          /\ exists t,
               w' = with_shown
                      [Dataframe t;
                       DownloadButton "Download data as CSV"
                                      (to_csv (deref h' a'))
                                      "crypto_data.csv" "text/csv"] w))
  /\ quiet shared_formatters
  /\ (forall a selected h w,
         present (deref h a) selected w
         = match present_shared shared_formatters a selected h w with
           | Done _ w' => Done tt w'
           | Raised e w' => Raised e w'
           | Looping w' => Looping w'
           end)
  /\ present_shared [("current_price", writing Sample.shown_prices)]
                    0%nat [] [Sample.prices] Sample.start
     = Done (0%nat, [Sample.shown_prices])
            (with_shown
               [Dataframe
                  {| labels := ["current_price";
                                "price_change_percentage_24h"];
                     cells_text := [["1,234.50"]; ["12.345000"]] |};
                DownloadButton "Download data as CSV"
                  ("current_price,price_change_percentage_24h" ++ newline
                     ++ dquote ++ "1,234.50" ++ dquote ++ ",12.35%"
                     ++ newline)
                  "crypto_data.csv" "text/csv"] Sample.start)
  /\ (forall df,
         to_csv df
         = csv_line (map csv_quote (column_names df))
             ++ String.concat ""
                  (map (fun r => csv_line (map csv_field r)) (rows df)))
  /\ (forall df r, In r (rows df) ->
                   List.length r = List.length (column_names df))
  /\ (forall f, PyFloat.is_nan f = false ->
                csv_field (VNum f) = PyFloat.repr f
                /\ all_chars number_char (csv_field (VNum f)) = true
                /\ mem_char ","%char (csv_field (VNum f)) = false
                /\ mem_char "%"%char (csv_field (VNum f)) = false)
  /\ (forall z, csv_field (VInt z) = str_int z
                /\ all_chars number_char (csv_field (VInt z)) = true
                /\ mem_char ","%char (csv_field (VInt z)) = false
                /\ mem_char "%"%char (csv_field (VInt z)) = false)
  /\ (forall f t, display (lookup "price_change_percentage_24h" formatters)
                          (VNum f) = Ok t ->
                  mem_char "%"%char t = true)
  /\ present Sample.prices [] Sample.start
     = Done tt
         (with_shown
            [Dataframe
               {| labels := ["current_price";
                             "price_change_percentage_24h"];
                  cells_text := [["1,234.50"]; ["12.35%"]] |};
             DownloadButton "Download data as CSV"
               ("current_price,price_change_percentage_24h" ++ newline
                  ++ "1234.5,12.345" ++ newline)
               "crypto_data.csv" "text/csv"] Sample.start)
  /\ (exists df,
         normalize [Sample.whole] = Ok df
         /\ present df Sample.ranked Sample.start
            = Done tt
                (with_shown
                   [Dataframe
                      {| labels := Sample.ranked;
                         cells_text := [["BTC"]; ["1"]; ["43,250.00"];
                                        ["12.35%"]] |};
                    DownloadButton "Download data as CSV"
                      ("symbol,market_cap_rank,current_price,"
                         ++ "price_change_percentage_24h" ++ newline
                         ++ "BTC,1,43250,12.345" ++ newline)
                      "crypto_data.csv" "text/csv"] Sample.start)).
Proof.
  repeat match goal with |- _ /\ _ => split end.
  - intros dict a selected h w a' h' w'. apply present_shared_quiet.
  - exact quiet_shared_formatters.
  - exact present_shared_refines.
  - vm_compute. reflexivity.
  - intros df. unfold to_csv. apply concat_empty_cons.
  - apply rows_width.
  - intros f Hf.
    assert (E : csv_field (VNum f) = PyFloat.repr f)
      by (unfold csv_field, isnull; now rewrite Hf).
    pose proof (number_chars_repr f Hf) as N. rewrite E.
    split; [reflexivity|]. split; [exact N|].
    split; apply (all_chars_mem number_char); (exact N || reflexivity).
  - intros z.
    pose proof (number_chars_str_int z) as N.
    assert (E : csv_field (VInt z) = str_int z)
      by (unfold csv_field; cbn [isnull str_value];
          now apply csv_quote_number).
    rewrite E. split; [reflexivity|]. split; [exact N|].
    split; apply (all_chars_mem number_char); (exact N || reflexivity).
  - intros f t. change (lookup "price_change_percentage_24h" formatters)
      with (Some (Template 2 "%")).
    cbn [display str_format]. intros E. injection E as <-.
    apply mem_char_last.
  - vm_compute. reflexivity.
  - exists {| index_len := 1;
              columns :=
                [("symbol", [VStr "BTC"]);
                 ("current_price", [VInt 43250]);
                 ("market_cap_rank", [VInt 1]);
                 ("Total Volume in USD", [VInt 5]);
                 ("price_change_percentage_24h",
                  [VNum (PyFloat.lit 12345 3)])] |}.
    split; vm_compute; reflexivity.
Qed.

(** C10.  On a frame that is not empty: with an empty selection the
    table and the export are those of the whole frame, all its columns
    in their order; with a selection that is not empty, made of labels
    the frame has (each label standing for one column), the frame is cut
    down to the selected columns in the order of the selection, and the
    table and the header line of the export carry exactly these
    labels. *)
Theorem selection_restricts_table_and_export (df : frame) :
  empty df = false ->
  (forall w,
      present df [] w
      = match render (style_format df formatters) with
        | Err e => Raised e w
        | Ok t =>
            Done tt
              (with_shown
                 [Dataframe t;
                  DownloadButton "Download data as CSV" (to_csv df)
                                 "crypto_data.csv" "text/csv"] w)
        end)
  /\ (forall t, render (style_format df formatters) = Ok t ->
                labels t = column_names df)
  /\ (forall selected,
         selected <> [] ->
         NoDup (column_names df) ->
         incl selected (column_names df) ->
         let pairs_df :=
           {| index_len := index_len df;
              columns := map (fun k => (k, column_of df k)) selected |} in
         getitems df selected = Ok pairs_df
         /\ column_names pairs_df = selected
         /\ (forall w,
                present df selected w
                = match render (style_format pairs_df formatters) with
                  | Err e => Raised e w
                  | Ok t =>
                      Done tt
                        (with_shown
                           [Dataframe t;
                            DownloadButton "Download data as CSV"
                                           (to_csv pairs_df)
                                           "crypto_data.csv" "text/csv"] w)
                  end)
         /\ (forall t, render (style_format pairs_df formatters) = Ok t ->
                       labels t = selected)
         /\ to_csv pairs_df
            = csv_line (map csv_quote selected)
                ++ String.concat ""
                     (map (fun r => csv_line (map csv_field r))
                          (rows pairs_df))).
Proof.
  intros He. split; [|split].
  - intros w. now rewrite present_eq, He.
  - intros t Ht. now apply render_labels in Ht.
  - intros selected Hsel Hnd Hincl pairs_df.
    assert (G : getitems df selected = Ok pairs_df)
      by now apply getitems_selected.
    assert (N : column_names pairs_df = selected).
    { unfold pairs_df, column_names. cbn [columns].
      rewrite map_map. cbn [fst]. apply map_id. }
    split; [exact G|]. split; [exact N|]. split; [|split].
    + intros w. rewrite present_eq, He.
      destruct selected as [|k rest]; [contradiction|].
      now rewrite G.
    + intros t Ht. apply render_labels in Ht. destruct Ht as [Ht _].
      now rewrite Ht.
    + unfold to_csv. rewrite concat_empty_cons. now rewrite N.
Qed.

End ExportFacts.

(** *** The empty dataset *)

Section EmptyDataset.
Context `{Outside}.

(** C4.  What the script does when every page comes back empty: the
    aggregator collects no record, the frame has no column, and taking
    its [symbol] column in line 38 raises [KeyError] before anything
    but the title and the spinner is on the page.  The error message of
    line 137 is not shown and no table is rendered; the run ends in an
    exception. *)
Theorem empty_dataset_raises_KeyError
        (fuel : nat) (picked : option (list string)) (w : world) :
  serves_nothing ->
  cache w = None ->
  script (S fuel) picked w
  = Raised (KeyError "symbol")
           {| now := now w;
              sent := (sent w ++ map page_request [1; 2; 3; 4; 5])%list;
              shown := (shown w ++ [Title "Crypto Market Overview";
                                    Spinner "Fetching data..."])%list;
              cache := None |}.
Proof.
  intros Hs Hc. unfold script, st_title, st_spinner.
  rewrite (bind_Done _ _ _ _ _ (show_eq _ w)).
  apply bind_Raised.
  rewrite (bind_Done _ _ _ _ _ (show_eq _ _)).
  rewrite with_shown_twice. cbn [app].
  unfold fetch_and_display_data.
  rewrite cache_data_miss by exact Hc.
  rewrite aggregator_nothing by exact Hs.
  cbn [with_shown now sent shown cache]. now rewrite Hc.
Qed.

End EmptyDataset.

(** *** Examples *)

Section Examples.

Lemma aggregator_concatenates_pages_witness :
  for_pages (@fetch_data_continuously Sample.steady 1) (range 1 6) []
            Sample.start
  = Done (repeat Sample.btc 500) (Sample.after_pages 5)
  /\ List.length (repeat Sample.btc 500) = 500%nat.
Proof.
  destruct (aggregator_concatenates_pages
              (@fetch_data_continuously Sample.steady 1)
              (Sample.after_pages 0) (Sample.after_pages 1)
              (Sample.after_pages 2) (Sample.after_pages 3)
              (Sample.after_pages 4) (Sample.after_pages 5)
              Sample.full_page Sample.full_page Sample.full_page
              Sample.full_page Sample.full_page
              eq_refl eq_refl eq_refl eq_refl eq_refl)
    as (A & _ & _ & _ & _ & B & _).
  split.
  - exact A.
  - apply B; reflexivity.
Defined.

Lemma fetch_retries_until_200_witness :
  @fetch_data_continuously Sample.flaky 3 markets_url (page_params 1)
                           Sample.start
  = Done (Some [Sample.btc; Sample.eth])
         {| now := 20;
            sent := [page_request 1; page_request 1; page_request 1];
            shown := [Warning "API error: Status 404. Retrying...";
                      Warning "Connection issue. Retrying in 10 seconds..."];
            cache := None |}.
Proof.
  apply (proj1 (@fetch_retries_until_200 Sample.flaky markets_url
                  (page_params 1) Sample.start)
               2%nat (Some [Sample.btc; Sample.eth])).
  - intros i Hi. destruct i as [|[|i]]; [reflexivity | reflexivity | lia].
  - reflexivity.
  - lia.
Defined.

Lemma empty_dataset_raises_KeyError_witness :
  @script Sample.drained 1 None Sample.start
  = Raised (KeyError "symbol")
           {| now := 0;
              sent := map page_request [1; 2; 3; 4; 5];
              shown := [Title "Crypto Market Overview";
                        Spinner "Fetching data..."];
              cache := None |}.
Proof.
  apply (@empty_dataset_raises_KeyError Sample.drained 0 None Sample.start).
  - intros n r. exists (Some []). split; reflexivity.
  - reflexivity.
Defined.

Lemma dates_coerced_not_raised_witness :
  exists df',
    @convert_dates Sample.small Sample.dated = Ok df'
    /\ getitem df' "ath_date"
       = Ok [VTime {| ts_year := 2021; ts_month := 11; ts_day := 10;
                      ts_clock := " 14:24:11.849000+00:00" |};
             VNaT].
Proof.
  destruct (@dates_coerced_not_raised Sample.small Sample.dated
              [VStr "2021-11-10T14:24:11.849Z"; VStr "not a date"]
              [VNone; VNone] eq_refl eq_refl)
    as [df' (C & A & _)].
  exists df'. split; [exact C | exact A].
Defined.

Lemma normalized_symbol_and_volume_witness :
  getitem Sample.normalized "symbol"
  = Ok (List.concat (repeat [VStr "BTC"; VStr "ETH"] 5))
  /\ ~ In "total_volume" (column_names Sample.normalized).
Proof.
  destruct (normalized_symbol_and_volume
              (@fetch_data_continuously Sample.small 1)
              Sample.start Sample.normalized (Sample.after_pages 5)
              eq_refl)
    as [all_data (P & S & _ & _ & V & _)].
  split; [reflexivity | exact V].
Defined.

Lemma cached_accessor_one_cycle_per_day_witness :
  @fetch_and_display_data Sample.small 1
      (elapse 3600 (with_cache (Sample.normalized, 0)
                               (Sample.after_pages 5)))
  = Done Sample.normalized
         (elapse 3600 (with_cache (Sample.normalized, 0)
                                  (Sample.after_pages 5))).
Proof.
  destruct (@cached_accessor_one_cycle_per_day Sample.small 1 Sample.start
              Sample.normalized
              (with_cache (Sample.normalized, 0) (Sample.after_pages 5))
              eq_refl eq_refl)
    as (_ & Hit & _).
  apply Hit. lia.
Defined.

Lemma csv_export_keeps_raw_values_witness :
  let selection : frame :=
    {| index_len := 1;
       columns := [("current_price", [VNum (PyFloat.lit 12345 1)])] |} in
  let page : world :=
    with_shown
      [Dataframe {| labels := ["current_price"];
                    cells_text := [["1,234.50"]] |};
       DownloadButton "Download data as CSV"
                      ("current_price" ++ newline ++ "1234.5" ++ newline)
                      "crypto_data.csv" "text/csv"] Sample.start in
  present_shared shared_formatters 0%nat ["current_price"] [Sample.prices]
                 Sample.start
  = Done (1%nat, [Sample.prices; selection]) page
  /\ deref [Sample.prices; selection] 0%nat = Sample.prices
  /\ selected_frame Sample.prices ["current_price"] = Ok selection.
Proof.
  intros selection page.
  assert (R : present_shared shared_formatters 0%nat ["current_price"]
                             [Sample.prices] Sample.start
              = Done (1%nat, [Sample.prices; selection]) page)
    by (vm_compute; reflexivity).
  assert (Q : quiet shared_formatters).
  { intros k f Hin x h.
    cbv [shared_formatters formatters map fst snd share] in Hin.
    repeat (destruct Hin as [E|Hin];
            [first [discriminate E | injection E as _ <-; reflexivity]|]).
    destruct Hin. }
  destruct (proj1 csv_export_keeps_raw_values shared_formatters 0%nat
                  ["current_price"] [Sample.prices] Sample.start
                  1%nat [Sample.prices; selection] page Q R)
    as [Hold Hnew].
  split; [exact R|]. split.
  - apply (Hold 0%nat). cbn [List.length]. lia.
  - apply (Hnew eq_refl).
Defined.

Lemma selection_restricts_table_and_export_witness :
  getitems Sample.prices ["price_change_percentage_24h"]
  = Ok {| index_len := 1;
          columns := [("price_change_percentage_24h",
                       [VNum (PyFloat.lit 12345 3)])] |}.
Proof.
  destruct (selection_restricts_table_and_export Sample.prices eq_refl)
    as (_ & _ & Sel).
  destruct (Sel ["price_change_percentage_24h"]) as (G & _).
  - discriminate.
  - constructor.
    + intros [E | []]. discriminate E.
    + constructor; [intros [] | constructor].
  - intros x [<- | []]. right. left. reflexivity.
  - exact G.
Defined.

End Examples.

(* ================================================================= *)
(** ** Further properties of the code *)

(** *** The fetch loop, read backwards *)

Section FetchOutcome.
Context `{Outside}.

Variable url : string.
Variable params : list (string * param).

Local Abbreviation r := (get_request url params).

Lemma not_failed_200 (a : attempt) :
  failed a = false -> exists json, a = Response 200 json.
Proof.
  destruct a as [status_code json|]; [|discriminate].
  cbn [failed]. intros Hf. apply negb_false_iff, Z.eqb_eq in Hf.
  subst. now exists json.
Qed.

Lemma after_none (w : world) : after_failures r 0 w = w.
Proof. apply after_failures_0. Qed.

Lemma after_one_more (k : nat) (w : world) :
  after_failures r k (after_failures r 1 w) = after_failures r (S k) w.
Proof. apply after_failures_S. Qed.

Lemma turn_again (fuel : nat) (w : world) :
  failed (upstream (List.length (sent w)) r) = true ->
  fetch_data_continuously (S fuel) url params w
  = fetch_data_continuously fuel url params (after_failures r 1 w).
Proof. apply fetch_turn. Qed.

(** Whatever the upstream does, a call of the loop followed for [fuel]
    turns has one of two outcomes.  Either it returned: then some
    attempt [k < fuel] was the first with status 200, the value is the
    body of that very answer, exactly [k + 1] identical requests with a
    10 second time-out were sent, [k] warnings were shown and [10 * k]
    seconds slept.  Or it is still turning: then all [fuel] attempts
    failed. *)
Theorem fetch_outcome (fuel : nat) :
  forall w : world,
    (exists (k : nat) (json : body),
        (k < fuel)%nat
        /\ (forall i, (i < k)%nat ->
                      failed (upstream (List.length (sent w) + i) r) = true)
        /\ upstream (List.length (sent w) + k) r = Response 200 json
        /\ fetch_data_continuously fuel url params w
           = Done json (with_sent r (after_failures r k w)))
    \/ ((forall i, (i < fuel)%nat ->
                   failed (upstream (List.length (sent w) + i) r) = true)
        /\ fetch_data_continuously fuel url params w
           = Looping (after_failures r fuel w)).
Proof.
  induction fuel as [|fuel IH]; intros w.
  - right. split; [intros i Hi; lia|].
    now rewrite after_none.
  - destruct (failed (upstream (List.length (sent w)) r)) eqn:Hf.
    + assert (L : List.length (sent (after_failures r 1 w))
                  = S (List.length (sent w))).
      { cbn [after_failures sent repeat]. rewrite length_app.
        cbn [List.length]. lia. }
      assert (Shift : forall n,
                 (forall i, (i < n)%nat ->
                    failed (upstream
                              (List.length (sent (after_failures r 1 w)) + i)
                              r) = true) ->
                 forall i, (i < S n)%nat ->
                    failed (upstream (List.length (sent w) + i) r) = true).
      { intros n Hn i Hi. destruct i as [|i].
        - now rewrite Nat.add_0_r.
        - specialize (Hn i ltac:(lia)). rewrite L in Hn.
          now replace (List.length (sent w) + S i)%nat
            with (S (List.length (sent w)) + i)%nat by lia. }
      rewrite turn_again by exact Hf.
      destruct (IH (after_failures r 1 w))
        as [(k & json & Hk & Hfail & Hok & Hd) | (Hfail & Hl)].
      * left. exists (S k), json. split; [lia|]. split; [|split].
        -- now apply Shift.
        -- rewrite L in Hok.
           now replace (List.length (sent w) + S k)%nat
             with (S (List.length (sent w)) + k)%nat by lia.
        -- now rewrite Hd, after_one_more.
      * right. split; [now apply Shift|].
        now rewrite Hl, after_one_more.
    + left. destruct (not_failed_200 _ Hf) as [json Hj].
      exists 0%nat, json. split; [lia|]. split; [intros i Hi; lia|].
      rewrite Nat.add_0_r. split; [exact Hj|].
      cbn [fetch_data_continuously]. unfold bind at 1, requests_get.
      fold (get_request url params). rewrite Hj, after_none. reflexivity.
Qed.

End FetchOutcome.

(** *** The aggregator on top of the fetch loop *)

Section AggregatorOnLoop.
Context `{Outside}.

Lemma fetch_first_attempt (fuel : nat) (page : Z) (w : world) (b : body) :
  upstream (List.length (sent w)) (page_request page) = Response 200 b ->
  fetch_data_continuously (S fuel) markets_url (page_params page) w
  = Done b (with_sent (page_request page) w).
Proof.
  intros Hb. cbn [fetch_data_continuously]. unfold bind at 1, requests_get.
  change {| req_url := markets_url; req_params := page_params page;
            req_timeout := 10 |} with (page_request page).
  now rewrite Hb.
Qed.

(** When the upstream answers each of the five page requests with status
    200 at the first attempt, a cycle of the aggregator sends exactly the
    five requests for pages 1 to 5 in this order, shows no warning, does
    not sleep, and returns (or raises) what normalisation makes of the
    five bodies put end to end. *)
Theorem aggregator_first_attempts
        (fuel : nat) (w : world) (b1 b2 b3 b4 b5 : body) :
  upstream (List.length (sent w)) (page_request 1) = Response 200 b1 ->
  upstream (List.length (sent w) + 1) (page_request 2) = Response 200 b2 ->
  upstream (List.length (sent w) + 2) (page_request 3) = Response 200 b3 ->
  upstream (List.length (sent w) + 3) (page_request 4) = Response 200 b4 ->
  upstream (List.length (sent w) + 4) (page_request 5) = Response 200 b5 ->
  get_top_500_pairs_by_volume (S fuel) w
  = lift (normalize (items b1 ++ items b2 ++ items b3 ++ items b4
                       ++ items b5)%list)
         {| now := now w;
            sent := (sent w ++ map page_request [1; 2; 3; 4; 5])%list;
            shown := shown w;
            cache := cache w |}.
Proof.
  intros H1 H2 H3 H4 H5.
  set (w1 := with_sent (page_request 1) w).
  set (w2 := with_sent (page_request 2) w1).
  set (w3 := with_sent (page_request 3) w2).
  set (w4 := with_sent (page_request 4) w3).
  set (w5 := with_sent (page_request 5) w4).
  assert (L1 : List.length (sent w1) = (List.length (sent w) + 1)%nat)
    by (unfold w1; cbn [with_sent sent]; now rewrite length_app).
  assert (L2 : List.length (sent w2) = (List.length (sent w) + 2)%nat)
    by (unfold w2; cbn [with_sent sent]; rewrite length_app, L1;
        cbn [List.length]; lia).
  assert (L3 : List.length (sent w3) = (List.length (sent w) + 3)%nat)
    by (unfold w3; cbn [with_sent sent]; rewrite length_app, L2;
        cbn [List.length]; lia).
  assert (L4 : List.length (sent w4) = (List.length (sent w) + 4)%nat)
    by (unfold w4; cbn [with_sent sent]; rewrite length_app, L3;
        cbn [List.length]; lia).
  rewrite <- L1 in H2. rewrite <- L2 in H3. rewrite <- L3 in H4.
  rewrite <- L4 in H5.
  pose proof (fetch_first_attempt fuel 1 w b1 H1) as F1.
  pose proof (fetch_first_attempt fuel 2 w1 b2 H2) as F2.
  pose proof (fetch_first_attempt fuel 3 w2 b3 H3) as F3.
  pose proof (fetch_first_attempt fuel 4 w3 b4 H4) as F4.
  pose proof (fetch_first_attempt fuel 5 w4 b5 H5) as F5.
  unfold get_top_500_pairs_by_volume, get_top_500_pairs_by_volume_with, bind.
  change (range 1 6) with [1; 2; 3; 4; 5].
  rewrite (for_pages_cons _ _ _ _ _ _ _ F1), (for_pages_cons _ _ _ _ _ _ _ F2),
    (for_pages_cons _ _ _ _ _ _ _ F3), (for_pages_cons _ _ _ _ _ _ _ F4),
    (for_pages_cons _ _ _ _ _ _ _ F5).
  cbn [for_pages ret app].
  rewrite <- !app_assoc. f_equal.
  unfold w5, w4, w3, w2, w1, with_sent. cbn [now sent shown cache map].
  f_equal. now rewrite <- !app_assoc.
Qed.

(** When no attempt ever succeeds, the aggregator never gets past page 1:
    however long it is followed it is still asking for the first page,
    one request and one ten-second sleep per turn, and the script is
    still under its spinner with no dataset, no table and no error
    message. *)
Theorem dead_upstream_blocks_everything
        (fuel : nat) (picked : option (list string)) (w : world) :
  (forall n r, failed (upstream n r) = true) ->
  get_top_500_pairs_by_volume fuel w
  = Looping (after_failures (page_request 1) fuel w)
  /\ (cache w = None ->
      script fuel picked w
      = Looping (after_failures (page_request 1) fuel
                   (with_shown [Title "Crypto Market Overview";
                                Spinner "Fetching data..."] w)))
  /\ sent (after_failures (page_request 1) fuel w)
     = (sent w ++ repeat (page_request 1) fuel)%list
  /\ now (after_failures (page_request 1) fuel w)
     = now w + 10 * Z.of_nat fuel.
Proof.
  intros Hdead.
  assert (G : forall w0,
             get_top_500_pairs_by_volume fuel w0
             = Looping (after_failures (page_request 1) fuel w0)).
  { intros w0.
    unfold get_top_500_pairs_by_volume, get_top_500_pairs_by_volume_with.
    change (range 1 6) with [1; 2; 3; 4; 5].
    unfold bind at 1. cbn [for_pages]. unfold bind at 1.
    replace fuel with (fuel + 0)%nat at 1 by lia.
    rewrite (fetch_turns markets_url (page_params 1) fuel 0 w0)
      by (intros i _; apply Hdead).
    reflexivity. }
  split; [apply G|]. split; [|split; reflexivity].
  intros Hc. unfold script, st_title, st_spinner.
  rewrite (bind_Done _ _ _ _ _ (show_eq _ w)).
  unfold bind at 1.
  rewrite (bind_Done _ _ _ _ _ (show_eq _ _)).
  rewrite with_shown_twice. cbn [app].
  unfold fetch_and_display_data.
  rewrite cache_data_miss by exact Hc.
  now rewrite G.
Qed.

End AggregatorOnLoop.

Lemma aggregator_first_attempts_witness :
  @get_top_500_pairs_by_volume Sample.small 1 Sample.start
  = Done Sample.normalized (Sample.after_pages 5).
Proof.
  exact (@aggregator_first_attempts Sample.small 0 Sample.start
           (Some [Sample.btc; Sample.eth]) (Some [Sample.btc; Sample.eth])
           (Some [Sample.btc; Sample.eth]) (Some [Sample.btc; Sample.eth])
           (Some [Sample.btc; Sample.eth])
           eq_refl eq_refl eq_refl eq_refl eq_refl).
Defined.

Lemma dead_upstream_blocks_everything_witness :
  @get_top_500_pairs_by_volume
    {| upstream := fun _ _ => Response 503 None;
       parse_datetime := Sample.parse_one |} 2 Sample.start
  = Looping {| now := 20;
               sent := [page_request 1; page_request 1];
               shown := [Warning "API error: Status 503. Retrying...";
                         Warning "API error: Status 503. Retrying..."];
               cache := None |}.
Proof.
  apply (@dead_upstream_blocks_everything
           {| upstream := fun _ _ => Response 503 None;
              parse_datetime := Sample.parse_one |} 2 None Sample.start).
  intros n r. reflexivity.
Defined.

(** *** The frame constructor and normalisation *)

Section Labels.

Lemma add_key_In (acc : list string) (k x : string) :
  In x (if mem_string k acc then acc else (acc ++ [k])%list)
  <-> In x acc \/ x = k.
Proof.
  destruct (mem_string k acc) eqn:E.
  - apply mem_string_In in E. split; [tauto|].
    intros [Hx | ->]; assumption.
  - rewrite in_app_iff. cbn [In]. split.
    + intros [Hx | [<- | []]]; tauto.
    + intros [Hx | ->]; tauto.
Qed.

Lemma add_key_NoDup (acc : list string) (k : string) :
  NoDup acc ->
  NoDup (if mem_string k acc then acc else (acc ++ [k])%list).
Proof.
  intros Hn. destruct (mem_string k acc) eqn:E; [exact Hn|].
  assert (Hk : ~ In k acc).
  { intros Hi. apply mem_string_In in Hi. congruence. }
  clear E. induction acc as [|a acc IH]; cbn [app].
  - constructor; [intros [] | constructor].
  - inversion Hn as [|x l Ha Hl]; subst. constructor.
    + rewrite in_app_iff. cbn [In]. intros [Hi | [<- | []]].
      * contradiction.
      * apply Hk. now left.
    + apply IH; [exact Hl|]. intros Hi. apply Hk. now right.
Qed.

Lemma add_keys_spec (keys : list string) :
  forall seen,
    (forall x, In x (fold_left
                       (fun acc k => if mem_string k acc then acc
                                     else (acc ++ [k])%list) keys seen)
               <-> In x seen \/ In x keys)
    /\ (NoDup seen ->
        NoDup (fold_left
                 (fun acc k => if mem_string k acc then acc
                               else (acc ++ [k])%list) keys seen)).
Proof.
  induction keys as [|k keys IH]; intros seen; cbn [fold_left].
  - split; [intros x; cbn [In]; tauto | auto].
  - destruct (IH (if mem_string k seen then seen else (seen ++ [k])%list))
      as [Hin Hnd].
    split.
    + intros x. rewrite Hin, add_key_In. cbn [In]. split.
      * intros [[Hs | ->] | Hk]; auto.
      * intros [Hs | [<- | Hk]]; auto.
    + intros Hs. apply Hnd. now apply add_key_NoDup.
Qed.

Lemma all_keys_spec (data : list record) :
  forall seen,
    (forall x, In x (fold_left add_keys data seen)
               <-> In x seen \/ exists r, In r data /\ has_key x r)
    /\ (NoDup seen -> NoDup (fold_left add_keys data seen)).
Proof.
  induction data as [|r data IH]; intros seen; cbn [fold_left].
  - split; [|auto]. intros x. split; [tauto|].
    intros [Hs | [r [[] _]]]. exact Hs.
  - destruct (IH (add_keys seen r)) as [Hin Hnd].
    destruct (add_keys_spec (map fst r) seen) as [Ain And].
    split.
    + intros x. rewrite Hin. unfold add_keys. rewrite Ain. split.
      * intros [[Hs | Hr] | [r' [Hr' Hk]]].
        -- now left.
        -- right. exists r. split; [now left | exact Hr].
        -- right. exists r'. split; [now right | exact Hk].
      * intros [Hs | [r' [[<- | Hr'] Hk]]].
        -- left. now left.
        -- left. now right.
        -- right. now exists r'.
    + intros Hs. apply Hnd. unfold add_keys. now apply And.
Qed.

Lemma lookup_None_iff {A} (k : string) (l : list (string * A)) :
  lookup k l = None <-> ~ In k (map fst l).
Proof.
  induction l as [|[k' a] l IH]; cbn [lookup map fst In]; [tauto|].
  destruct (String.eqb k k') eqn:E.
  - apply String.eqb_eq in E. subst. split; [discriminate|].
    intros Hn. exfalso. apply Hn. now left.
  - apply String.eqb_neq in E. rewrite IH. split.
    + intros Hn [Hk | Hi]; [now subst | contradiction].
    + intros Hn Hi. apply Hn. now right.
Qed.

Lemma NoDup_renamed (old new : string) (l : list string) :
  NoDup l -> ~ In new l -> NoDup (map (renamed old new) l).
Proof.
  induction l as [|a l IH]; cbn [map]; intros Hn Hnew; [constructor|].
  inversion Hn as [|x l' Ha Hl]; subst.
  assert (Hnl : ~ In new l) by (intros Hi; apply Hnew; now right).
  assert (Hna : new <> a) by (intros ->; apply Hnew; now left).
  constructor; [|now apply IH].
  intros Hi. apply in_map_iff in Hi. destruct Hi as [b [Hb Hbl]].
  unfold renamed in Hb.
  destruct (String.eqb b old) eqn:Eb, (String.eqb a old) eqn:Ea.
  - apply String.eqb_eq in Eb, Ea. subst. contradiction.
  - now subst.
  - subst b. contradiction.
  - subst b. contradiction.
Qed.

(** The labels of a frame made from records are the keys of the records,
    each once, and a key is a label exactly when some record has it.
    Normalisation fails with [KeyError] on [symbol] exactly when no
    record has a [symbol] key, in particular on no record at all; when it
    succeeds the labels are the keys with [total_volume] replaced, and
    they are still distinct unless a record already had a key
    [Total Volume in USD]. *)
Theorem frame_labels (data : list record) :
  NoDup (column_names (DataFrame data))
  /\ (forall k, In k (column_names (DataFrame data))
                <-> exists r, In r data /\ has_key k r)
  /\ (normalize data = Err (KeyError "symbol")
      <-> forall r, In r data -> lookup "symbol" r = None)
  /\ (forall df,
         normalize data = Ok df ->
         column_names df
         = map (renamed "total_volume" "Total Volume in USD")
               (column_names (DataFrame data))
         /\ ((forall r, In r data ->
                        lookup "Total Volume in USD" r = None) ->
             NoDup (column_names df))).
Proof.
  rewrite column_names_DataFrame.
  destruct (all_keys_spec data []) as [Hin Hnd].
  fold (all_keys data) in Hin, Hnd.
  assert (K : forall k, In k (all_keys data)
                        <-> exists r, In r data /\ has_key k r).
  { intros k. rewrite Hin. cbn [In]. tauto. }
  split; [apply Hnd; constructor|]. split; [exact K|]. split.
  - unfold normalize, getitem. cbn [DataFrame columns].
    rewrite lookup_map_key.
    destruct (mem_string "symbol" (all_keys data)) eqn:E;
      cbn [result_bind].
    + apply mem_string_In, K in E. destruct E as [r [Hr Hk]]. split.
      * unfold str_upper. destruct (float_dtype _ || int_dtype _);
          cbn [result_bind];
          discriminate.
      * intros Hall. specialize (Hall r Hr).
        apply lookup_None_iff in Hall. contradiction.
    + split; [|reflexivity]. intros _ r Hr.
      apply lookup_None_iff. intros Hk.
      assert (Hi : In "symbol" (all_keys data)) by (apply K; now exists r).
      apply mem_string_In in Hi. congruence.
  - intros df Hn. apply normalize_Ok in Hn. destruct Hn as [_ ->].
    assert (N : column_names
                  (rename "total_volume" "Total Volume in USD"
                     (setitem (DataFrame data) "symbol"
                              (map symbol_cell data)))
                = map (renamed "total_volume" "Total Volume in USD")
                      (all_keys data)).
    { rewrite names_rename. f_equal. unfold column_names, setitem.
      cbn [columns]. rewrite names_set_column.
      apply column_names_DataFrame. }
    rewrite N. split; [reflexivity|].
    intros Hall. apply NoDup_renamed; [apply Hnd; constructor|].
    intros Hi. apply K in Hi. destruct Hi as [r [Hr Hk]].
    specialize (Hall r Hr). apply lookup_None_iff in Hall. contradiction.
Qed.

End Labels.

Lemma frame_labels_witness :
  normalize [] = Err (KeyError "symbol")
  /\ column_names (DataFrame [Sample.btc; Sample.eth])
     = ["symbol"; "current_price"; "total_volume";
        "price_change_percentage_24h"; "ath_date"; "atl_date"].
Proof.
  destruct (frame_labels []) as (_ & _ & E & _).
  split; [|reflexivity].
  apply E. intros r [].
Defined.

(** *** Frames through the script *)

Section Rectangular.
Context `{Outside}.

Lemma In_set_column (key : string) (new : list value)
      (cols : list (string * list value)) (k : string) (cells : list value) :
  In (k, cells) (set_column key new cols) ->
  (k = key /\ cells = new) \/ In (k, cells) cols.
Proof.
  induction cols as [|[k' old] cols IH]; cbn [set_column]; [intros []|].
  destruct (String.eqb key k') eqn:E; cbn [In].
  - apply String.eqb_eq in E. subst k'.
    intros [Hc | Hi]; [injection Hc as <- <-; now left | right; now right].
  - intros [Hc | Hi]; [right; now left|].
    destruct (IH Hi) as [Hk | Hr]; [now left | right; now right].
Qed.

Lemma infer_objects_length (cells : list value) :
  List.length (infer_objects cells) = List.length cells.
Proof. unfold infer_objects. destruct (float_dtype cells); now rewrite ?length_map. Qed.

Lemma well_formed_DataFrame (data : list record) :
  well_formed (DataFrame data).
Proof.
  intros k cells Hi. cbn [DataFrame columns index_len] in *.
  apply in_map_iff in Hi. destruct Hi as [c [Hc _]].
  injection Hc as _ <-. now rewrite infer_objects_length, length_map.
Qed.

Lemma well_formed_setitem (df : frame) (key : string) (new : list value) :
  well_formed df -> List.length new = index_len df ->
  well_formed (setitem df key new).
Proof.
  intros Hw Hn k cells Hi. cbn [setitem columns index_len] in *.
  apply In_set_column in Hi. destruct Hi as [[_ ->] | Hi]; [exact Hn|].
  now apply (Hw k).
Qed.

Lemma well_formed_rename (old new : string) (df : frame) :
  well_formed df -> well_formed (rename old new df).
Proof.
  intros Hw k cells Hi. cbn [rename columns index_len] in *.
  apply in_map_iff in Hi. destruct Hi as [[k' c'] [Hc Hi]].
  injection Hc as _ <-. now apply (Hw k').
Qed.

Lemma getitem_length (df : frame) (k : string) (cells : list value) :
  well_formed df -> getitem df k = Ok cells ->
  List.length cells = index_len df.
Proof.
  intros Hw. unfold getitem.
  destruct (lookup k (columns df)) as [c|] eqn:E; [|discriminate].
  intros Hc. injection Hc as <-. apply (Hw k).
  clear Hw. induction (columns df) as [|[k' c'] cols IH]; [discriminate|].
  cbn [lookup] in E. destruct (String.eqb k k') eqn:Ek.
  - apply String.eqb_eq in Ek. injection E as <-. subst. now left.
  - right. now apply IH.
Qed.

Lemma result_map_In {A B} (f : A -> result B) (l : list A) (out : list B) :
  result_map f l = Ok out ->
  forall y, In y out -> exists x, In x l /\ f x = Ok y.
Proof.
  revert out. induction l as [|x l IH]; intros out.
  - intros E. injection E as <-. intros y [].
  - cbn [result_map]. destruct (f x) as [y0|] eqn:Ex; [|discriminate].
    cbn [result_bind].
    destruct (result_map f l) as [ys|]; [|discriminate].
    cbn [result_bind]. intros E. injection E as <-.
    intros y [<- | Hy].
    + exists x. split; [now left | exact Ex].
    + destruct (IH ys eq_refl y Hy) as [x' [Hx' Hf]].
      exists x'. split; [now right | exact Hf].
Qed.

Lemma result_map_Err {A B} (f : A -> result B) (l : list A) (e : exn) :
  result_map f l = Err e -> exists x, In x l /\ f x = Err e.
Proof.
  induction l as [|x l IH]; [discriminate|].
  cbn [result_map]. destruct (f x) as [y0|e0] eqn:Ex; cbn [result_bind].
  - destruct (result_map f l) as [ys|e1]; cbn [result_bind]; [discriminate|].
    intros E. injection E as ->. destruct (IH eq_refl) as [x' [Hx' Hf]].
    exists x'. split; [now right | exact Hf].
  - intros E. injection E as ->. exists x. split; [now left | exact Ex].
Qed.

Lemma filter_present (k : string) (cols : list (string * list value)) :
  In k (map fst cols) ->
  filter (fun c => String.eqb k (fst c)) cols <> [].
Proof.
  induction cols as [|[k' c'] cols IH]; [intros []|].
  cbn [map fst In filter]. intros [Hk | Hi].
  - subst k'. now rewrite String.eqb_refl.
  - destruct (String.eqb k k'); [discriminate | now apply IH].
Qed.

(** The frame stays a rectangle from the constructor to the export: the
    frame made of the records has one row per record and one cell per row
    in every column, and normalisation, the date conversion and the
    column selection all keep the number of rows and the one cell per row;
    the date conversion also keeps the labels. *)
Theorem frames_stay_rectangular :
  (forall data,
      well_formed (DataFrame data)
      /\ index_len (DataFrame data) = List.length data)
  /\ (forall data df,
         normalize data = Ok df ->
         well_formed df /\ index_len df = List.length data)
  /\ (forall df df',
         well_formed df -> convert_dates df = Ok df' ->
         well_formed df' /\ index_len df' = index_len df
         /\ column_names df' = column_names df)
  /\ (forall df selected df',
         well_formed df -> getitems df selected = Ok df' ->
         well_formed df' /\ index_len df' = index_len df)
  /\ (forall df, List.length (rows df) = index_len df).
Proof.
  split; [|split; [|split; [|split]]].
  - intros data. split; [apply well_formed_DataFrame | reflexivity].
  - intros data df Hn. split; [|now apply normalize_index_len].
    apply normalize_Ok in Hn. destruct Hn as [_ ->].
    apply well_formed_rename, well_formed_setitem.
    + apply well_formed_DataFrame.
    + now rewrite length_map.
  - intros df df' Hw. unfold convert_dates.
    destruct (getitem df "ath_date") as [ath|] eqn:E1; [|discriminate].
    cbn [result_bind].
    assert (W1 : well_formed (setitem df "ath_date" (to_datetime ath))).
    { apply well_formed_setitem; [exact Hw|].
      unfold to_datetime. rewrite length_map.
      now apply (getitem_length df "ath_date"). }
    destruct (getitem (setitem df "ath_date" (to_datetime ath)) "atl_date")
      as [atl|] eqn:E2; [|discriminate].
    cbn [result_bind]. intros E. injection E as <-. split; [|split].
    + apply well_formed_setitem; [exact W1|].
      unfold to_datetime. rewrite length_map.
      now apply (getitem_length _ "atl_date" atl W1).
    + reflexivity.
    + unfold column_names, setitem. cbn [columns].
      now rewrite !names_set_column.
  - intros df selected df' Hw. unfold getitems.
    destruct (result_map _ selected) as [cols|] eqn:E; [|discriminate].
    cbn [result_bind]. intros Hd. injection Hd as <-.
    split; [|reflexivity].
    intros k cells Hi. cbn [columns index_len] in *.
    apply in_concat in Hi. destruct Hi as [found [Hf Hin]].
    destruct (result_map_In _ _ _ E found Hf) as [key [_ Hkey]].
    destruct (filter (fun c => String.eqb key (fst c)) (columns df))
      as [|c0 rest] eqn:F; [discriminate|].
    injection Hkey as <-. rewrite <- F in Hin.
    apply filter_In in Hin. destruct Hin as [Hin _].
    now apply (Hw k).
  - intros df. unfold rows. now rewrite length_map, length_seq.
Qed.

(** The options of the column selector are labels of the frame, each
    once and all from the fixed list of the script, and the default is
    among the options.  Selecting labels of the frame cannot fail; when a
    selection fails it is with a [KeyError] on a selected label the frame
    does not have.  Since the date conversion keeps the labels, any
    choice among the options can be applied in line 102. *)
Theorem offered_columns_can_be_selected (df : frame) :
  incl (columns_to_display df) (column_names df)
  /\ incl (columns_to_display df) columns_to_display_all
  /\ NoDup (columns_to_display df)
  /\ incl (default_columns df) (columns_to_display df)
  /\ (forall selected,
         incl selected (column_names df) ->
         exists out, getitems df selected = Ok out
                     /\ index_len out = index_len df)
  /\ (forall selected e,
         getitems df selected = Err e ->
         exists k, e = KeyError k /\ In k selected
                   /\ ~ In k (column_names df))
  /\ (forall df' selected,
         convert_dates df = Ok df' ->
         incl selected (columns_to_display df) ->
         exists out, getitems df' selected = Ok out).
Proof.
  assert (Sel : forall d selected,
             incl selected (column_names d) ->
             exists out, getitems d selected = Ok out
                         /\ index_len out = index_len d).
  { intros d selected Hincl. unfold getitems.
    destruct (result_map _ selected) as [cols|e] eqn:E.
    - cbn [result_bind]. eexists. split; reflexivity.
    - apply result_map_Err in E. destruct E as [k [Hk Hf]].
      exfalso.
      pose proof (filter_present k (columns d) (Hincl k Hk)) as Hp.
      destruct (filter _ (columns d)); [now apply Hp | discriminate]. }
  assert (Opt : incl (columns_to_display df) (column_names df)).
  { intros k Hk. unfold columns_to_display in Hk.
    apply filter_In in Hk. now apply mem_string_In. }
  split; [exact Opt|]. split; [|split; [|split; [|split; [|split]]]].
  - intros k Hk. unfold columns_to_display in Hk.
    now apply filter_In in Hk.
  - apply NoDup_filter. unfold columns_to_display_all.
    repeat (constructor; [cbn [In]; intuition discriminate|]).
    constructor.
  - intros k Hk. unfold default_columns in Hk.
    apply filter_In in Hk. now apply mem_string_In.
  - apply Sel.
  - intros selected e. unfold getitems.
    destruct (result_map _ selected) as [cols|e0] eqn:E;
      cbn [result_bind]; [discriminate|].
    intros Hd. injection Hd as ->.
    apply result_map_Err in E. destruct E as [k [Hk Hf]].
    destruct (filter (fun c => String.eqb k (fst c)) (columns df))
      as [|c0 rest] eqn:F; [|discriminate].
    injection Hf as <-. exists k. split; [reflexivity|]. split; [exact Hk|].
    intros Hi. now apply (filter_present k (columns df) Hi).
  - intros df' selected Hc Hincl.
    assert (N : column_names df' = column_names df).
    { revert Hc. unfold convert_dates.
      destruct (getitem df "ath_date"); [|discriminate].
      cbn [result_bind].
      destruct (getitem _ "atl_date"); [|discriminate].
      cbn [result_bind]. intros E. injection E as <-.
      unfold column_names, setitem. cbn [columns].
      now rewrite !names_set_column. }
    destruct (Sel df' selected) as [out [Ho _]].
    + rewrite N. intros k Hk. apply Opt. now apply Hincl.
    + now exists out.
Qed.

End Rectangular.

Lemma frames_stay_rectangular_witness :
  well_formed Sample.normalized /\ index_len Sample.normalized = 10%nat.
Proof.
  destruct (proj1 (proj2 (@frames_stay_rectangular Sample.small))
              (List.concat (repeat [Sample.btc; Sample.eth] 5))
              Sample.normalized eq_refl) as [W L].
  split; [exact W | exact L].
Defined.

Lemma offered_columns_can_be_selected_witness :
  exists out,
    getitems Sample.normalized ["current_price"; "symbol"] = Ok out
    /\ index_len out = 10%nat.
Proof.
  destruct (@offered_columns_can_be_selected Sample.small Sample.normalized)
    as (_ & _ & _ & _ & Sel & _).
  apply (Sel ["current_price"; "symbol"]).
  intros k [<- | [<- | []]]; cbn; tauto.
Defined.

(** *** One run of the script, from a cold cache *)

Section ColdRun.
Context `{Outside}.

Lemma only_warned_refl (w : world) : only_warned w w.
Proof. exists []. split; [now rewrite app_nil_r | reflexivity]. Qed.

Lemma only_warned_trans (w1 w2 w3 : world) :
  only_warned w1 w2 -> only_warned w2 w3 -> only_warned w1 w3.
Proof.
  intros [l1 [E1 F1]] [l2 [E2 F2]]. exists (l1 ++ l2)%list. split.
  - now rewrite E2, E1, app_assoc.
  - now rewrite forallb_app, F1, F2.
Qed.

Lemma fetch_only_warns (fuel : nat) (url : string)
      (params : list (string * param)) :
  forall w, only_warned w (world_of (fetch_data_continuously fuel url params w)).
Proof.
  induction fuel as [|fuel IH]; intros w; [apply only_warned_refl|].
  set (r := {| req_url := url; req_params := params; req_timeout := 10 |}).
  destruct (failed (upstream (List.length (sent w)) r)) eqn:Hf.
  - rewrite fetch_turn by exact Hf.
    apply only_warned_trans with (w2 := after_failures r 1 w); [|apply IH].
    eexists. split; [reflexivity | reflexivity].
  - cbn [fetch_data_continuously]. unfold bind at 1, requests_get. fold r.
    destruct (upstream (List.length (sent w)) r) as [status_code json|];
      [|discriminate].
    cbn [failed] in Hf. apply negb_false_iff in Hf. rewrite Hf.
    exists []. split; [cbn; now rewrite app_nil_r | reflexivity].
Qed.

Lemma for_pages_only_warns (fuel : nat) (pages : list Z) :
  forall all_data w,
    only_warned w (world_of (for_pages (fetch_data_continuously fuel)
                                       pages all_data w)).
Proof.
  induction pages as [|page rest IH]; intros all_data w;
    [apply only_warned_refl|].
  cbn [for_pages]. unfold bind at 1.
  pose proof (fetch_only_warns fuel markets_url (page_params page) w) as Hf.
  destruct (fetch_data_continuously fuel markets_url (page_params page) w)
    as [coins w1|e w1|w1]; cbn [world_of] in *; try exact Hf.
  eapply only_warned_trans; [exact Hf | apply IH].
Qed.

Lemma cycle_only_warns (fuel : nat) (w : world) :
  only_warned w (world_of (get_top_500_pairs_by_volume fuel w)).
Proof.
  unfold get_top_500_pairs_by_volume, get_top_500_pairs_by_volume_with, bind.
  pose proof (for_pages_only_warns fuel (range 1 6) [] w) as Hp.
  destruct (for_pages (fetch_data_continuously fuel) (range 1 6) [] w)
    as [data w1|e w1|w1]; cbn [world_of] in *; try exact Hp.
  unfold lift. now destruct (normalize data).
Qed.

(** The script after the title and the spinner, case by case. *)
Lemma script_eq (fuel : nat) (picked : option (list string)) (w : world) :
  script fuel picked w
  = match fetch_and_display_data fuel
            (with_shown [Title "Crypto Market Overview";
                         Spinner "Fetching data..."] w) with
    | Done df w1 =>
        let selected_columns :=
          match picked with
          | Some l => l
          | None => default_columns df
          end in
        let w2 :=
          with_shown [SidebarSubheader "Select columns to display";
                      Multiselect "Choose columns:" (columns_to_display df)
                                  (default_columns df);
                      LastUpdated (now w1)] w1 in
        match convert_dates df with
        | Ok pairs_df => present pairs_df selected_columns w2
        | Err e => Raised e w2
        end
    | Raised e w1 => Raised e w1
    | Looping w1 => Looping w1
    end.
Proof.
  unfold script, st_title, st_spinner.
  rewrite (bind_Done _ _ _ _ _ (show_eq _ w)).
  unfold bind at 1.
  rewrite (bind_Done _ _ _ _ _ (show_eq _ _)).
  rewrite with_shown_twice. cbn [app].
  destruct (fetch_and_display_data fuel _) as [df w1|e w1|w1];
    try reflexivity.
  unfold st_sidebar_subheader, st_sidebar_multiselect, st_markdown_last_updated.
  rewrite (bind_Done _ _ _ _ _ (show_eq _ w1)).
  unfold bind at 1. unfold bind at 1.
  rewrite show_eq. unfold ret.
  unfold bind at 1. rewrite show_eq.
  rewrite !with_shown_twice. cbn [app with_shown now].
  unfold bind, lift. now destruct (convert_dates df).
Qed.

(** From a cold cache the error message of line 137 is never shown,
    whatever the upstream answers, whatever the user picked and however
    the run ends: what a run adds to the page holds no [Error].  A run
    that ends normally has put the table and, last, the download button
    on the page. *)
Theorem cold_run_never_shows_the_error
        (fuel : nat) (picked : option (list string)) (w : world) :
  cache w = None ->
  (exists added,
      shown (world_of (script fuel picked w)) = (shown w ++ added)%list
      /\ forallb (fun e => negb (is_error e)) added = true)
  /\ (forall w',
         script fuel picked w = Done tt w' ->
         exists before t csv,
           shown w' = (before
                       ++ [Dataframe t;
                           DownloadButton "Download data as CSV" csv
                                          "crypto_data.csv" "text/csv"])%list).
Proof.
  intros Hc.
  set (w0 := with_shown [Title "Crypto Market Overview";
                         Spinner "Fetching data..."] w).
  assert (Hc0 : cache w0 = None) by exact Hc.
  pose proof (cycle_only_warns fuel w0) as Hw.
  assert (Quiet : forall l, forallb is_warning l = true ->
                            forallb (fun e => negb (is_error e)) l = true).
  { intros l Hl. rewrite forallb_forall in *. intros e He.
    specialize (Hl e He). now destruct e. }
  rewrite script_eq. fold w0. unfold fetch_and_display_data.
  rewrite cache_data_miss by exact Hc0.
  destruct (get_top_500_pairs_by_volume fuel w0) as [df w1|e w1|w1] eqn:G;
    cbn [world_of] in Hw; destruct Hw as [l [El Fl]].
  - (* the cycle returned a frame *)
    assert (Hne : empty df = false).
    { apply get_top_500_Done in G. destruct G as [data [_ Hn]].
      now apply normalize_not_empty in Hn. }
    cbn zeta.
    set (w2 := with_shown _ (with_cache _ w1)).
    assert (S2 : exists l2, shown w2 = (shown w ++ l2)%list
                 /\ forallb (fun e => negb (is_error e)) l2 = true).
    { eexists. split.
      - unfold w2. cbn [with_shown with_cache shown].
        rewrite El. unfold w0. cbn [with_shown shown].
        rewrite <- !app_assoc. reflexivity.
      - rewrite !forallb_app, (Quiet l Fl). reflexivity. }
    destruct (convert_dates df) as [pairs_df|e] eqn:Cd.
    + assert (Hne' : empty pairs_df = false)
        by (rewrite (convert_dates_not_empty _ _ Cd); exact Hne).
      rewrite present_eq, Hne'.
      destruct (match match picked with
                      | Some l0 => l0
                      | None => default_columns df
                      end with
                | [] => Ok pairs_df
                | _ :: _ => getitems pairs_df _
                end) as [sel_df|e]; [|split; [exact S2 | discriminate]].
      destruct (render (style_format sel_df formatters)) as [t|e];
        [|split; [exact S2 | discriminate]].
      destruct S2 as [l2 [E2 F2]]. split.
      * eexists. split.
        -- cbn [world_of with_shown shown]. rewrite E2.
           rewrite <- app_assoc. reflexivity.
        -- now rewrite forallb_app, F2.
      * intros w' Hd. injection Hd as <-.
        exists (shown w2), t, (to_csv sel_df). reflexivity.
    + split; [exact S2 | discriminate].
  - split; [|discriminate]. cbn [world_of].
    exists ([Title "Crypto Market Overview"; Spinner "Fetching data..."] ++ l)%list.
    split.
    + rewrite El. unfold w0. cbn [with_shown shown].
      now rewrite <- app_assoc.
    + rewrite forallb_app, (Quiet l Fl). reflexivity.
  - split; [|discriminate]. cbn [world_of].
    exists ([Title "Crypto Market Overview"; Spinner "Fetching data..."] ++ l)%list.
    split.
    + rewrite El. unfold w0. cbn [with_shown shown].
      now rewrite <- app_assoc.
    + rewrite forallb_app, (Quiet l Fl). reflexivity.
Qed.

(** The date conversion of lines 79-80 is not guarded: it raises
    [KeyError] on the first of the two date columns the frame lacks,
    and otherwise leaves every other column as it was.  So a dataset
    without an [ath_date] column stops the script with that [KeyError]
    whatever columns were picked, with no table on the page. *)
Theorem date_columns_are_required (df : frame) :
  (~ In "ath_date" (column_names df) ->
   convert_dates df = Err (KeyError "ath_date"))
  /\ (In "ath_date" (column_names df) ->
      ~ In "atl_date" (column_names df) ->
      convert_dates df = Err (KeyError "atl_date"))
  /\ (forall df' k,
         convert_dates df = Ok df' ->
         k <> "ath_date" -> k <> "atl_date" ->
         getitem df' k = getitem df k)
  /\ (forall fuel picked w w1,
         fetch_and_display_data fuel
           (with_shown [Title "Crypto Market Overview";
                        Spinner "Fetching data..."] w) = Done df w1 ->
         ~ In "ath_date" (column_names df) ->
         script fuel picked w
         = Raised (KeyError "ath_date")
                  (with_shown
                     [SidebarSubheader "Select columns to display";
                      Multiselect "Choose columns:" (columns_to_display df)
                                  (default_columns df);
                      LastUpdated (now w1)] w1)).
Proof.
  assert (A : ~ In "ath_date" (column_names df) ->
              convert_dates df = Err (KeyError "ath_date")).
  { intros Hn. apply lookup_None_iff in Hn.
    unfold convert_dates, getitem. now rewrite Hn. }
  split; [exact A|]. split; [|split].
  - intros Ha Hn. unfold convert_dates, getitem.
    destruct (lookup "ath_date" (columns df)) as [ath|] eqn:E1.
    + cbn [result_bind]. unfold setitem at 1. cbn [columns].
      rewrite lookup_set_column_other by discriminate.
      apply lookup_None_iff in Hn. now rewrite Hn.
    + apply lookup_None_iff in E1. contradiction.
  - intros df' k. unfold convert_dates.
    destruct (getitem df "ath_date"); [|discriminate]. cbn [result_bind].
    destruct (getitem _ "atl_date"); [|discriminate]. cbn [result_bind].
    intros E Hk1 Hk2. injection E as <-.
    unfold getitem, setitem. cbn [columns].
    now rewrite !lookup_set_column_other by assumption.
  - intros fuel picked w w1 Hd Hn.
    rewrite script_eq, Hd. cbn zeta. now rewrite (A Hn).
Qed.

End ColdRun.

Lemma cold_run_never_shows_the_error_witness :
  exists before t csv,
    shown (world_of (@script Sample.small 1 None Sample.start))
    = (before ++ [Dataframe t;
                  DownloadButton "Download data as CSV" csv
                                 "crypto_data.csv" "text/csv"])%list.
Proof.
  destruct (@cold_run_never_shows_the_error Sample.small 1 None Sample.start
              eq_refl) as [_ Hd].
  destruct (@script Sample.small 1 None Sample.start) as [[] w'|e w'|w'] eqn:E;
    [|vm_compute in E; discriminate E | vm_compute in E; discriminate E].
  exact (Hd w' eq_refl).
Defined.

Lemma date_columns_are_required_witness :
  @convert_dates Sample.small Sample.prices = Err (KeyError "ath_date").
Proof.
  apply (@date_columns_are_required Sample.small Sample.prices).
  intros [E | [E | []]]; discriminate E.
Defined.

(** *** The precision ladder *)

Section Ladder.
Import PyFloat.

(** A value at least as large as one above a positive bound is above the
    bound too. *)
Lemma gt_mono (a b : float) (mt : positive) (et : Z) :
  le a b = true ->
  gt a (S754_finite false mt et) = true ->
  gt b (S754_finite false mt et) = true.
Proof.
  unfold le, gt, SFleb, SFltb.
  destruct a as [sa|sa| |sa ma ea], b as [sb|sb| |sb mb eb];
    cbn [SFcompare]; try discriminate;
    try (destruct sa; discriminate);
    try (destruct sa, sb; (discriminate || reflexivity || idtac)).
  change (PosDef.Pos.compare_cont Eq ma mb) with (Pos.compare ma mb).
  change (PosDef.Pos.compare_cont Eq mt ma) with (Pos.compare mt ma).
  change (PosDef.Pos.compare_cont Eq mt mb) with (Pos.compare mt mb).
  destruct (Z.compare_spec ea eb), (Z.compare_spec et ea),
    (Z.compare_spec et eb); try discriminate; try reflexivity; try lia;
    destruct (Pos.compare_spec ma mb), (Pos.compare_spec mt ma),
      (Pos.compare_spec mt mb); try discriminate; try reflexivity; lia.
Qed.

(** The ladder of [price_format] never gives a larger value more
    decimals than a smaller one.  For finite floats [a <= b] the texts
    [price_format] writes for them both have a decimal point, the text
    of [b] has at most as many digits after it as the text of [a], and
    both have between 2 and 15.  A float that is not finite (an
    infinity or NaN) is written without a decimal point. *)
Theorem price_ladder_is_monotone :
  (forall a b : float,
      is_finite a = true -> is_finite b = true -> le a b = true ->
      exists ta tb da db,
        price_format (VNum a) = Ok ta
        /\ price_format (VNum b) = Ok tb
        /\ decimal_places ta = Some da
        /\ decimal_places tb = Some db
        /\ (db <= da)%nat /\ (2 <= db)%nat /\ (da <= 15)%nat)
  /\ (forall f : float,
         is_finite f = false ->
         exists t, price_format (VNum f) = Ok t /\ decimal_places t = None).
Proof.
  split.
  - intros a b Fa Fb Hle.
    eexists _, _, _, _.
    split; [apply price_format_cases|]. split; [apply price_format_cases|].
    split.
    { apply decimal_places_format_f; [exact Fa|].
      repeat match goal with
             | |- context [if ?c then _ else _] => destruct c
             end; discriminate. }
    split.
    { apply decimal_places_format_f; [exact Fb|].
      repeat match goal with
             | |- context [if ?c then _ else _] => destruct c
             end; discriminate. }
    destruct bounds_values as (-> & -> & -> & -> & -> & ->).
    pose proof (fun m e => gt_mono a b m e Hle) as M.
    repeat match goal with
           | |- context [gt a ?t] =>
               let E := fresh "A" in
               destruct (gt a t) eqn:E;
               [rewrite (M _ _ E)|]
           end;
      repeat match goal with
             | |- context [gt b ?t] => destruct (gt b t)
             end;
      repeat split; lia.
  - intros f Hf. eexists. split; [apply price_format_cases|].
    destruct f as [s|s| |s m e]; try discriminate; cbn [format_f].
    + destruct s; reflexivity.
    + reflexivity.
Qed.

Lemma price_ladder_is_monotone_witness :
  exists ta tb da db,
    price_format (VNum (lit 5 3)) = Ok ta
    /\ price_format (VNum (lit 5 0)) = Ok tb
    /\ decimal_places ta = Some da
    /\ decimal_places tb = Some db
    /\ (db <= da)%nat /\ (2 <= db)%nat /\ (da <= 15)%nat.
Proof.
  exact (proj1 price_ladder_is_monotone (lit 5 3) (lit 5 0)
               eq_refl eq_refl eq_refl).
Defined.

End Ladder.

(** *** What a cycle costs *)

Section Ledger.
Context `{Outside}.

Lemma billed_refl (w : world) : billed w w 0 0.
Proof.
  exists [], []. rewrite !app_nil_r. repeat split; auto. cbn. lia.
Qed.

Lemma billed_trans (w1 w2 w3 : world) (a b c d : nat) :
  billed w1 w2 a b -> billed w2 w3 c d -> billed w1 w3 (a + c) (b + d).
Proof.
  intros (r1 & s1 & E1 & F1 & L1 & M1 & P1 & Q1 & N1 & C1)
         (r2 & s2 & E2 & F2 & L2 & M2 & P2 & Q2 & N2 & C2).
  exists (r1 ++ r2)%list, (s1 ++ s2)%list.
  split; [now rewrite E2, E1, app_assoc|].
  split; [now rewrite F2, F1, app_assoc|].
  split; [rewrite length_app; lia|].
  split; [rewrite length_app; lia|].
  split; [now apply Forall_app|].
  split; [now rewrite forallb_app, Q1, Q2|].
  split; [lia | congruence].
Qed.

Lemma billed_failure (page : Z) (w : world) :
  In page [1; 2; 3; 4; 5] ->
  billed w (after_failures (page_request page) 1 w) 1 1.
Proof.
  intros Hp. eexists _, _. cbn [after_failures now sent shown cache].
  repeat split; try reflexivity.
  constructor; [|constructor]. now exists page.
Qed.

Lemma billed_success (page : Z) (w : world) :
  In page [1; 2; 3; 4; 5] ->
  billed w (with_sent (page_request page) w) 1 0.
Proof.
  intros Hp. exists [page_request page], [].
  cbn [with_sent now sent shown cache]. rewrite app_nil_r.
  repeat split; try reflexivity; [|lia].
  constructor; [|constructor]. now exists page.
Qed.

Lemma fetch_billed (fuel : nat) (page : Z) :
  In page [1; 2; 3; 4; 5] ->
  forall w,
    match fetch_data_continuously fuel markets_url (page_params page) w with
    | Done _ w' => exists k, billed w w' (k + 1) k
    | Raised _ _ => False
    | Looping w' => exists k, billed w w' k k
    end.
Proof.
  intros Hp. induction fuel as [|fuel IH]; intros w.
  - exists 0%nat. apply billed_refl.
  - destruct (failed (upstream (List.length (sent w)) (page_request page)))
      eqn:Hf.
    + rewrite (fetch_turn markets_url (page_params page) fuel w Hf).
      specialize (IH (after_failures (page_request page) 1 w)).
      change (get_request markets_url (page_params page))
        with (page_request page).
      destruct (fetch_data_continuously fuel markets_url (page_params page)
                  (after_failures (page_request page) 1 w))
        as [json w'|e w'|w']; [| exact IH |].
      * destruct IH as [k Hk]. exists (S k).
        exact (billed_trans _ _ _ _ _ _ _ (billed_failure page w Hp) Hk).
      * destruct IH as [k Hk]. exists (S k).
        exact (billed_trans _ _ _ _ _ _ _ (billed_failure page w Hp) Hk).
    + cbn [fetch_data_continuously]. unfold bind at 1, requests_get.
      change {| req_url := markets_url; req_params := page_params page;
                req_timeout := 10 |} with (page_request page).
      destruct (upstream (List.length (sent w)) (page_request page))
        as [status_code json|]; [|discriminate].
      cbn [failed] in Hf. apply negb_false_iff in Hf. rewrite Hf.
      exists 0%nat. now apply billed_success.
Qed.

Lemma for_pages_billed (fuel : nat) (pages : list Z) :
  incl pages [1; 2; 3; 4; 5] ->
  forall all_data w,
    match for_pages (fetch_data_continuously fuel) pages all_data w with
    | Done _ w' => exists k, billed w w' (k + List.length pages) k
    | Raised _ _ => False
    | Looping w' =>
        exists n k, billed w w' n k
                    /\ (k <= n)%nat /\ (n < k + List.length pages)%nat
    end.
Proof.
  induction pages as [|page rest IH]; intros Hincl all_data w.
  - exists 0%nat. apply billed_refl.
  - cbn [for_pages]. unfold bind at 1.
    pose proof (fetch_billed fuel page (Hincl page (or_introl eq_refl)) w)
      as Hf.
    destruct (fetch_data_continuously fuel markets_url (page_params page) w)
      as [coins w1|e w1|w1]; [| exact Hf |].
    + destruct Hf as [k1 B1].
      specialize (IH (fun p Hp => Hincl p (or_intror Hp))
                     (if truthy coins then extend all_data coins
                      else all_data) w1).
      destruct (for_pages (fetch_data_continuously fuel) rest _ w1)
        as [data w2|e w2|w2]; [| exact IH |].
      * destruct IH as [k2 B2]. exists (k1 + k2)%nat.
        pose proof (billed_trans _ _ _ _ _ _ _ B1 B2) as B.
        cbn [List.length].
        now replace (k1 + k2 + S (List.length rest))%nat
          with (k1 + 1 + (k2 + List.length rest))%nat by lia.
      * destruct IH as (n2 & k2 & B2 & Hle & Hlt).
        exists (k1 + 1 + n2)%nat, (k1 + k2)%nat. split; [|split].
        -- exact (billed_trans _ _ _ _ _ _ _ B1 B2).
        -- lia.
        -- cbn [List.length]. lia.
    + destruct Hf as [k B]. exists k, k. split; [exact B|].
      cbn [List.length]. lia.
Qed.

(** The bill of one cycle of the aggregator, whatever the upstream does.
    Every request goes to the markets endpoint for one of the pages 1 to
    5, every warning costs ten seconds, nothing but warnings is shown and
    the cache is not touched.  A cycle that comes to its end, with a
    frame or with an exception of normalisation, has sent five requests
    more than it has shown warnings; one that is still turning has sent
    at least as many requests as warnings and fewer than five more. *)
Theorem cycle_ledger (fuel : nat) (w : world) :
  match get_top_500_pairs_by_volume fuel w with
  | Done _ w' => exists k, billed w w' (k + 5) k
  | Raised _ w' => exists k, billed w w' (k + 5) k
  | Looping w' =>
      exists n k, billed w w' n k /\ (k <= n)%nat /\ (n < k + 5)%nat
  end.
Proof.
  unfold get_top_500_pairs_by_volume, get_top_500_pairs_by_volume_with.
  unfold bind.
  pose proof (for_pages_billed fuel (range 1 6) (fun p Hp => Hp) [] w) as Hp.
  destruct (for_pages (fetch_data_continuously fuel) (range 1 6) [] w)
    as [data w1|e w1|w1]; [| contradiction | exact Hp].
  unfold lift. destruct (normalize data); exact Hp.
Qed.

End Ledger.

(** *** Cells the formatters cannot write *)

Section BadCells.

Lemma result_map_all_Ok {A B} (f : A -> result B) (l : list A)
      (out : list B) :
  result_map f l = Ok out -> forall x, In x l -> exists y, f x = Ok y.
Proof.
  revert out. induction l as [|a l IH]; intros out; [intros _ x []|].
  cbn [result_map]. destruct (f a) as [y0|] eqn:Ea; [|discriminate].
  cbn [result_bind].
  destruct (result_map f l) as [ys|]; [|discriminate].
  intros _ x [<- | Hx]; [now exists y0 | now apply (IH ys)].
Qed.

(** Line 130 comes before line 133, and rendering needs every cell: a
    single cell that the formatter of its column cannot write makes the
    run raise there, with neither the table nor the download button on
    the page.  A number is never such a cell: [price_format] and the
    templates write every float, NaN and the infinities included.
    Anything else is: [price_format] raises [TypeError] on a value that
    is not a number, a template raises [ValueError] on text and
    [TypeError] on [None]. *)
Theorem unformattable_cell_stops_the_table :
  (forall (df pairs_df : frame) (selected : list string) (w : world)
          (k : string) (cells : list value) (v : value) (e0 : exn),
      empty df = false ->
      match selected with
      | [] => Ok df
      | _ :: _ => getitems df selected
      end = Ok pairs_df ->
      In (k, cells) (columns pairs_df) -> In v cells ->
      display (lookup k formatters) v = Err e0 ->
      exists e, present df selected w = Raised e w)
  /\ (forall f, exists text, price_format (VNum f) = Ok text)
  /\ (forall f decimals suffix,
         exists text, str_format decimals suffix (VNum f) = Ok text)
  /\ (forall v, is_num v = false -> price_format v = Err TypeError)
  /\ (forall decimals suffix s,
         str_format decimals suffix (VStr s) = Err ValueError)
  /\ (forall decimals suffix,
         str_format decimals suffix VNone = Err TypeError).
Proof.
  split; [|split; [|split; [|split; [|split]]]].
  - intros df pairs_df selected w k cells v e0 He Hs Hc Hv Hd.
    rewrite present_eq, He, Hs.
    destruct (render (style_format pairs_df formatters)) as [t|e] eqn:R;
      [|now exists e].
    exfalso. unfold render in R. cbn [style_format data display_funcs] in R.
    destruct (result_map _ (columns pairs_df)) as [texts|] eqn:E;
      [|discriminate].
    destruct (result_map_all_Ok _ _ _ E (k, cells) Hc) as [col Hcol].
    cbn [fst snd] in Hcol.
    destruct (result_map_all_Ok _ _ _ Hcol v Hv) as [text Ht].
    congruence.
  - intros f. eexists. apply price_format_cases.
  - intros f decimals suffix. eexists. reflexivity.
  - intros v Hv. destruct v; try reflexivity; discriminate.
  - reflexivity.
  - reflexivity.
Qed.

Lemma unformattable_cell_stops_the_table_witness :
  exists e,
    present {| index_len := 1;
               columns := [("current_price", [VStr "n/a"])] |}
            [] Sample.start
    = Raised e Sample.start.
Proof.
  apply (proj1 unformattable_cell_stops_the_table
               {| index_len := 1;
                  columns := [("current_price", [VStr "n/a"])] |}
               {| index_len := 1;
                  columns := [("current_price", [VStr "n/a"])] |}
               [] Sample.start "current_price" [VStr "n/a"] (VStr "n/a")
               TypeError).
  - reflexivity.
  - reflexivity.
  - left. reflexivity.
  - left. reflexivity.
  - reflexivity.
Defined.

End BadCells.

(** *** The numeral of a float *)

Section Numerals.
Import PyFloat.




End Numerals.

(** *** Integer cells *)

Section Integers.
Import PyFloat.

Lemma int_gt_small (z : Z) (m : positive) (e : Z) :
  e < 0 -> Z.pos m < 2 ^ (- e) ->
  int_gt z (S754_finite false m e) = (0 <? z).
Proof.
  intros He Hm. unfold int_gt.
  destruct (0 <=? e) eqn:E; [apply Z.leb_le in E; lia|].
  assert (P : 0 < 2 ^ (- e)) by (apply Z.pow_pos_nonneg; lia).
  destruct (0 <? z) eqn:Z0.
  - apply Z.ltb_lt in Z0. apply Z.ltb_lt. nia.
  - apply Z.ltb_ge in Z0. apply Z.ltb_ge. nia.
Qed.

Lemma all_int_no_float (cells : list value) :
  forallb is_int cells = true -> float_dtype cells = false.
Proof.
  intros Hall. unfold float_dtype.
  assert (F : existsb is_float cells = false).
  { apply not_true_iff_false. intros Hex.
    apply existsb_exists in Hex. destruct Hex as [v [Hv Hf]].
    rewrite forallb_forall in Hall. specialize (Hall v Hv).
    now destruct v. }
  assert (N : existsb is_none cells = false).
  { apply not_true_iff_false. intros Hex.
    apply existsb_exists in Hex. destruct Hex as [v [Hv Hf]].
    rewrite forallb_forall in Hall. specialize (Hall v Hv).
    now destruct v. }
  rewrite F, N. now rewrite andb_false_r, andb_false_r.
Qed.

(** Numbers the upstream sends without a fraction.  A column of
    integers only stays a column of integers in the frame, and its
    upper-casing (were it the symbol column) raises [AttributeError];
    next to a float or a missing value the integers become floats.
    [price_format] writes an integer above zero with two decimals and
    any other integer with fifteen, and the export writes an integer
    with its digits only: a rank of 1 is exported as 1, but as 1.0 when
    another record has no rank. *)
Theorem integer_cells :
  (forall cells, int_dtype cells = true ->
                 infer_objects cells = cells
                 /\ str_upper cells = Err AttributeError)
  /\ infer_objects [VInt 1; VNum (lit 5 1)]
     = [VNum (lit 1 0); VNum (lit 5 1)]
  /\ infer_objects [VInt 1; VNone] = [VNum (lit 1 0); NaN]
  /\ (forall z, price_format (VInt z)
                = str_format (if 0 <? z then 2 else 15) "" (VInt z))
  /\ price_format (VInt 43250) = Ok "43,250.00"
  /\ price_format (VInt 0) = Ok "0.000000000000000"
  /\ to_csv (DataFrame [[("market_cap_rank", VInt 1)];
                        [("market_cap_rank", VInt 2)]])
     = "market_cap_rank" ++ newline ++ "1" ++ newline ++ "2" ++ newline
  /\ to_csv (DataFrame [[("market_cap_rank", VInt 1)];
                        [("market_cap_rank", VNone)]])
     = "market_cap_rank" ++ newline ++ "1.0" ++ newline
         ++ dquote ++ dquote ++ newline.
Proof.
  split; [|split; [|split; [|split]]].
  - intros cells Hi. split.
    + unfold infer_objects. rewrite all_int_no_float; [reflexivity|].
      unfold int_dtype in Hi. now apply andb_true_iff in Hi.
    + unfold str_upper. rewrite Hi. now rewrite orb_true_r.
  - vm_compute. reflexivity.
  - vm_compute. reflexivity.
  - intros z. unfold price_format. cbn [py_gt result_bind].
    destruct bounds_values as (-> & -> & -> & -> & -> & ->).
    rewrite !int_gt_small by (vm_compute; reflexivity).
    now destruct (0 <? z).
  - vm_compute. repeat split.
Qed.

Lemma integer_cells_witness :
  infer_objects [VInt 1; VInt 2] = [VInt 1; VInt 2]
  /\ str_upper [VInt 1; VInt 2] = Err AttributeError.
Proof.
  exact (proj1 integer_cells [VInt 1; VInt 2] eq_refl).
Defined.

End Integers.
